(** * BlenderImgui: the overlay registry, the draw translator and the input
      translator of [ImguiExample/blender_imgui.py]

    A shallow embedding of the Python module.  Python objects that the code
    only passes around (callbacks, region classes, textures, contexts, draw
    hooks) are identities; the host (Blender's [bpy] and [gpu] modules, the
    [imgui] library, process memory) is an explicit world that records every
    call made to it.  Python floats are idealised as rationals ([Q]) and
    [int(x)] as truncation toward zero.

    The host is modelled where the module uses it as intended: a call into
    [imgui], [bpy] or [gpu] does what it is asked and returns;
    [imgui.get_io()] is the io of the context created last, which the
    library only hands out while that context is current; and a draw data
    snapshot has buffer sizes that are not negative.  Outside of that the
    library raises where the model goes on: [get_io] without a context, and
    [as_array] with a negative shape. *)

From Stdlib Require Import ZArith QArith List String Bool Lia Sorted.
From Stdlib Require Import DecimalString.
Import ListNotations.

Close Scope Q_scope.
Open Scope Z_scope.

(** ** Python data *)

(** An insertion-ordered Python [dict]: assigning to a key that is present
    keeps its position, assigning to a new key appends, [del] removes. *)
Module PyDict.
Section Dict.
Context {K V : Type}.
Variable eqb : K -> K -> bool.

Definition dict := list (K * V).

Fixpoint contains (k : K) (d : dict) : bool :=
  match d with
  | [] => false
  | (k', _) :: d' => if eqb k k' then true else contains k d'
  end.

Fixpoint setitem (k : K) (v : V) (d : dict) : dict :=
  match d with
  | [] => [(k, v)]
  | (k', v') :: d' =>
      if eqb k k' then (k', v) :: d' else (k', v') :: setitem k v d'
  end.

Fixpoint delitem (k : K) (d : dict) : dict :=
  match d with
  | [] => []
  | (k', v') :: d' =>
      if eqb k k' then d' else (k', v') :: delitem k d'
  end.

Fixpoint getitem (k : K) (d : dict) : option V :=
  match d with
  | [] => None
  | (k', v') :: d' => if eqb k k' then Some v' else getitem k d'
  end.

Definition keys (d : dict) : list K := map fst d.
Definition values (d : dict) : list V := map snd d.
Definition items (d : dict) : list (K * V) := d.
End Dict.
Arguments dict : clear implicits.
End PyDict.

(** [l[lo:hi]] on a Python sequence or a one-dimensional numpy array: a
    negative bound counts from the end, both bounds are clamped to the
    length. *)
Definition slice_bound (len i : Z) : Z :=
  if i <? 0 then Z.max 0 (i + len) else Z.min i len.

Definition py_slice {A : Type} (l : list A) (lo hi : Z) : list A :=
  let len := Z.of_nat (List.length l) in
  let a := slice_bound len lo in
  let b := slice_bound len hi in
  firstn (Z.to_nat (b - a)) (skipn (Z.to_nat a) l).

(** [str(n)] of a length. *)
Definition str (n : nat) : string := NilZero.string_of_uint (Nat.to_uint n).

(** [int(x)] of a float. *)
Definition int (x : Q) : Z := Z.quot (Qnum x) (Z.pos (Qden x)).

(** Exceptions the module can raise. *)
Inductive PyExn : Type :=
| AttributeError (attr : string)
| TypeError (msg : string)
| ValueError (msg : string)
| KeyError (key : string)
| RuntimeError (msg : string).

Inductive Outcome (A : Type) : Type :=
| Return (a : A)
| Raise (e : PyExn).
Arguments Return {A} a.
Arguments Raise {A} e.

(** ** Opaque objects *)

(** A class deriving from [bpy.types.Space], used only as a dictionary key. *)
Inductive SpaceType : Type := Space (name : string).
(** A draw callback (any callable of one argument). *)
Inductive Callback : Type := Cb (id : nat).
(** The handle [SpaceType.draw_handler_add] returns. *)
Inductive DrawHandler : Type := Handler (id : nat).
(** What [imgui.create_context()] returns. *)
Inductive ImguiContext : Type := Ctx (id : nat).
(** A texture identifier carried by a draw command. *)
Inductive Texture : Type := Tex (id : nat).

Definition SpaceType_eqb (a b : SpaceType) : bool :=
  match a, b with Space x, Space y => String.eqb x y end.

(** [bpy.context] as far as [draw] reads it. *)
Record BpyContext : Type := {
  region_width : Z;
  region_height : Z;
  ui_scale : Q
}.

(** ** Draw data (produced by the GUI library) *)

Record DrawCmd : Type := {
  clip_rect : Q * Q * Q * Q;
  texture_id : Texture;
  elem_count : Z
}.

Record CmdList : Type := {
  idx_buffer_size : Z;
  idx_buffer_data : Z;   (* address *)
  vtx_buffer_size : Z;
  vtx_buffer_data : Z;   (* address *)
  commands : list DrawCmd
}.

Record DrawData : Type := {
  commands_lists : list CmdList
}.

(** What [batch_for_shader(shader, 'TRIS', {...}, indices=...)] is given.
    A float read from memory is kept as its 32-bit pattern. *)
Record Batch : Type := {
  Position : list (list Z);
  UV : list (list Z);
  Color : list (list Q);
  indices : list Z
}.

(** ** The host *)

(** Calls into [imgui], [bpy], [gpu] and the interpreter, in the order the
    module makes them. *)
Inductive HostCall : Type :=
| imgui_create_context (c : ImguiContext)
| imgui_destroy_context (c : ImguiContext)
| BlenderImguiRenderer_new
| draw_handler_add (s : SpaceType) (h : DrawHandler)
| draw_handler_remove (s : SpaceType) (h : DrawHandler)
| print (msg : string) (arg : Z)
| imgui_new_frame
| imgui_end_frame
| imgui_render
| imgui_get_draw_data
| py_call (cb : Callback) (context : BpyContext)
| blend_get
| blend_set (mode : string)
| face_culling_set (mode : string)
| scissor_test_set (enable : bool)
| viewport_set (x y w h : Z)
| scissor_set (x y w h : Z)
| shader_bind
| uniform_float (name : string) (value : list Q)
| uniform_int (name : string) (value : Z)
| uniform_sampler (name : string) (t : Texture)
| batch_draw (b : Batch).

Record GpuState : Type := {
  blend : string;
  face_culling : string;
  scissor_test : bool;
  viewport : Z * Z * Z * Z;
  scissor : Z * Z * Z * Z
}.

(** The effect of one call on [gpu.state]. *)
Definition gpu_step (g : GpuState) (c : HostCall) : GpuState :=
  match c with
  | blend_set m =>
      {| blend := m; face_culling := face_culling g;
         scissor_test := scissor_test g; viewport := viewport g;
         scissor := scissor g |}
  | face_culling_set m =>
      {| blend := blend g; face_culling := m;
         scissor_test := scissor_test g; viewport := viewport g;
         scissor := scissor g |}
  | scissor_test_set b =>
      {| blend := blend g; face_culling := face_culling g;
         scissor_test := b; viewport := viewport g;
         scissor := scissor g |}
  | viewport_set x y w h =>
      {| blend := blend g; face_culling := face_culling g;
         scissor_test := scissor_test g; viewport := (x, y, w, h);
         scissor := scissor g |}
  | scissor_set x y w h =>
      {| blend := blend g; face_culling := face_culling g;
         scissor_test := scissor_test g; viewport := viewport g;
         scissor := (x, y, w, h) |}
  | _ => g
  end.

(** [imgui.get_io()]. *)
Record Io : Type := {
  display_size : Q * Q;
  display_fb_scale : Q * Q;
  font_global_scale : Q;
  key_map : PyDict.dict Z Z;
  keys_down : Z -> bool;
  mouse_pos : Z * Z;
  mouse_down : Z -> bool;
  mouse_wheel : Z;
  key_ctrl : bool;
  key_alt : bool;
  key_shift : bool;
  key_super : bool;
  input_characters : list Z
}.

(** The constants of the [imgui] module the code reads. *)
Record ImguiModule : Type := {
  INDEX_SIZE : Z;
  KEY_TAB : Z; KEY_LEFT_ARROW : Z; KEY_RIGHT_ARROW : Z; KEY_UP_ARROW : Z;
  KEY_DOWN_ARROW : Z; KEY_HOME : Z; KEY_END : Z; KEY_INSERT : Z;
  KEY_DELETE : Z; KEY_BACKSPACE : Z; KEY_ENTER : Z; KEY_ESCAPE : Z;
  KEY_PAGE_UP : Z; KEY_PAGE_DOWN : Z; KEY_A : Z; KEY_C : Z; KEY_V : Z;
  KEY_X : Z; KEY_Y : Z; KEY_Z : Z
}.

(** Modelled from the spec: [imgui.VERTEX_SIZE] is a constant of the GUI
    library and is not in the module.  A vertex is a position, a texture
    coordinate (two floats each) and one packed colour (spec, section 3),
    20 bytes; [render] slices its rows by that layout. *)
Definition VERTEX_SIZE : Z := 20.

Record Host : Type := {
  imgui : ImguiModule;
  io : Io;
  gpu : GpuState;
  installed : list (SpaceType * DrawHandler);
  fresh_id : nat;
  bpy_context : BpyContext;
  draw_data_of_frame : DrawData;
  memory : Z -> Z;          (* the 32-bit word at a byte address *)
  log : list HostCall
}.

(** ** The singleton [GlobalImgui]: an attribute is [None] until an
    assignment creates it; [imgui_ctx] always exists and holds Python's
    [None] or a context. *)
Record GlobalImgui : Type := {
  imgui_ctx : option ImguiContext;
  imgui_backend : option unit;
  draw_handlers : option (PyDict.dict SpaceType DrawHandler);
  callbacks : option (PyDict.dict Z (Callback * SpaceType));
  next_callback_id : option Z
}.

Record World : Type := {
  self : GlobalImgui;
  host : Host
}.

(** ** Record updates *)

Definition with_self (f : GlobalImgui -> GlobalImgui) (w : World) : World :=
  {| self := f (self w); host := host w |}.

Definition with_host (f : Host -> Host) (w : World) : World :=
  {| self := self w; host := f (host w) |}.

Definition set_imgui_ctx (v : option ImguiContext) (g : GlobalImgui) :=
  {| imgui_ctx := v; imgui_backend := imgui_backend g;
     draw_handlers := draw_handlers g; callbacks := callbacks g;
     next_callback_id := next_callback_id g |}.

Definition set_imgui_backend (v : option unit) (g : GlobalImgui) :=
  {| imgui_ctx := imgui_ctx g; imgui_backend := v;
     draw_handlers := draw_handlers g; callbacks := callbacks g;
     next_callback_id := next_callback_id g |}.

Definition set_draw_handlers
  (v : option (PyDict.dict SpaceType DrawHandler)) (g : GlobalImgui) :=
  {| imgui_ctx := imgui_ctx g; imgui_backend := imgui_backend g;
     draw_handlers := v; callbacks := callbacks g;
     next_callback_id := next_callback_id g |}.

Definition set_callbacks
  (v : option (PyDict.dict Z (Callback * SpaceType))) (g : GlobalImgui) :=
  {| imgui_ctx := imgui_ctx g; imgui_backend := imgui_backend g;
     draw_handlers := draw_handlers g; callbacks := v;
     next_callback_id := next_callback_id g |}.

Definition set_next_callback_id (v : option Z) (g : GlobalImgui) :=
  {| imgui_ctx := imgui_ctx g; imgui_backend := imgui_backend g;
     draw_handlers := draw_handlers g; callbacks := callbacks g;
     next_callback_id := v |}.

Definition set_io (v : Io) (h : Host) : Host :=
  {| imgui := imgui h; io := v; gpu := gpu h; installed := installed h;
     fresh_id := fresh_id h; bpy_context := bpy_context h;
     draw_data_of_frame := draw_data_of_frame h; memory := memory h;
     log := log h |}.

Definition set_installed (v : list (SpaceType * DrawHandler)) (h : Host) :=
  {| imgui := imgui h; io := io h; gpu := gpu h; installed := v;
     fresh_id := fresh_id h; bpy_context := bpy_context h;
     draw_data_of_frame := draw_data_of_frame h; memory := memory h;
     log := log h |}.

Definition set_fresh_id (v : nat) (h : Host) : Host :=
  {| imgui := imgui h; io := io h; gpu := gpu h; installed := installed h;
     fresh_id := v; bpy_context := bpy_context h;
     draw_data_of_frame := draw_data_of_frame h; memory := memory h;
     log := log h |}.

Definition set_display_size (v : Q * Q) (i : Io) : Io :=
  {| display_size := v; display_fb_scale := display_fb_scale i;
     font_global_scale := font_global_scale i; key_map := key_map i;
     keys_down := keys_down i; mouse_pos := mouse_pos i;
     mouse_down := mouse_down i; mouse_wheel := mouse_wheel i;
     key_ctrl := key_ctrl i; key_alt := key_alt i; key_shift := key_shift i;
     key_super := key_super i; input_characters := input_characters i |}.

Definition set_font_global_scale (v : Q) (i : Io) : Io :=
  {| display_size := display_size i; display_fb_scale := display_fb_scale i;
     font_global_scale := v; key_map := key_map i; keys_down := keys_down i;
     mouse_pos := mouse_pos i; mouse_down := mouse_down i;
     mouse_wheel := mouse_wheel i; key_ctrl := key_ctrl i;
     key_alt := key_alt i; key_shift := key_shift i;
     key_super := key_super i; input_characters := input_characters i |}.

Definition set_key_map (v : PyDict.dict Z Z) (i : Io) : Io :=
  {| display_size := display_size i; display_fb_scale := display_fb_scale i;
     font_global_scale := font_global_scale i; key_map := v;
     keys_down := keys_down i; mouse_pos := mouse_pos i;
     mouse_down := mouse_down i; mouse_wheel := mouse_wheel i;
     key_ctrl := key_ctrl i; key_alt := key_alt i; key_shift := key_shift i;
     key_super := key_super i; input_characters := input_characters i |}.

Definition set_keys_down (v : Z -> bool) (i : Io) : Io :=
  {| display_size := display_size i; display_fb_scale := display_fb_scale i;
     font_global_scale := font_global_scale i; key_map := key_map i;
     keys_down := v; mouse_pos := mouse_pos i; mouse_down := mouse_down i;
     mouse_wheel := mouse_wheel i; key_ctrl := key_ctrl i;
     key_alt := key_alt i; key_shift := key_shift i;
     key_super := key_super i; input_characters := input_characters i |}.

Definition set_mouse_pos (v : Z * Z) (i : Io) : Io :=
  {| display_size := display_size i; display_fb_scale := display_fb_scale i;
     font_global_scale := font_global_scale i; key_map := key_map i;
     keys_down := keys_down i; mouse_pos := v; mouse_down := mouse_down i;
     mouse_wheel := mouse_wheel i; key_ctrl := key_ctrl i;
     key_alt := key_alt i; key_shift := key_shift i;
     key_super := key_super i; input_characters := input_characters i |}.

Definition set_mouse_down (v : Z -> bool) (i : Io) : Io :=
  {| display_size := display_size i; display_fb_scale := display_fb_scale i;
     font_global_scale := font_global_scale i; key_map := key_map i;
     keys_down := keys_down i; mouse_pos := mouse_pos i; mouse_down := v;
     mouse_wheel := mouse_wheel i; key_ctrl := key_ctrl i;
     key_alt := key_alt i; key_shift := key_shift i;
     key_super := key_super i; input_characters := input_characters i |}.

Definition set_mouse_wheel (v : Z) (i : Io) : Io :=
  {| display_size := display_size i; display_fb_scale := display_fb_scale i;
     font_global_scale := font_global_scale i; key_map := key_map i;
     keys_down := keys_down i; mouse_pos := mouse_pos i;
     mouse_down := mouse_down i; mouse_wheel := v; key_ctrl := key_ctrl i;
     key_alt := key_alt i; key_shift := key_shift i;
     key_super := key_super i; input_characters := input_characters i |}.

Definition set_key_ctrl (v : bool) (i : Io) : Io :=
  {| display_size := display_size i; display_fb_scale := display_fb_scale i;
     font_global_scale := font_global_scale i; key_map := key_map i;
     keys_down := keys_down i; mouse_pos := mouse_pos i;
     mouse_down := mouse_down i; mouse_wheel := mouse_wheel i; key_ctrl := v;
     key_alt := key_alt i; key_shift := key_shift i;
     key_super := key_super i; input_characters := input_characters i |}.

Definition set_key_alt (v : bool) (i : Io) : Io :=
  {| display_size := display_size i; display_fb_scale := display_fb_scale i;
     font_global_scale := font_global_scale i; key_map := key_map i;
     keys_down := keys_down i; mouse_pos := mouse_pos i;
     mouse_down := mouse_down i; mouse_wheel := mouse_wheel i;
     key_ctrl := key_ctrl i; key_alt := v; key_shift := key_shift i;
     key_super := key_super i; input_characters := input_characters i |}.

Definition set_key_shift (v : bool) (i : Io) : Io :=
  {| display_size := display_size i; display_fb_scale := display_fb_scale i;
     font_global_scale := font_global_scale i; key_map := key_map i;
     keys_down := keys_down i; mouse_pos := mouse_pos i;
     mouse_down := mouse_down i; mouse_wheel := mouse_wheel i;
     key_ctrl := key_ctrl i; key_alt := key_alt i; key_shift := v;
     key_super := key_super i; input_characters := input_characters i |}.

Definition set_key_super (v : bool) (i : Io) : Io :=
  {| display_size := display_size i; display_fb_scale := display_fb_scale i;
     font_global_scale := font_global_scale i; key_map := key_map i;
     keys_down := keys_down i; mouse_pos := mouse_pos i;
     mouse_down := mouse_down i; mouse_wheel := mouse_wheel i;
     key_ctrl := key_ctrl i; key_alt := key_alt i; key_shift := key_shift i;
     key_super := v; input_characters := input_characters i |}.

Definition set_input_characters (v : list Z) (i : Io) : Io :=
  {| display_size := display_size i; display_fb_scale := display_fb_scale i;
     font_global_scale := font_global_scale i; key_map := key_map i;
     keys_down := keys_down i; mouse_pos := mouse_pos i;
     mouse_down := mouse_down i; mouse_wheel := mouse_wheel i;
     key_ctrl := key_ctrl i; key_alt := key_alt i; key_shift := key_shift i;
     key_super := key_super i; input_characters := v |}.

(** [a[k] = v] on an array of booleans. *)
Definition store (a : Z -> bool) (k : Z) (v : bool) : Z -> bool :=
  fun i => if i =? k then v else a i.

(** A call reaches the host: it is logged and [gpu.state] follows it. *)
Definition record (c : HostCall) (h : Host) : Host :=
  {| imgui := imgui h; io := io h; gpu := gpu_step (gpu h) c;
     installed := installed h; fresh_id := fresh_id h;
     bpy_context := bpy_context h;
     draw_data_of_frame := draw_data_of_frame h; memory := memory h;
     log := log h ++ [c] |}.

(** ** Computations: state and exceptions

    A Python exception leaves every mutation made before it in place. *)
Definition M (A : Type) : Type := World -> Outcome A * World.

Definition ret {A} (a : A) : M A := fun w => (Return a, w).

Definition raise {A} (e : PyExn) : M A := fun w => (Raise e, w).

Definition bind {A B} (c : M A) (k : A -> M B) : M B :=
  fun w =>
    match c w with
    | (Return a, w') => k a w'
    | (Raise e, w') => (Raise e, w')
    end.

Declare Scope py_scope.
Delimit Scope py_scope with py.
Notation "x <- c ;; k" := (bind c (fun x => k))
  (at level 61, c at next level, right associativity) : py_scope.
Notation "' p <- c ;; k" := (bind c (fun x => let 'p := x in k))
  (at level 61, p pattern, c at next level, right associativity) : py_scope.
Notation "c ;; k" := (bind c (fun _ => k))
  (at level 61, right associativity) : py_scope.
Open Scope py_scope.

Definition gets {A} (f : World -> A) : M A := fun w => (Return (f w), w).

Definition modify (f : World -> World) : M unit := fun w => (Return tt, f w).

(** [for x in l: body(x)]. *)
Fixpoint for_each {A} (l : list A) (body : A -> M unit) : M unit :=
  match l with
  | [] => ret tt
  | x :: l' => body x ;; for_each l' body
  end.

Definition exec {A} (c : M A) (w : World) : World := snd (c w).
Definition result {A} (c : M A) (w : World) : Outcome A := fst (c w).

(** Reading [self.<name>]. *)
Definition getattr {A} (name : string) (proj : GlobalImgui -> option A)
  : M A :=
  fun w =>
    match proj (self w) with
    | Some a => (Return a, w)
    | None => (Raise (AttributeError name), w)
    end.

Definition host_call (c : HostCall) : M unit :=
  modify (with_host (record c)).

(** ** Host operations that return or may refuse *)

(** The largest finite single-precision float; a new io has its mouse
    position at [(-FLT_MAX, -FLT_MAX)]. *)
Definition FLT_MAX : Z := (2 ^ 24 - 1) * 2 ^ 104.

Definition new_io : Io :=
  {| display_size := ((-1) # 1, (-1) # 1)%Q; display_fb_scale := (1, 1)%Q;
     font_global_scale := 1%Q; key_map := [];
     keys_down := fun _ => false; mouse_pos := (- FLT_MAX, - FLT_MAX);
     mouse_down := fun _ => false; mouse_wheel := 0;
     key_ctrl := false; key_alt := false; key_shift := false;
     key_super := false; input_characters := [] |}.

(** [imgui.create_context()]: a new context with its own io. *)
Definition create_context : M ImguiContext :=
  n <- gets (fun w => fresh_id (host w)) ;;
  modify (with_host (fun h => set_io new_io (set_fresh_id (S n) h))) ;;
  host_call (imgui_create_context (Ctx n)) ;;
  ret (Ctx n).

(** [imgui.destroy_context(ctx)].  The io of the destroyed context is not
    taken out of the world: the library refuses [get_io] from then on, until
    a new context brings a new io. *)
Definition destroy_context (ctx : option ImguiContext) : M unit :=
  match ctx with
  | Some c => host_call (imgui_destroy_context c)
  | None => raise (RuntimeError "Context invalid (None or destroyed)")
  end.

Definition handler_installed (s : SpaceType) (d : DrawHandler)
  (e : SpaceType * DrawHandler) : bool :=
  match e, d with
  | (s', Handler i'), Handler i => SpaceType_eqb s s' && Nat.eqb i i'
  end.

Fixpoint uninstall (s : SpaceType) (d : DrawHandler)
  (l : list (SpaceType * DrawHandler)) : list (SpaceType * DrawHandler) :=
  match l with
  | [] => []
  | e :: l' => if handler_installed s d e then l' else e :: uninstall s d l'
  end.

(** [SpaceType.draw_handler_add(callback, args, 'WINDOW', 'POST_PIXEL')]. *)
Definition SpaceType_draw_handler_add (s : SpaceType) : M DrawHandler :=
  n <- gets (fun w => fresh_id (host w)) ;;
  modify (with_host (fun h =>
    set_installed (installed h ++ [(s, Handler n)]) (set_fresh_id (S n) h))) ;;
  host_call (draw_handler_add s (Handler n)) ;;
  ret (Handler n).

(** [SpaceType.draw_handler_remove(handler, 'WINDOW')]. *)
Definition SpaceType_draw_handler_remove (s : SpaceType) (d : DrawHandler)
  : M unit :=
  modify (with_host (fun h => set_installed (uninstall s d (installed h)) h)) ;;
  host_call (draw_handler_remove s d).

(** ** [BlenderImguiRenderer] *)
Module Renderer.

(** [draw_data.scale_clip_rects(sx, sy)] of the GUI library: every clip
    rectangle is multiplied by the scale, per axis. *)
Definition scale_clip_rect (sx sy : Q) (c : DrawCmd) : DrawCmd :=
  let '(x, y, z, w) := clip_rect c in
  {| clip_rect := (x * sx, y * sy, z * sx, w * sy)%Q;
     texture_id := texture_id c; elem_count := elem_count c |}.

Definition scale_clip_rects (d : DrawData) (sx sy : Q) : DrawData :=
  {| commands_lists :=
       map (fun l =>
              {| idx_buffer_size := idx_buffer_size l;
                 idx_buffer_data := idx_buffer_data l;
                 vtx_buffer_size := vtx_buffer_size l;
                 vtx_buffer_data := vtx_buffer_data l;
                 commands := map (scale_clip_rect sx sy) (commands l) |})
           (commands_lists d) |}.

(** [np.ctypeslib.as_array(ptr, shape=(size,))] over a pointer to 4-byte
    elements: the [size] words from [address] on, for a [size] that is not
    negative (numpy raises [ValueError] on a negative one, where this view is
    empty). *)
Definition as_array (mem : Z -> Z) (address size : Z) : list Z :=
  map (fun i => mem (address + 4 * Z.of_nat i) mod 2 ^ 32)
      (seq 0 (Z.to_nat size)).

(** A word read through [POINTER(c_int)]. *)
Definition c_int (w : Z) : Z := if w <? 2 ^ 31 then w else w - 2 ^ 32.

Fixpoint rows_of (n c : nat) (l : list Z) : list (list Z) :=
  match n with
  | O => []
  | S n' => firstn c l :: rows_of n' c (skipn c l)
  end.

(** [a.reshape(-1, c)]. *)
Definition reshape (l : list Z) (c : Z) : option (list (list Z)) :=
  let len := Z.of_nat (List.length l) in
  if (0 <? c) && (len mod c =? 0)
  then Some (rows_of (Z.to_nat (len / c)) (Z.to_nat c) l)
  else None.

(** [row.view(np.uint8)] on a little-endian host. *)
Definition bytes_of (w : Z) : list Z :=
  [w mod 256; (w / 256) mod 256; (w / 65536) mod 256; (w / 16777216) mod 256].

Definition view_uint8 (row : list Z) : list Z := flat_map bytes_of row.

Definition ortho_projection (display_width display_height : Q) : list Q :=
  [ (2 / display_width)%Q; 0%Q; 0%Q; 0%Q;
    0%Q; (2 / - display_height)%Q; 0%Q; 0%Q;
    0%Q; 0%Q; (-1 # 1)%Q; 0%Q;
    (-1 # 1)%Q; 1%Q; 0%Q; 1%Q ].

(** The scissor rectangle of line 170. *)
Definition scissor_rect (fb_height : Z) (r : Q * Q * Q * Q)
  : Z * Z * Z * Z :=
  let '(x, y, z, w) := r in
  (int x, int (inject_Z fb_height - w)%Q, int (z - x)%Q, int (w - y)%Q).

(** The batch of lines 172-185. *)
Definition batch_of (vtx_buffer_shaped : list (list Z))
  (idx_buffer_np : list Z) (idx_buffer_offset : Z) (command : DrawCmd)
  : Batch :=
  let vertices := map (fun row => py_slice row 0 2) vtx_buffer_shaped in
  let uvs := map (fun row => py_slice row 2 4) vtx_buffer_shaped in
  let colors :=
    map (fun row => skipn 16 (view_uint8 row)) vtx_buffer_shaped in
  let colors :=
    map (map (fun b => (inject_Z b / 255)%Q)) colors in
  let indices :=
    py_slice idx_buffer_np idx_buffer_offset
             (idx_buffer_offset + elem_count command) in
  {| Position := vertices; UV := uvs; Color := colors; indices := indices |}.

(** [for command in commands.commands: ...] with its running
    [idx_buffer_offset]. *)
Fixpoint draw_commands (fb_height : Z) (vtx_buffer_shaped : list (list Z))
  (idx_buffer_np : list Z) (idx_buffer_offset : Z) (cmds : list DrawCmd)
  : M unit :=
  match cmds with
  | [] => ret tt
  | command :: rest =>
      let '(x, y, w, h) := scissor_rect fb_height (clip_rect command) in
      host_call (scissor_set x y w h) ;;
      let batch :=
        batch_of vtx_buffer_shaped idx_buffer_np idx_buffer_offset command in
      host_call (uniform_sampler "Texture" (texture_id command)) ;;
      host_call (batch_draw batch) ;;
      draw_commands fb_height vtx_buffer_shaped idx_buffer_np
                    (idx_buffer_offset + elem_count command) rest
  end.

(** Lines 156-159: the index buffer seen as C ints. *)
Definition idx_buffer_np_of (h : Host) (cmd_list : CmdList) : list Z :=
  let size := idx_buffer_size cmd_list * INDEX_SIZE (imgui h) / 4 in
  map c_int (as_array (memory h) (idx_buffer_data cmd_list) size).

(** Lines 161-164: the vertex buffer seen as C floats. *)
Definition vtx_buffer_np_of (h : Host) (cmd_list : CmdList) : list Z :=
  let size := vtx_buffer_size cmd_list * VERTEX_SIZE / 4 in
  as_array (memory h) (vtx_buffer_data cmd_list) size.

(** The body of [for commands in draw_data.commands_lists]. *)
Definition draw_commands_list (fb_height : Z) (cmd_list : CmdList)
  : M unit :=
  idx_buffer_np <- gets (fun w => idx_buffer_np_of (host w) cmd_list) ;;
  vtx_buffer_np <- gets (fun w => vtx_buffer_np_of (host w) cmd_list) ;;
  match reshape vtx_buffer_np (VERTEX_SIZE / 4) with
  | None => raise (ValueError "cannot reshape array")
  | Some vtx_buffer_shaped =>
      draw_commands fb_height vtx_buffer_shaped idx_buffer_np 0
                    (commands cmd_list)
  end.

Definition fb_size (i : Io) : Z * Z :=
  let '(display_width, display_height) := display_size i in
  (int (display_width * fst (display_fb_scale i))%Q,
   int (display_height * snd (display_fb_scale i))%Q).

Definition render (draw_data : DrawData) : M unit :=
  io <- gets (fun w => io (host w)) ;;
  let '(display_width, display_height) := display_size io in
  let '(fb_width, fb_height) := fb_size io in
  if (fb_width =? 0) || (fb_height =? 0) then ret tt
  else
    let draw_data :=
      scale_clip_rects draw_data (fst (display_fb_scale io))
                       (snd (display_fb_scale io)) in
    host_call blend_get ;;
    last_blend <- gets (fun w => blend (gpu (host w))) ;;
    host_call (blend_set "ALPHA") ;;
    host_call (face_culling_set "NONE") ;;
    host_call (scissor_test_set true) ;;
    host_call (viewport_set 0 0 fb_width fb_height) ;;
    host_call shader_bind ;;
    host_call (uniform_float "ProjMtx"
                 (ortho_projection display_width display_height)) ;;
    host_call (uniform_int "Texture" 0) ;;
    for_each (commands_lists draw_data) (draw_commands_list fb_height) ;;
    host_call (blend_set last_blend) ;;
    host_call (scissor_test_set false).

End Renderer.

Definition modify_io (f : Io -> Io) : M unit :=
  modify (with_host (fun h => set_io (f (io h)) h)).

(** ** [GlobalImgui] *)
Module Registry.

(** [GlobalImgui()]: [__init__] creates [imgui_ctx] only. *)
Definition new : GlobalImgui :=
  {| imgui_ctx := None; imgui_backend := None; draw_handlers := None;
     callbacks := None; next_callback_id := None |}.

(** The process once the singleton exists, on any host. *)
Definition boot (h : Host) : World := {| self := new; host := h |}.

Definition setup_key_map : M unit :=
  im <- gets (fun w => imgui (host w)) ;;
  let keys :=
    [ KEY_TAB im; KEY_LEFT_ARROW im; KEY_RIGHT_ARROW im; KEY_UP_ARROW im;
      KEY_DOWN_ARROW im; KEY_HOME im; KEY_END im; KEY_INSERT im;
      KEY_DELETE im; KEY_BACKSPACE im; KEY_ENTER im; KEY_ESCAPE im;
      KEY_PAGE_UP im; KEY_PAGE_DOWN im; KEY_A im; KEY_C im; KEY_V im;
      KEY_X im; KEY_Y im; KEY_Z im ] in
  for_each keys (fun k =>
    modify_io (fun i => set_key_map (PyDict.setitem Z.eqb k k (key_map i)) i)).

Definition init_imgui : M unit :=
  ctx <- create_context ;;
  modify (with_self (set_imgui_ctx (Some ctx))) ;;
  host_call BlenderImguiRenderer_new ;;
  modify (with_self (set_imgui_backend (Some tt))) ;;
  setup_key_map ;;
  modify (with_self (set_draw_handlers (Some []))) ;;
  modify (with_self (set_callbacks (Some []))) ;;
  modify (with_self (set_next_callback_id (Some 0))).

Definition shutdown_imgui : M unit :=
  handlers <- getattr "draw_handlers" draw_handlers ;;
  for_each (PyDict.items handlers) (fun '(SpaceType, draw_handler) =>
    SpaceType_draw_handler_remove SpaceType draw_handler) ;;
  ctx <- gets (fun w => imgui_ctx (self w)) ;;
  destroy_context ctx ;;
  modify (with_self (set_imgui_ctx None)).

Definition handler_add (callback : Callback) (SpaceType : SpaceType)
  : M Z :=
  ctx <- gets (fun w => imgui_ctx (self w)) ;;
  match ctx with None => init_imgui | Some _ => ret tt end ;;
  handlers <- getattr "draw_handlers" draw_handlers ;;
  (if negb (PyDict.contains SpaceType_eqb SpaceType handlers) then
     h <- SpaceType_draw_handler_add SpaceType ;;
     modify (with_self (set_draw_handlers
       (Some (PyDict.setitem SpaceType_eqb SpaceType h handlers))))
   else ret tt) ;;
  handle <- getattr "next_callback_id" next_callback_id ;;
  modify (with_self (set_next_callback_id (Some (handle + 1)))) ;;
  cbs <- getattr "callbacks" callbacks ;;
  modify (with_self (set_callbacks
    (Some (PyDict.setitem Z.eqb handle (callback, SpaceType) cbs)))) ;;
  ret handle.

Definition handler_remove (handle : Z) : M unit :=
  cbs <- getattr "callbacks" callbacks ;;
  if negb (PyDict.contains Z.eqb handle cbs) then
    host_call (print "Error: invalid imgui callback handle: " handle)
  else
    modify (with_self (set_callbacks
      (Some (PyDict.delitem Z.eqb handle cbs)))) ;;
    cbs <- getattr "callbacks" callbacks ;;
    match cbs with
    | [] => shutdown_imgui
    | _ :: _ => ret tt
    end.

(** [draw], called by the host through an installed draw handler; its
    [imgui.get_io()] is the io of the world. *)
Definition draw (CurrentSpaceType : SpaceType) : M unit :=
  context <- gets (fun w => bpy_context (host w)) ;;
  modify_io (set_display_size
    (inject_Z (region_width context), inject_Z (region_height context))) ;;
  modify_io (set_font_global_scale (ui_scale context)) ;;
  host_call imgui_new_frame ;;
  cbs <- getattr "callbacks" callbacks ;;
  for_each (PyDict.values cbs) (fun '(cb, SpaceType) =>
    if SpaceType_eqb SpaceType CurrentSpaceType
    then host_call (py_call cb context)
    else ret tt) ;;
  host_call imgui_end_frame ;;
  host_call imgui_render ;;
  _ <- getattr "imgui_backend" imgui_backend ;;
  host_call imgui_get_draw_data ;;
  draw_data <- gets (fun w => draw_data_of_frame (host w)) ;;
  Renderer.render draw_data.

(** A client's calls on the singleton; a caller may catch what a call
    raises and go on. *)
Inductive Call : Type :=
| add (callback : Callback) (s : SpaceType)
| remove (handle : Z).

Definition call (c : Call) : M (option Z) :=
  match c with
  | add cb s => h <- handler_add cb s ;; ret (Some h)
  | remove h => handler_remove h ;; ret None
  end.

Fixpoint run (cs : list Call) (w : World)
  : list (Outcome (option Z)) * World :=
  match cs with
  | [] => ([], w)
  | c :: cs' =>
      let '(r, w') := call c w in
      let '(rs, w'') := run cs' w' in
      (r :: rs, w'')
  end.

(** The handles the [add] calls of a run returned. *)
Fixpoint handles (rs : list (Outcome (option Z))) : list Z :=
  match rs with
  | [] => []
  | Return (Some h) :: rs' => h :: handles rs'
  | _ :: rs' => handles rs'
  end.

End Registry.

(** ** [ImguiBasedOperator] *)
Module Operator.

(** A [bpy.types.Event] as far as [modal_imgui] reads it; [unicode] is the
    string's code points. *)
Record Event : Type := {
  type : string;
  value : string;
  mouse_region_x : Z;
  mouse_region_y : Z;
  unicode : list Z
}.

(** The class attribute [key_map]. *)
Definition key_map (im : ImguiModule) : PyDict.dict string Z :=
  [ ("TAB"%string, KEY_TAB im);
    ("LEFT_ARROW"%string, KEY_LEFT_ARROW im);
    ("RIGHT_ARROW"%string, KEY_RIGHT_ARROW im);
    ("UP_ARROW"%string, KEY_UP_ARROW im);
    ("DOWN_ARROW"%string, KEY_DOWN_ARROW im);
    ("HOME"%string, KEY_HOME im);
    ("END"%string, KEY_END im);
    ("INSERT"%string, KEY_INSERT im);
    ("DEL"%string, KEY_DELETE im);
    ("BACK_SPACE"%string, KEY_BACKSPACE im);
    ("RET"%string, KEY_ENTER im);
    ("ESC"%string, KEY_ESCAPE im);
    ("PAGE_UP"%string, KEY_PAGE_UP im);
    ("PAGE_DOWN"%string, KEY_PAGE_DOWN im);
    ("A"%string, KEY_A im);
    ("C"%string, KEY_C im);
    ("V"%string, KEY_V im);
    ("X"%string, KEY_X im);
    ("Y"%string, KEY_Y im);
    ("Z"%string, KEY_Z im);
    ("LEFT_CTRL"%string, 128 + 1);
    ("RIGHT_CTRL"%string, 128 + 2);
    ("LEFT_ALT"%string, 128 + 3);
    ("RIGHT_ALT"%string, 128 + 4);
    ("LEFT_SHIFT"%string, 128 + 5);
    ("RIGHT_SHIFT"%string, 128 + 6);
    ("OSKEY"%string, 128 + 7) ].

(** [d[k]]. *)
Definition subscript (d : PyDict.dict string Z) (k : string) : M Z :=
  match PyDict.getitem String.eqb k d with
  | Some v => ret v
  | None => raise (KeyError k)
  end.

(** [io.keys_down[self.key_map[name]]]. *)
Definition key_down (name : string) : M bool :=
  km <- gets (fun w => key_map (imgui (host w))) ;;
  k <- subscript km name ;;
  gets (fun w => keys_down (io (host w)) k).

(** What [ord] says of a string that is not one character. *)
Definition ord_message (n : nat) : string :=
  ("ord() expected a character, but string of length " ++ str n ++ " found")
  %string.

Definition modal_imgui (context : BpyContext) (event : Event) : M unit :=
  modify_io (set_mouse_pos
    (mouse_region_x event,
     region_height context - 1 - mouse_region_y event)) ;;
  (if (type event =? "LEFTMOUSE")%string then
     modify_io (fun i =>
       set_mouse_down (store (mouse_down i) 0 (value event =? "PRESS")%string) i)
   else if (type event =? "RIGHTMOUSE")%string then
     modify_io (fun i =>
       set_mouse_down (store (mouse_down i) 1 (value event =? "PRESS")%string) i)
   else if (type event =? "MIDDLEMOUSE")%string then
     modify_io (fun i =>
       set_mouse_down (store (mouse_down i) 2 (value event =? "PRESS")%string) i)
   else if (type event =? "WHEELUPMOUSE")%string then
     modify_io (set_mouse_wheel (-1))
   else if (type event =? "WHEELUPDOWN")%string then
     modify_io (set_mouse_wheel 1)
   else ret tt) ;;
  km <- gets (fun w => key_map (imgui (host w))) ;;
  (if PyDict.contains String.eqb (type event) km then
     if (value event =? "PRESS")%string then
       k <- subscript km (type event) ;;
       modify_io (fun i => set_keys_down (store (keys_down i) k true) i)
     else if (value event =? "RELEASE")%string then
       k <- subscript km (type event) ;;
       modify_io (fun i => set_keys_down (store (keys_down i) k false) i)
     else ret tt
   else ret tt) ;;
  left <- key_down "LEFT_CTRL" ;;
  right <- (if left then ret true else key_down "RIGHT_CTRL") ;;
  modify_io (set_key_ctrl right) ;;
  left <- key_down "LEFT_ALT" ;;
  right <- (if left then ret true else key_down "RIGHT_ALT") ;;
  modify_io (set_key_alt right) ;;
  left <- key_down "LEFT_SHIFT" ;;
  right <- (if left then ret true else key_down "RIGHT_SHIFT") ;;
  modify_io (set_key_shift right) ;;
  os <- key_down "OSKEY" ;;
  modify_io (set_key_super os) ;;
  match unicode event with
  | [] => ret tt
  | [char] =>
      if (0 <? char) && (char <? 65536) then
        modify_io (fun i =>
          set_input_characters (input_characters i ++ [char]) i)
      else ret tt
  | _ :: _ :: _ =>
      raise (TypeError (ord_message (List.length (unicode event))))
  end.

(** A stream of events, each handled by [modal_imgui]; what one event
    raises does not stop the next from arriving. *)
Fixpoint modal_events (context : BpyContext) (events : list Event)
  (w : World) : World :=
  match events with
  | [] => w
  | e :: rest => modal_events context rest (exec (modal_imgui context e) w)
  end.

End Operator.

(** ** Module-level functions, operators and overlays *)

(** [bpy.types.SpaceView3D]. *)
Definition SpaceView3D : SpaceType := Space "SpaceView3D".

(** The process: the class attribute [GlobalImgui._instance],
    [bpy.app.driver_namespace] as far as the module uses it, and the host. *)
Record Process : Type := {
  _instance : option GlobalImgui;
  driver_namespace : PyDict.dict string Z;
  process_host : Host
}.

(** Computations on the process. *)
Definition P (A : Type) : Type := Process -> Outcome A * Process.

Module Singleton.

(** [GlobalImgui.get()]: the instance, created on first use. *)
Definition get (p : Process) : GlobalImgui * Process :=
  match _instance p with
  | None =>
      (Registry.new,
       {| _instance := Some Registry.new;
          driver_namespace := driver_namespace p;
          process_host := process_host p |})
  | Some g => (g, p)
  end.

(** [GlobalImgui.get().method(...)]: the method runs on the instance and on
    the host; what it does to either stays. *)
Definition on_instance {A} (method : M A) : P A :=
  fun p =>
    let '(g, p1) := get p in
    let '(r, w) := method {| self := g; host := process_host p1 |} in
    (r, {| _instance := Some (self w);
           driver_namespace := driver_namespace p1;
           process_host := host w |}).

Definition imgui_handler_add (callback : Callback) (s : SpaceType) : P Z :=
  on_instance (Registry.handler_add callback s).

Definition imgui_handler_remove (handle : Z) : P unit :=
  on_instance (Registry.handler_remove handle).

End Singleton.

(** An instance of a class deriving from [ImguiBasedOperator]. *)
Module OperatorInstance.

Record Instance : Type := {
  draw : Callback;                 (* the bound method [self.draw] *)
  imgui_handle : option Z          (* absent until [init_imgui] *)
}.

Definition init_imgui (self : Instance) (p : Process)
  : Outcome unit * Instance * Process :=
  match Singleton.imgui_handler_add (draw self) SpaceView3D p with
  | (Return handle, p') =>
      (Return tt, {| draw := draw self; imgui_handle := Some handle |}, p')
  | (Raise e, p') => (Raise e, self, p')
  end.

Definition shutdown_imgui (self : Instance) : P unit :=
  fun p =>
    match imgui_handle self with
    | None => (Raise (AttributeError "imgui_handle"), p)
    | Some handle => Singleton.imgui_handler_remove handle p
    end.

End OperatorInstance.

(** A class deriving from [BlenderImguiOverlay]. *)
Module Overlay.

Record Class : Type := {
  bl_idname : string;
  draw : Callback                  (* what [cls().draw] runs *)
}.

Definition namespace_key (cls : Class) : string :=
  ("_imgui_" ++ bl_idname cls)%string.

Definition set_driver_namespace (v : PyDict.dict string Z) (p : Process)
  : Process :=
  {| _instance := _instance p; driver_namespace := v;
     process_host := process_host p |}.

Definition register_overlay (cls : Class) : P unit :=
  fun p =>
    match Singleton.imgui_handler_add (draw cls) SpaceView3D p with
    | (Return handle, p') =>
        (Return tt,
         set_driver_namespace
           (PyDict.setitem String.eqb (namespace_key cls) handle
              (driver_namespace p')) p')
    | (Raise e, p') => (Raise e, p')
    end.

Definition unregister_overlay (cls : Class) : P unit :=
  fun p =>
    match PyDict.getitem String.eqb (namespace_key cls) (driver_namespace p)
    with
    | Some handle => Singleton.imgui_handler_remove handle p
    | None => (Return tt, p)
    end.

End Overlay.

(** * Verification *)


(** ** Computing with the monad *)

Lemma SpaceType_eqb_eq a b : SpaceType_eqb a b = true <-> a = b.
Proof.
  destruct a as [x], b as [y]; simpl; rewrite String.eqb_eq.
  split; [intros ->; reflexivity | intros [= ->]; reflexivity].
Qed.

Lemma SpaceType_eqb_refl a : SpaceType_eqb a a = true.
Proof. apply SpaceType_eqb_eq; reflexivity. Qed.

Ltac py_unfold :=
  cbv [bind ret raise gets modify getattr host_call exec result
       with_self with_host modify_io
       set_imgui_ctx set_imgui_backend set_draw_handlers set_callbacks
       set_next_callback_id set_io set_installed set_fresh_id record
       self host imgui_ctx imgui_backend draw_handlers callbacks
       next_callback_id imgui io gpu installed fresh_id bpy_context
       draw_data_of_frame memory log fst snd].

(** A loop whose body always returns is a fold. *)
Lemma for_each_fold {A} (body : A -> M unit) (f : A -> World -> World) l :
  (forall x w, body x w = (Return tt, f x w)) ->
  forall w, for_each l body w = (Return tt, fold_left (fun w x => f x w) l w).
Proof.
  intros Hb. induction l as [|x l IH]; intros w; simpl.
  - reflexivity.
  - unfold bind. rewrite Hb. apply IH.
Qed.

(** The calls a computation makes on a world: what it appends to the log. *)
Definition calls_of {A} (c : M A) (w : World) : list HostCall :=
  skipn (List.length (log (host w))) (log (host (exec c w))).

(** The host after a sequence of calls. *)
Definition emit (t : list HostCall) (w : World) : World :=
  with_host (fun h => fold_left (fun h c => record c h) t h) w.

Lemma emit_app t1 t2 w : emit (t1 ++ t2) w = emit t2 (emit t1 w).
Proof. unfold emit, with_host; simpl. rewrite fold_left_app. reflexivity. Qed.

Lemma emit_nil w : emit [] w = w.
Proof. destruct w; reflexivity. Qed.

Lemma host_call_emit c w : host_call c w = (Return tt, emit [c] w).
Proof. reflexivity. Qed.

Lemma records_fields t h :
  let h' := fold_left (fun h c => record c h) t h in
  log h' = log h ++ t /\ gpu h' = fold_left gpu_step t (gpu h) /\
  imgui h' = imgui h /\ memory h' = memory h /\ io h' = io h /\
  installed h' = installed h /\ fresh_id h' = fresh_id h /\
  bpy_context h' = bpy_context h /\
  draw_data_of_frame h' = draw_data_of_frame h.
Proof.
  revert h; induction t as [|c t IH]; intros h; simpl.
  - rewrite app_nil_r; repeat split.
  - destruct (IH (record c h)) as (-> & -> & -> & -> & -> & -> & -> & -> & ->).
    simpl. rewrite <- app_assoc. repeat split.
Qed.

Lemma emit_self t w : self (emit t w) = self w.
Proof. reflexivity. Qed.

Lemma emit_log t w : log (host (emit t w)) = log (host w) ++ t.
Proof. apply (records_fields t (host w)). Qed.

Lemma emit_gpu t w : gpu (host (emit t w)) = fold_left gpu_step t (gpu (host w)).
Proof. apply (records_fields t (host w)). Qed.

Lemma skipn_length_app {A} (l t : list A) : skipn (List.length l) (l ++ t) = t.
Proof. induction l; simpl; auto. Qed.

Lemma calls_of_emit {A} (c : M A) w r t :
  c w = (r, emit t w) -> calls_of c w = t.
Proof.
  intros H. unfold calls_of, exec. rewrite H. simpl snd.
  rewrite emit_log. apply skipn_length_app.
Qed.

(** ** The draw translator *)

Import Renderer.

(** What one draw command sends to the host, and a list of them with the
    running offset. *)
Definition command_calls (fb_height : Z) (vtx : list (list Z))
  (idx : list Z) (offset : Z) (command : DrawCmd) : list HostCall :=
  let '(x, y, w, h) := scissor_rect fb_height (clip_rect command) in
  [ scissor_set x y w h;
    uniform_sampler "Texture" (texture_id command);
    batch_draw (batch_of vtx idx offset command) ].

Fixpoint commands_calls (fb_height : Z) (vtx : list (list Z))
  (idx : list Z) (offset : Z) (cmds : list DrawCmd) : list HostCall :=
  match cmds with
  | [] => []
  | command :: rest =>
      command_calls fb_height vtx idx offset command ++
      commands_calls fb_height vtx idx (offset + elem_count command) rest
  end.

Lemma draw_commands_eq fbh vtx idx cmds : forall offset w,
  draw_commands fbh vtx idx offset cmds w =
  (Return tt, emit (commands_calls fbh vtx idx offset cmds) w).
Proof.
  induction cmds as [|c rest IH]; intros offset w.
  - simpl. rewrite emit_nil. reflexivity.
  - simpl. unfold command_calls.
    destruct (scissor_rect fbh (clip_rect c)) as [[[x y] w0] h0].
    unfold bind. rewrite !host_call_emit. rewrite IH.
    rewrite <- !emit_app. reflexivity.
Qed.

(** The rows of the vertex buffer of a command list: one per vertex. *)
Definition vtx_rows (h : Host) (cmd_list : CmdList) : list (list Z) :=
  let l := vtx_buffer_np_of h cmd_list in
  rows_of (Z.to_nat (Z.of_nat (List.length l) / 5)) 5 l.

Lemma as_array_length mem a size :
  List.length (as_array mem a size) = Z.to_nat size.
Proof. unfold as_array. rewrite length_map, length_seq. reflexivity. Qed.

Lemma reshape_vtx h cl :
  reshape (vtx_buffer_np_of h cl) (VERTEX_SIZE / 4) = Some (vtx_rows h cl).
Proof.
  unfold reshape, vtx_rows. change (VERTEX_SIZE / 4) with 5.
  set (l := vtx_buffer_np_of h cl).
  assert (Hl : Z.of_nat (List.length l) mod 5 = 0).
  { unfold l, vtx_buffer_np_of. rewrite as_array_length.
    unfold VERTEX_SIZE.
    replace (vtx_buffer_size cl * 20 / 4) with (vtx_buffer_size cl * 5)
      by (rewrite <- (Z.div_mul (vtx_buffer_size cl * 5) 4) at 1 by lia;
          f_equal; lia).
    destruct (Z_le_gt_dec 0 (vtx_buffer_size cl)).
    - rewrite Z2Nat.id by lia. apply Z.mod_mul; lia.
    - replace (Z.to_nat (vtx_buffer_size cl * 5)) with 0%nat by lia.
      reflexivity. }
  rewrite Hl. reflexivity.
Qed.

Definition list_calls (fb_height : Z) (h : Host) (cmd_list : CmdList)
  : list HostCall :=
  commands_calls fb_height (vtx_rows h cmd_list)
    (idx_buffer_np_of h cmd_list) 0 (commands cmd_list).

Lemma draw_commands_list_eq fbh cl w :
  draw_commands_list fbh cl w = (Return tt, emit (list_calls fbh (host w) cl) w).
Proof.
  unfold draw_commands_list, bind, gets. rewrite reshape_vtx.
  apply draw_commands_eq.
Qed.

Lemma list_calls_frame fbh h h' cl :
  imgui h' = imgui h -> memory h' = memory h ->
  list_calls fbh h' cl = list_calls fbh h cl.
Proof.
  intros Hi Hm. unfold list_calls, vtx_rows, vtx_buffer_np_of, idx_buffer_np_of.
  rewrite Hi, Hm. reflexivity.
Qed.

Lemma emit_imgui t w : imgui (host (emit t w)) = imgui (host w).
Proof. apply (records_fields t (host w)). Qed.

Lemma emit_memory t w : memory (host (emit t w)) = memory (host w).
Proof. apply (records_fields t (host w)). Qed.

Lemma emit_io t w : io (host (emit t w)) = io (host w).
Proof. apply (records_fields t (host w)). Qed.

Lemma lists_fold fbh lists : forall w,
  fold_left (fun w cl => emit (list_calls fbh (host w) cl) w) lists w =
  emit (flat_map (list_calls fbh (host w)) lists) w.
Proof.
  induction lists as [|cl lists IH]; intros w; simpl.
  - rewrite emit_nil; reflexivity.
  - rewrite IH, emit_app. f_equal.
    apply flat_map_ext. intros cl'.
    apply list_calls_frame; [apply emit_imgui | apply emit_memory].
Qed.

(** Everything [render] sends to the host. *)
Definition render_header (i : Io) : list HostCall :=
  let '(display_width, display_height) := display_size i in
  let '(fb_width, fb_height) := fb_size i in
  [ blend_get; blend_set "ALPHA"; face_culling_set "NONE";
    scissor_test_set true; viewport_set 0 0 fb_width fb_height;
    shader_bind;
    uniform_float "ProjMtx" (ortho_projection display_width display_height);
    uniform_int "Texture" 0 ].

Definition render_body (draw_data : DrawData) (h : Host) : list HostCall :=
  let i := io h in
  flat_map (list_calls (snd (fb_size i)) h)
    (commands_lists
       (scale_clip_rects draw_data (fst (display_fb_scale i))
          (snd (display_fb_scale i)))).

Definition render_footer (h : Host) : list HostCall :=
  [ blend_set (blend (gpu h)); scissor_test_set false ].

Definition degenerate (i : Io) : bool :=
  (fst (fb_size i) =? 0) || (snd (fb_size i) =? 0).

Definition render_calls (draw_data : DrawData) (h : Host) : list HostCall :=
  if degenerate (io h) then []
  else render_header (io h) ++ render_body draw_data h ++ render_footer h.

Lemma render_eq draw_data w :
  render draw_data w = (Return tt, emit (render_calls draw_data (host w)) w).
Proof.
  unfold render, render_calls, degenerate, render_header, render_body,
    render_footer.
  unfold bind at 1, gets at 1.
  destruct (display_size (io (host w))) as [dw dh] eqn:Hds.
  destruct (fb_size (io (host w))) as [fbw fbh] eqn:Hfb. simpl fst; simpl snd.
  destruct ((fbw =? 0) || (fbh =? 0)).
  - rewrite emit_nil. reflexivity.
  - repeat (unfold bind at 1; first [rewrite host_call_emit | unfold gets at 1];
            cbv beta iota).
    unfold bind at 1.
    rewrite (for_each_fold _ (fun cl w => emit (list_calls fbh (host w) cl) w))
      by (intros; apply draw_commands_list_eq).
    rewrite lists_fold.
    unfold bind at 1. rewrite host_call_emit. cbv beta iota.
    rewrite host_call_emit.
    rewrite <- !emit_app.
    reflexivity.
Qed.

(** *** Concrete worlds *)

Definition example_imgui (index_size : Z) : ImguiModule :=
  {| INDEX_SIZE := index_size;
     KEY_TAB := 0; KEY_LEFT_ARROW := 1; KEY_RIGHT_ARROW := 2;
     KEY_UP_ARROW := 3; KEY_DOWN_ARROW := 4; KEY_PAGE_UP := 5;
     KEY_PAGE_DOWN := 6; KEY_HOME := 7; KEY_END := 8; KEY_INSERT := 9;
     KEY_DELETE := 10; KEY_BACKSPACE := 11; KEY_ENTER := 13;
     KEY_ESCAPE := 14; KEY_A := 16; KEY_C := 17; KEY_V := 18; KEY_X := 19;
     KEY_Y := 20; KEY_Z := 21 |}.

(** A 50 x 50 region at scale 1 whose GPU state differs from what
    [render] sets. *)
Definition example_host (index_size : Z) (d : DrawData) : Host :=
  {| imgui := example_imgui index_size;
     io := set_display_size (50 # 1, 50 # 1)%Q new_io;
     gpu := {| blend := "NONE"; face_culling := "BACK";
               scissor_test := false; viewport := (0, 0, 100, 100);
               scissor := (0, 0, 0, 0) |};
     installed := []; fresh_id := 0;
     bpy_context :=
       {| region_width := 50; region_height := 50; ui_scale := 1%Q |};
     draw_data_of_frame := d;
     memory := fun a => a / 4;
     log := [] |}.

Definition example_world (index_size : Z) (d : DrawData) : World :=
  Registry.boot (example_host index_size d).

(** One command list of three vertices and one triangle. *)
Definition triangle (clip : Q * Q * Q * Q) : DrawData :=
  {| commands_lists :=
       [ {| idx_buffer_size := 3; idx_buffer_data := 0;
            vtx_buffer_size := 3; vtx_buffer_data := 4096;
            commands :=
              [ {| clip_rect := clip; texture_id := Tex 1;
                   elem_count := 3 |} ] |} ] |}.

(** *** The claim's scissor rectangle *)

Definition qmax (a b : Q) : Q := if Qle_bool a b then b else a.
Definition qmin (a b : Q) : Q := if Qle_bool a b then a else b.

(** The clip rectangle intersected with the framebuffer
    [(0, 0) - (fb_width, fb_height)]. *)
Definition intersect_fb (fb_width fb_height : Z) (r : Q * Q * Q * Q)
  : Q * Q * Q * Q :=
  let '(x0, y0, x1, y1) := r in
  (qmax 0 x0, qmax 0 y0, qmin x1 (inject_Z fb_width),
   qmin y1 (inject_Z fb_height)).

(** ... then converted to bottom-left-origin pixels. *)
Definition intersected_scissor (fb_width fb_height : Z)
  (r : Q * Q * Q * Q) : Z * Z * Z * Z :=
  scissor_rect fb_height (intersect_fb fb_width fb_height r).

Definition inside_fb (fb_width fb_height : Z) (r : Q * Q * Q * Q) : Prop :=
  let '(x0, y0, x1, y1) := r in
  Qle_bool 0 x0 = true /\ Qle_bool 0 y0 = true /\
  Qle_bool x1 (inject_Z fb_width) = true /\
  Qle_bool y1 (inject_Z fb_height) = true.

Lemma calls_of_render draw_data w :
  calls_of (render draw_data) w = render_calls draw_data (host w).
Proof. apply calls_of_emit with (r := Return tt). apply render_eq. Qed.

(** C5, as the code has it: [render] sends the header, then for every
    command list and every command in order the scissor rectangle, the
    texture and the draw, then the footer; the scissor rectangle is
    [(int(x0), int(fb_height - y1), int(x1 - x0), int(y1 - y0))] of the scaled
    clip rectangle, with no clamping; it is the rectangle intersected with
    the framebuffer whenever the clip rectangle lies inside the
    framebuffer. *)
Theorem render_scissor_of_clip_rect (draw_data : DrawData) (w : World) :
  calls_of (render draw_data) w =
    (if degenerate (io (host w)) then []
     else render_header (io (host w)) ++
          render_body draw_data (host w) ++ render_footer (host w)) /\
  (forall fb_height vtx idx offset texture count x0 y0 x1 y1 rest,
      commands_calls fb_height vtx idx offset
        ({| clip_rect := (x0, y0, x1, y1); texture_id := texture;
            elem_count := count |} :: rest) =
      scissor_set (int x0) (int (inject_Z fb_height - y1)%Q)
                  (int (x1 - x0)%Q) (int (y1 - y0)%Q)
      :: uniform_sampler "Texture" texture
      :: batch_draw (batch_of vtx idx offset
           {| clip_rect := (x0, y0, x1, y1); texture_id := texture;
              elem_count := count |})
      :: commands_calls fb_height vtx idx (offset + count) rest) /\
  (forall fb_width fb_height r,
      inside_fb fb_width fb_height r ->
      scissor_rect fb_height r = intersected_scissor fb_width fb_height r).
Proof.
  split; [apply calls_of_render|split].
  - intros; reflexivity.
  - intros fbw fbh [[[x0 y0] x1] y1] (H0 & H1 & H2 & H3).
    unfold intersected_scissor, intersect_fb, qmax, qmin.
    rewrite H0, H1, H2, H3. reflexivity.
Qed.

Lemma render_scissor_of_clip_rect_witness :
  inside_fb 50 50 (10 # 1, 10 # 1, 40 # 1, 40 # 1)%Q /\
  scissor_rect 50 (10 # 1, 10 # 1, 40 # 1, 40 # 1)%Q = (10, 10, 30, 30) /\
  intersected_scissor 50 50 (10 # 1, 10 # 1, 40 # 1, 40 # 1)%Q =
    (10, 10, 30, 30).
Proof.
  assert (H : inside_fb 50 50 (10 # 1, 10 # 1, 40 # 1, 40 # 1)%Q)
    by (vm_compute; auto).
  split; [exact H|]. split; [reflexivity|].
  rewrite <- (proj2 (proj2 (render_scissor_of_clip_rect
    (triangle (10 # 1, 10 # 1, 40 # 1, 40 # 1)%Q)
    (example_world 4 (triangle (10 # 1, 10 # 1, 40 # 1, 40 # 1)%Q))))
    50 50 _ H).
  reflexivity.
Defined.

(** C5 as stated fails: a clip rectangle that leaves the framebuffer is
    passed on unclamped. *)
Lemma render_scissor_not_intersected :
  let clip := ((-10) # 1, (-10) # 1, 100 # 1, 100 # 1)%Q in
  let w := example_world 4 (triangle clip) in
  fb_size (io (host w)) = (50, 50) /\
  In (scissor_set (-10) (-50) 110 110) (calls_of (render (triangle clip)) w) /\
  intersected_scissor 50 50 clip = (0, 0, 50, 50) /\
  ~ In (let '(x, y, w, h) := intersected_scissor 50 50 clip in
        scissor_set x y w h)
       (calls_of (render (triangle clip)) w).
Proof.
  vm_compute. repeat split; auto.
  - right; right; right; right; right; right; right; right; left; reflexivity.
  - intros H. repeat (destruct H as [H | H]; [discriminate H|]). exact H.
Qed.

(** *** Slices *)

Lemma py_slice_length {A} (l : list A) lo hi :
  0 <= lo <= hi ->
  Z.of_nat (List.length (py_slice l lo hi)) =
  Z.min hi (Z.of_nat (List.length l)) - Z.min lo (Z.of_nat (List.length l)).
Proof.
  intros H. unfold py_slice, slice_bound.
  destruct (Z.ltb_spec lo 0); [lia|]. destruct (Z.ltb_spec hi 0); [lia|].
  rewrite length_firstn, length_skipn. lia.
Qed.

Lemma idx_buffer_np_length h cl :
  List.length (idx_buffer_np_of h cl) =
  Z.to_nat (idx_buffer_size cl * INDEX_SIZE (imgui h) / 4).
Proof.
  unfold idx_buffer_np_of. rewrite length_map. apply as_array_length.
Qed.

Lemma scale_clip_rect_texture sx sy c :
  texture_id (scale_clip_rect sx sy c) = texture_id c.
Proof. unfold scale_clip_rect. destruct (clip_rect c) as [[[? ?] ?] ?]. reflexivity. Qed.

Lemma scale_clip_rect_count sx sy c :
  elem_count (scale_clip_rect sx sy c) = elem_count c.
Proof. unfold scale_clip_rect. destruct (clip_rect c) as [[[? ?] ?] ?]. reflexivity. Qed.

Definition is_draw (c : HostCall) : bool :=
  match c with batch_draw _ => true | _ => false end.

(** C6: one command list with one command of three elements, on a
    framebuffer that is not degenerate and with an index buffer that holds
    the three indices: [render] makes exactly one draw call, between the
    header and the footer, with exactly three indices, after setting the
    scissor rectangle whose y is [int(fb_height - y1)]. *)
Theorem render_single_triangle (w : World) (cmd_list : CmdList)
  (command : DrawCmd) (x0 y0 x1 y1 : Q) :
  degenerate (io (host w)) = false ->
  commands cmd_list = [command] ->
  elem_count command = 3 ->
  3 <= idx_buffer_size cmd_list * INDEX_SIZE (imgui (host w)) / 4 ->
  clip_rect (scale_clip_rect (fst (display_fb_scale (io (host w))))
               (snd (display_fb_scale (io (host w)))) command)
    = (x0, y0, x1, y1) ->
  let fb_height := snd (fb_size (io (host w))) in
  let calls := calls_of (render {| commands_lists := [cmd_list] |}) w in
  exists b,
    calls =
      render_header (io (host w)) ++
      [ scissor_set (int x0) (int (inject_Z fb_height - y1)%Q)
                    (int (x1 - x0)%Q) (int (y1 - y0)%Q);
        uniform_sampler "Texture" (texture_id command);
        batch_draw b ] ++
      render_footer (host w) /\
    filter is_draw calls = [batch_draw b] /\
    List.length (indices b) = 3%nat.
Proof.
  intros Hd Hc He Hs Hr fbh calls. subst calls.
  rewrite calls_of_render. unfold render_calls. rewrite Hd.
  unfold render_body, list_calls. simpl commands_lists. simpl flat_map.
  rewrite Hc. simpl map. simpl commands_calls. unfold command_calls.
  rewrite Hr. simpl scissor_rect. fold fbh.
  rewrite scale_clip_rect_texture, app_nil_r.
  eexists. split; [reflexivity|split].
  - unfold render_header, render_footer.
    destruct (display_size (io (host w))), (fb_size (io (host w))).
    reflexivity.
  - cbn [indices batch_of]. rewrite scale_clip_rect_count, He.
    apply Nat2Z.inj. rewrite py_slice_length by lia.
    rewrite idx_buffer_np_length. cbn [idx_buffer_size]. lia.
Qed.

Lemma render_single_triangle_witness :
  let d := triangle (10 # 1, 10 # 1, 40 # 1, 40 # 1)%Q in
  let w := example_world 4 d in
  exists b,
    filter is_draw (calls_of (render d) w) = [batch_draw b] /\
    List.length (indices b) = 3%nat /\
    In (scissor_set 10 (50 - 40) 30 30) (calls_of (render d) w).
Proof.
  intros d w.
  destruct (render_single_triangle w
              {| idx_buffer_size := 3; idx_buffer_data := 0;
                 vtx_buffer_size := 3; vtx_buffer_data := 4096;
                 commands :=
                   [ {| clip_rect := (10 # 1, 10 # 1, 40 # 1, 40 # 1)%Q;
                        texture_id := Tex 1; elem_count := 3 |} ] |}
              {| clip_rect := (10 # 1, 10 # 1, 40 # 1, 40 # 1)%Q;
                 texture_id := Tex 1; elem_count := 3 |}
              (10 # 1)%Q (10 # 1)%Q (40 # 1)%Q (40 # 1)%Q
              eq_refl eq_refl eq_refl ltac:(vm_compute; discriminate)
              eq_refl)
    as (b & Hcalls & Hdraw & Hlen).
  exists b. split; [exact Hdraw|]. split; [exact Hlen|].
  subst d; unfold triangle. rewrite Hcalls. apply in_or_app. right. left. reflexivity.
Defined.

(** *** GPU state across [render] *)

(** The calls of the command loop leave blend mode, face culling, the
    scissor test and the viewport alone. *)
Definition loop_call (c : HostCall) : bool :=
  match c with
  | scissor_set _ _ _ _ | uniform_sampler _ _ | batch_draw _ => true
  | _ => false
  end.

Lemma commands_calls_loop fbh vtx idx cmds : forall offset,
  forallb loop_call (commands_calls fbh vtx idx offset cmds) = true.
Proof.
  induction cmds as [|c rest IH]; intros offset; simpl; [reflexivity|].
  unfold command_calls.
  destruct (scissor_rect fbh (clip_rect c)) as [[[x y] w0] h0].
  simpl. apply IH.
Qed.

Lemma render_body_loop draw_data h :
  forallb loop_call (render_body draw_data h) = true.
Proof.
  unfold render_body.
  induction (commands_lists _) as [|cl l IH]; simpl; [reflexivity|].
  rewrite forallb_app, IH, andb_true_r. apply commands_calls_loop.
Qed.

Lemma loop_calls_gpu t : forall g,
  forallb loop_call t = true ->
  let g' := fold_left gpu_step t g in
  blend g' = blend g /\ face_culling g' = face_culling g /\
  scissor_test g' = scissor_test g /\ viewport g' = viewport g.
Proof.
  induction t as [|c t IH]; intros g H; simpl in *; [auto|].
  apply andb_true_iff in H as [Hc Ht].
  destruct (IH (gpu_step g c) Ht) as (-> & -> & -> & ->).
  destruct c; try discriminate Hc; simpl; auto.
Qed.

(** C8, as the code has it: on a framebuffer that is not degenerate
    [render] returns, the blend mode after the call is the blend mode before
    it and scissor testing is off; face culling is left at ['NONE'] and the
    viewport at [(0, 0, fb_width, fb_height)], whatever they were. *)
Theorem render_restores_blend_only (draw_data : DrawData) (w : World) :
  degenerate (io (host w)) = false ->
  let w' := exec (render draw_data) w in
  result (render draw_data) w = Return tt /\
  blend (gpu (host w')) = blend (gpu (host w)) /\
  scissor_test (gpu (host w')) = false /\
  face_culling (gpu (host w')) = "NONE"%string /\
  viewport (gpu (host w')) =
    (0, 0, fst (fb_size (io (host w))), snd (fb_size (io (host w)))).
Proof.
  intros Hd w'. subst w'. unfold exec, result. rewrite render_eq. simpl fst; simpl snd.
  split; [reflexivity|]. rewrite emit_gpu. unfold render_calls. rewrite Hd.
  rewrite !fold_left_app.
  set (g1 := fold_left gpu_step (render_header (io (host w))) (gpu (host w))).
  destruct (loop_calls_gpu (render_body draw_data (host w)) g1
              (render_body_loop draw_data (host w))) as (Hb & Hf & Hs & Hv).
  unfold render_footer. simpl. rewrite Hf, Hv. subst g1.
  unfold render_header.
  destruct (display_size (io (host w))), (fb_size (io (host w))).
  simpl. auto.
Qed.

Lemma render_restores_blend_only_witness :
  let d := triangle (10 # 1, 10 # 1, 40 # 1, 40 # 1)%Q in
  let w := example_world 4 d in
  blend (gpu (host (exec (render d) w))) = "NONE"%string /\
  scissor_test (gpu (host (exec (render d) w))) = false.
Proof.
  intros d w.
  destruct (render_restores_blend_only d w eq_refl) as (_ & Hb & Hs & _).
  split; [exact Hb | exact Hs].
Defined.

(** C8 as stated fails: face culling and the viewport set by [render]
    survive the call. *)
Lemma render_leaves_culling_and_viewport :
  let d := triangle (10 # 1, 10 # 1, 40 # 1, 40 # 1)%Q in
  let w := example_world 4 d in
  degenerate (io (host w)) = false /\
  face_culling (gpu (host w)) = "BACK"%string /\
  face_culling (gpu (host (exec (render d) w))) = "NONE"%string /\
  viewport (gpu (host w)) = (0, 0, 100, 100) /\
  viewport (gpu (host (exec (render d) w))) = (0, 0, 50, 50) /\
  gpu (host (exec (render d) w)) <> gpu (host w).
Proof.
  vm_compute. repeat split; discriminate.
Qed.

(** *** Vertex arrays and index slices *)

(** The sum of the element counts of the commands before position [i]. *)
Definition preceding_count (cmds : list DrawCmd) (i : nat) : Z :=
  fold_right Z.add 0 (map elem_count (firstn i cmds)).

(** The draw calls of one command list in terms of the views [render]
    builds. *)
Definition expected_draws (vtx : list (list Z)) (idx : list Z)
  (start : Z) (cmds : list DrawCmd) : list HostCall :=
  map (fun '(i, command) =>
         let offset := start + preceding_count cmds i in
         batch_draw
           {| Position := map (fun row => py_slice row 0 2) vtx;
              UV := map (fun row => py_slice row 2 4) vtx;
              Color :=
                map (fun row =>
                       map (fun b => (inject_Z b / 255)%Q)
                           (skipn 16 (view_uint8 row))) vtx;
              indices := py_slice idx offset (offset + elem_count command) |})
      (combine (seq 0 (List.length cmds)) cmds).

Lemma combine_seq_shift {A} (l : list A) : forall n,
  combine (seq (S n) (List.length l)) l =
  map (fun '(i, x) => (S i, x)) (combine (seq n (List.length l)) l).
Proof.
  induction l as [|x l IH]; intros n; simpl; [reflexivity|].
  f_equal. apply IH.
Qed.

Lemma expected_draws_cons vtx idx start c rest :
  expected_draws vtx idx start (c :: rest) =
  batch_draw (batch_of vtx idx start c)
  :: expected_draws vtx idx (start + elem_count c) rest.
Proof.
  unfold expected_draws. simpl List.length. simpl seq. simpl combine.
  simpl map. f_equal.
  - unfold preceding_count. simpl. rewrite Z.add_0_r.
    unfold batch_of. rewrite map_map. reflexivity.
  - rewrite combine_seq_shift, map_map.
    apply map_ext. intros [i d]. simpl.
    unfold preceding_count. simpl.
    replace (start + (elem_count c +
                fold_right Z.add 0 (map elem_count (firstn i rest))))
      with (start + elem_count c +
                fold_right Z.add 0 (map elem_count (firstn i rest))) by lia.
    reflexivity.
Qed.

Lemma commands_calls_draws fbh vtx idx cmds : forall offset,
  filter is_draw (commands_calls fbh vtx idx offset cmds) =
  expected_draws vtx idx offset cmds.
Proof.
  induction cmds as [|c rest IH]; intros offset.
  - reflexivity.
  - rewrite expected_draws_cons. simpl commands_calls.
    unfold command_calls.
    destruct (scissor_rect fbh (clip_rect c)) as [[[x y] w0] h0].
    simpl. f_equal. apply IH.
Qed.

Lemma rows_of_length n c l : List.length (rows_of n c l) = n.
Proof. revert l; induction n; intros l; simpl; auto. Qed.

Lemma vtx_rows_length h cl :
  List.length (vtx_rows h cl) = Z.to_nat (vtx_buffer_size cl).
Proof.
  unfold vtx_rows. rewrite rows_of_length.
  unfold vtx_buffer_np_of. rewrite as_array_length. unfold VERTEX_SIZE.
  replace (vtx_buffer_size cl * 20 / 4) with (vtx_buffer_size cl * 5)
    by (rewrite <- (Z.div_mul (vtx_buffer_size cl * 5) 4) at 1 by lia;
        f_equal; lia).
  destruct (Z_le_gt_dec 0 (vtx_buffer_size cl)).
  - rewrite Z2Nat.id by lia. rewrite Z.div_mul by lia. reflexivity.
  - replace (Z.to_nat (vtx_buffer_size cl * 5)) with 0%nat by lia.
    simpl. lia.
Qed.

Lemma list_calls_draws fbh h l :
  filter is_draw (flat_map (list_calls fbh h) l) =
  flat_map (fun cmd_list =>
              expected_draws (vtx_rows h cmd_list)
                (idx_buffer_np_of h cmd_list) 0 (commands cmd_list)) l.
Proof.
  induction l as [|cl l IH]; [reflexivity|].
  simpl. rewrite filter_app, IH. f_equal. apply commands_calls_draws.
Qed.

(** *** The claim's arrays, read from memory

    A vertex is 20 bytes from [vtx_buffer_data + 20 * v] on: the position
    and the texture coordinate (two floats each, kept as 32-bit patterns)
    and the colour (four bytes). *)

(** The 32-bit word [k] of vertex [v]. *)
Definition vertex_word (h : Host) (cmd_list : CmdList) (v : nat) (k : Z) : Z :=
  memory h (vtx_buffer_data cmd_list + 20 * Z.of_nat v + 4 * k) mod 2 ^ 32.

(** Byte [n] of a word, as a colour channel in [[0, 1]]. *)
Definition channel (word n : Z) : Q :=
  (inject_Z (Z.land (Z.shiftr word (8 * n)) 255) / 255)%Q.

Definition vertex_numbers (cmd_list : CmdList) : list nat :=
  seq 0 (Z.to_nat (vtx_buffer_size cmd_list)).

Definition buffer_positions (h : Host) (cmd_list : CmdList) : list (list Z) :=
  map (fun v => [vertex_word h cmd_list v 0; vertex_word h cmd_list v 1])
      (vertex_numbers cmd_list).

Definition buffer_uvs (h : Host) (cmd_list : CmdList) : list (list Z) :=
  map (fun v => [vertex_word h cmd_list v 2; vertex_word h cmd_list v 3])
      (vertex_numbers cmd_list).

Definition buffer_colors (h : Host) (cmd_list : CmdList) : list (list Q) :=
  map (fun v =>
         let c := vertex_word h cmd_list v 4 in
         [channel c 0; channel c 1; channel c 2; channel c 3])
      (vertex_numbers cmd_list).

(** Entry [j] of the index buffer read as signed 32-bit integers. *)
Definition index_entry (h : Host) (cmd_list : CmdList) (j : nat) : Z :=
  (memory h (idx_buffer_data cmd_list + 4 * Z.of_nat j) + 2 ^ 31) mod 2 ^ 32
  - 2 ^ 31.

Definition index_buffer (h : Host) (cmd_list : CmdList) : list Z :=
  map (index_entry h cmd_list)
      (seq 0 (Z.to_nat (idx_buffer_size cmd_list * INDEX_SIZE (imgui h) / 4))).

Definition whole_buffer_draws (h : Host) (cmd_list : CmdList)
  : list HostCall :=
  map (fun '(i, command) =>
         let offset := preceding_count (commands cmd_list) i in
         batch_draw
           {| Position := buffer_positions h cmd_list;
              UV := buffer_uvs h cmd_list;
              Color := buffer_colors h cmd_list;
              indices :=
                py_slice (index_buffer h cmd_list) offset
                         (offset + elem_count command) |})
      (combine (seq 0 (List.length (commands cmd_list))) (commands cmd_list)).

Lemma rows_of_words (f : nat -> Z) n : forall start,
  rows_of n 5 (map f (seq start (5 * n))) =
  map (fun v => [f (start + 5 * v)%nat; f (start + 5 * v + 1)%nat;
                 f (start + 5 * v + 2)%nat; f (start + 5 * v + 3)%nat;
                 f (start + 5 * v + 4)%nat])
      (seq 0 n).
Proof.
  induction n as [|n IH]; intros start; [reflexivity|].
  replace (5 * S n)%nat with (S (S (S (S (S (5 * n)))))) by lia.
  cbn [rows_of seq map firstn skipn].
  rewrite (IH (S (S (S (S (S start)))))).
  rewrite <- seq_shift, map_map.
  f_equal.
  - repeat (f_equal; try lia).
  - apply map_ext. intros v. repeat (f_equal; try lia).
Qed.

Lemma vtx_rows_words h cl :
  vtx_rows h cl =
  map (fun v => [vertex_word h cl v 0; vertex_word h cl v 1;
                 vertex_word h cl v 2; vertex_word h cl v 3;
                 vertex_word h cl v 4])
      (vertex_numbers cl).
Proof.
  unfold vtx_rows, vtx_buffer_np_of. rewrite as_array_length.
  unfold as_array, VERTEX_SIZE, vertex_numbers.
  set (n := Z.to_nat (vtx_buffer_size cl)).
  assert (E : Z.to_nat (vtx_buffer_size cl * 20 / 4) = (5 * n)%nat).
  { replace (vtx_buffer_size cl * 20) with (vtx_buffer_size cl * 5 * 4) by lia.
    rewrite Z.div_mul by lia. unfold n. lia. }
  rewrite E.
  replace (Z.to_nat (Z.of_nat (5 * n) / 5)) with n.
  2:{ replace (Z.of_nat (5 * n)) with (Z.of_nat n * 5) by lia.
      rewrite Z.div_mul by lia. lia. }
  rewrite rows_of_words. apply map_ext. intros v. unfold vertex_word.
  repeat (f_equal; try lia).
Qed.

Lemma channel_byte w :
  map (fun b => (inject_Z b / 255)%Q) (bytes_of w) =
  [channel w 0; channel w 1; channel w 2; channel w 3].
Proof.
  assert (B : forall n p, 0 <= n -> p = 2 ^ (8 * n) ->
              (w / p) mod 256 = Z.land (Z.shiftr w (8 * n)) 255).
  { intros n p Hn ->. rewrite Z.shiftr_div_pow2 by lia.
    change 255 with (Z.ones 8). rewrite Z.land_ones by lia. reflexivity. }
  unfold bytes_of, channel. cbn [map].
  rewrite <- (Z.div_1_r w) at 1.
  rewrite (B 0 1), (B 1 256), (B 2 65536), (B 3 16777216)
    by (try lia; reflexivity).
  reflexivity.
Qed.

Lemma c_int_signed u :
  c_int (u mod 2 ^ 32) = (u + 2 ^ 31) mod 2 ^ 32 - 2 ^ 31.
Proof.
  assert (H := Z.mod_pos_bound u (2 ^ 32) ltac:(lia)).
  assert (E := Z.div_mod u (2 ^ 32) ltac:(lia)).
  unfold c_int. destruct (Z.ltb_spec (u mod 2 ^ 32) (2 ^ 31)).
  - assert ((u + 2 ^ 31) mod 2 ^ 32 = u mod 2 ^ 32 + 2 ^ 31); [|lia].
    symmetry. apply (Z.mod_unique _ _ (u / 2 ^ 32)); lia.
  - assert ((u + 2 ^ 31) mod 2 ^ 32 = u mod 2 ^ 32 - 2 ^ 31); [|lia].
    symmetry. apply (Z.mod_unique _ _ (u / 2 ^ 32 + 1)); lia.
Qed.

Lemma idx_buffer_np_entries h cl : idx_buffer_np_of h cl = index_buffer h cl.
Proof.
  unfold idx_buffer_np_of, index_buffer, as_array. rewrite map_map.
  apply map_ext. intros j. apply c_int_signed.
Qed.

Lemma expected_draws_whole_buffer h cl :
  expected_draws (vtx_rows h cl) (idx_buffer_np_of h cl) 0 (commands cl) =
  whole_buffer_draws h cl.
Proof.
  unfold expected_draws, whole_buffer_draws.
  rewrite idx_buffer_np_entries, vtx_rows_words, !map_map.
  apply map_ext. intros [i command]. cbn beta iota zeta.
  rewrite Z.add_0_l. do 2 f_equal.
  unfold buffer_colors. apply map_ext. intros v.
  change (skipn 16 (view_uint8 ?r)) with (bytes_of (vertex_word h cl v 4)).
  apply channel_byte.
Qed.

(** C10: the draw calls of [render] are, for every command list in order
    and every command of it in order, one call whose Position, UV and Color
    arrays are those of every vertex of the list's vertex buffer as it lies
    in memory, whichever command is drawn, and whose indices are the slice
    [offset : offset + elem_count] of the list's index buffer, [offset]
    being the sum of the element counts of the commands before it in that
    list. *)
Theorem render_draws_whole_vertex_buffer (draw_data : DrawData) (w : World) :
  let i := io (host w) in
  let scaled :=
    scale_clip_rects draw_data (fst (display_fb_scale i))
                     (snd (display_fb_scale i)) in
  filter is_draw (calls_of (render draw_data) w) =
    (if degenerate i then []
     else flat_map (whole_buffer_draws (host w)) (commands_lists scaled)) /\
  (forall before command after,
      preceding_count (before ++ command :: after) 0 = 0 /\
      preceding_count (before ++ command :: after) (S (List.length before)) =
      preceding_count (before ++ command :: after) (List.length before)
      + elem_count command).
Proof.
  intros i scaled. split.
  - rewrite calls_of_render. unfold render_calls. fold i.
    destruct (degenerate i); [reflexivity|].
    rewrite !filter_app.
    replace (filter is_draw (render_header i)) with (@nil HostCall)
      by (unfold render_header;
          destruct (display_size i), (fb_size i); reflexivity).
    simpl. rewrite app_nil_r.
    etransitivity; [apply list_calls_draws|].
    apply flat_map_ext. intros cl. apply expected_draws_whole_buffer.
  - intros before command after. split; [reflexivity|].
    unfold preceding_count.
    assert (H1 : firstn (List.length before) (before ++ command :: after)
                 = before).
    { rewrite firstn_app, firstn_all, Nat.sub_diag. simpl.
      apply app_nil_r. }
    assert (H2 : firstn (S (List.length before))
                   (before ++ command :: after) = before ++ [command]).
    { rewrite firstn_app, firstn_all2 by lia.
      replace (S (List.length before) - List.length before)%nat
        with 1%nat by lia.
      reflexivity. }
    rewrite H1, H2, map_app, fold_right_app. simpl.
    generalize (map elem_count before) as l. intros l.
    induction l as [|x l IH]; simpl; lia.
Qed.

(** The draw call of the example triangle: the three vertices at address
    4096 and the three indices at address 0. *)
Example render_triangle_draw_call :
  filter is_draw
    (calls_of (render (triangle (0, 0, 1, 1)%Q))
              (example_world 4 (triangle (0, 0, 1, 1)%Q))) =
  [ batch_draw
      {| Position := [[1024; 1025]; [1029; 1030]; [1034; 1035]];
         UV := [[1026; 1027]; [1031; 1032]; [1036; 1037]];
         Color := [ [4 # 255; 4 # 255; 0 # 255; 0 # 255];
                    [9 # 255; 4 # 255; 0 # 255; 0 # 255];
                    [14 # 255; 4 # 255; 0 # 255; 0 # 255] ]%Q;
         indices := [0; 1; 2] |} ].
Proof. vm_compute. reflexivity. Qed.

(** ** The registry *)

Import Registry.

Definition key_mapped (im : ImguiModule) (i : Io) : Io :=
  fold_left (fun i k => set_key_map (PyDict.setitem Z.eqb k k (key_map i)) i)
    [ KEY_TAB im; KEY_LEFT_ARROW im; KEY_RIGHT_ARROW im; KEY_UP_ARROW im;
      KEY_DOWN_ARROW im; KEY_HOME im; KEY_END im; KEY_INSERT im;
      KEY_DELETE im; KEY_BACKSPACE im; KEY_ENTER im; KEY_ESCAPE im;
      KEY_PAGE_UP im; KEY_PAGE_DOWN im; KEY_A im; KEY_C im; KEY_V im;
      KEY_X im; KEY_Y im; KEY_Z im ] i.

Lemma setup_key_map_eq w :
  setup_key_map w =
  (Return tt, with_host (fun h => set_io (key_mapped (imgui h) (io h)) h) w).
Proof.
  destruct w as [g h]. destruct h. cbv; reflexivity.
Qed.

Definition after_init (w : World) : World :=
  let n := fresh_id (host w) in
  {| self := {| imgui_ctx := Some (Ctx n); imgui_backend := Some tt;
                draw_handlers := Some []; callbacks := Some [];
                next_callback_id := Some 0 |};
     host := set_io (key_mapped (imgui (host w)) new_io)
               (record BlenderImguiRenderer_new
                  (record (imgui_create_context (Ctx n))
                     (set_io new_io (set_fresh_id (S n) (host w))))) |}.

Lemma init_imgui_eq w : init_imgui w = (Return tt, after_init w).
Proof. destruct w as [g h]; destruct h; cbv; reflexivity. Qed.

(** [handler_add] once the attributes exist. *)
Definition after_add (cb : Callback) (s : SpaceType) (w : World) : World :=
  match draw_handlers (self w), callbacks (self w), next_callback_id (self w)
  with
  | Some dh, Some cbs, Some n =>
      let w1 :=
        if PyDict.contains SpaceType_eqb s dh then w
        else
          let f := fresh_id (host w) in
          {| self := set_draw_handlers
                       (Some (PyDict.setitem SpaceType_eqb s (Handler f) dh))
                       (self w);
             host := record (draw_handler_add s (Handler f))
                       (set_installed (installed (host w) ++ [(s, Handler f)])
                          (set_fresh_id (S f) (host w))) |} in
      with_self (fun g =>
        set_callbacks (Some (PyDict.setitem Z.eqb n (cb, s) cbs))
          (set_next_callback_id (Some (n + 1)) g)) w1
  | _, _, _ => w
  end.

Lemma handler_add_active cb s w c dh cbs n :
  imgui_ctx (self w) = Some c -> draw_handlers (self w) = Some dh ->
  callbacks (self w) = Some cbs -> next_callback_id (self w) = Some n ->
  handler_add cb s w = (Return n, after_add cb s w).
Proof.
  destruct w as [g h]; destruct g; simpl; intros -> -> -> ->.
  unfold handler_add, after_add; py_unfold.
  destruct (PyDict.contains SpaceType_eqb s dh); reflexivity.
Qed.

Lemma handler_add_inactive cb s w :
  imgui_ctx (self w) = None ->
  handler_add cb s w = (Return 0, after_add cb s (after_init w)).
Proof.
  destruct w as [g h]; destruct g; simpl; intros ->.
  unfold handler_add. unfold bind at 1. unfold gets at 1. cbv beta iota.
  unfold bind at 1. unfold bind at 1. cbv [self imgui_ctx]. cbv iota beta. rewrite init_imgui_eq.
  reflexivity.
Qed.

Definition unhook_one (e : SpaceType * DrawHandler) (w : World) : World :=
  with_host (fun h =>
    record (draw_handler_remove (fst e) (snd e))
      (set_installed (uninstall (fst e) (snd e) (installed h)) h)) w.

Definition unhook (dh : list (SpaceType * DrawHandler)) (w : World) : World :=
  fold_left (fun w e => unhook_one e w) dh w.

Lemma unhook_cons e dh w : unhook (e :: dh) w = unhook dh (unhook_one e w).
Proof. reflexivity. Qed.

Lemma unhook_self dh w : self (unhook dh w) = self w.
Proof.
  revert w; induction dh as [|e dh IH]; intros w; [reflexivity|].
  rewrite unhook_cons, IH; reflexivity.
Qed.

Lemma unhook_log dh w :
  log (host (unhook dh w)) =
  log (host w) ++ map (fun e => draw_handler_remove (fst e) (snd e)) dh.
Proof.
  revert w; induction dh as [|e dh IH]; intros w.
  - simpl; rewrite app_nil_r; reflexivity.
  - rewrite unhook_cons, IH; simpl. rewrite <- app_assoc; reflexivity.
Qed.

Lemma unhook_installed dh w :
  installed (host (unhook dh w)) =
  fold_left (fun l e => uninstall (fst e) (snd e) l) dh (installed (host w)).
Proof.
  revert w; induction dh as [|e dh IH]; intros w; [reflexivity|].
  rewrite unhook_cons, IH; reflexivity.
Qed.

Lemma unhook_env dh w :
  fresh_id (host (unhook dh w)) = fresh_id (host w) /\
  bpy_context (host (unhook dh w)) = bpy_context (host w) /\
  gpu (host (unhook dh w)) = gpu (host w) /\
  io (host (unhook dh w)) = io (host w).
Proof.
  revert w; induction dh as [|e dh IH]; intros w; [simpl; auto|].
  rewrite unhook_cons. destruct (IH (unhook_one e w)) as (-> & -> & -> & ->).
  simpl. auto.
Qed.

Definition after_shutdown (w : World) : World :=
  match draw_handlers (self w), imgui_ctx (self w) with
  | Some dh, Some c =>
      with_self (set_imgui_ctx None)
        (with_host (record (imgui_destroy_context c)) (unhook dh w))
  | _, _ => w
  end.

Lemma shutdown_imgui_eq w dh c :
  draw_handlers (self w) = Some dh -> imgui_ctx (self w) = Some c ->
  shutdown_imgui w = (Return tt, after_shutdown w).
Proof.
  intros Hd Hc. unfold shutdown_imgui, after_shutdown.
  rewrite Hd, Hc. unfold bind at 1, getattr at 1. rewrite Hd.
  unfold bind at 1.
  rewrite (for_each_fold _ unhook_one).
  2:{ intros [s d] w0. reflexivity. }
  fold (unhook dh w).
  unfold bind at 1, gets at 1. rewrite unhook_self, Hc.
  reflexivity.
Qed.

(** The four ways [handler_remove] ends. *)
Lemma handler_remove_no_attr handle w :
  callbacks (self w) = None ->
  handler_remove handle w = (Raise (AttributeError "callbacks"), w).
Proof.
  intros H. unfold handler_remove, bind, getattr. rewrite H. reflexivity.
Qed.

Lemma handler_remove_unknown handle w cbs :
  callbacks (self w) = Some cbs ->
  PyDict.contains Z.eqb handle cbs = false ->
  handler_remove handle w =
  (Return tt,
   with_host (record (print "Error: invalid imgui callback handle: " handle))
     w).
Proof.
  intros H Hc. unfold handler_remove, bind, getattr. rewrite H, Hc.
  reflexivity.
Qed.

Lemma handler_remove_not_last handle w cbs x rest :
  callbacks (self w) = Some cbs ->
  PyDict.contains Z.eqb handle cbs = true ->
  PyDict.delitem Z.eqb handle cbs = x :: rest ->
  handler_remove handle w =
  (Return tt, with_self (set_callbacks (Some (x :: rest))) w).
Proof.
  intros H Hc Hd. unfold handler_remove, bind, getattr. rewrite H, Hc.
  simpl. rewrite Hd. reflexivity.
Qed.

Lemma handler_remove_last handle w cbs dh c :
  callbacks (self w) = Some cbs ->
  PyDict.contains Z.eqb handle cbs = true ->
  PyDict.delitem Z.eqb handle cbs = [] ->
  draw_handlers (self w) = Some dh -> imgui_ctx (self w) = Some c ->
  handler_remove handle w =
  (Return tt, after_shutdown (with_self (set_callbacks (Some [])) w)).
Proof.
  intros H Hc Hd Hh Hx. unfold handler_remove. unfold bind at 1, getattr at 1.
  rewrite H, Hc. cbv [negb]. unfold bind at 1. unfold modify at 1.
  unfold bind at 1, getattr at 1. rewrite Hd. cbv [with_self self callbacks set_callbacks].
  apply shutdown_imgui_eq with (dh := dh) (c := c); assumption.
Qed.

(** *** Dictionaries *)
Section DictFacts.
Context {K V : Type}.
Variable eqb : K -> K -> bool.
Hypothesis eqb_eq : forall a b, eqb a b = true <-> a = b.

Lemma contains_In k (d : PyDict.dict K V) :
  PyDict.contains eqb k d = true <-> In k (PyDict.keys d).
Proof.
  induction d as [|[k' v'] d IH]; simpl.
  - split; [discriminate | tauto].
  - destruct (eqb k k') eqn:E.
    + apply eqb_eq in E. subst. tauto.
    + rewrite IH. split; [tauto|]. intros [H | H]; [|exact H].
      subst. assert (eqb k k = true) by (apply eqb_eq; reflexivity).
      congruence.
Qed.

Lemma setitem_new k v (d : PyDict.dict K V) :
  PyDict.contains eqb k d = false -> PyDict.setitem eqb k v d = d ++ [(k, v)].
Proof.
  induction d as [|[k' v'] d IH]; simpl; [reflexivity|].
  destruct (eqb k k'); [discriminate|]. intros H. rewrite IH by exact H.
  reflexivity.
Qed.

Lemma delitem_keys (P : K -> Prop) k (d : PyDict.dict K V) :
  Forall P (PyDict.keys d) -> Forall P (PyDict.keys (PyDict.delitem eqb k d)).
Proof.
  induction d as [|[k' v'] d IH]; simpl; intros H; [exact H|].
  inversion H; subst. destruct (eqb k k'); [assumption|].
  simpl. constructor; auto.
Qed.

Lemma delitem_last k (d : PyDict.dict K V) :
  PyDict.contains eqb k d = true -> PyDict.delitem eqb k d = [] ->
  exists v, d = [(k, v)].
Proof.
  destruct d as [|[k' v'] d]; simpl; [discriminate|].
  destruct (eqb k k') eqn:E; [|discriminate].
  intros _ ->. apply eqb_eq in E. subst. eauto.
Qed.

Lemma delitem_absent k (d : PyDict.dict K V) :
  PyDict.contains eqb k d = false -> PyDict.delitem eqb k d = d.
Proof.
  induction d as [|[k' v'] d IH]; simpl; [reflexivity|].
  destruct (eqb k k'); [discriminate|]. intros H. rewrite IH by exact H.
  reflexivity.
Qed.
End DictFacts.

(** *** The states of the registry *)

(** With a context the three dictionaries exist, a callback and a draw
    handler are registered and every handle is below the counter; without
    one no callback is registered. *)
Definition SelfInv (g : GlobalImgui) : Prop :=
  match imgui_ctx g with
  | Some _ =>
      exists dh cbs n,
        draw_handlers g = Some dh /\ callbacks g = Some cbs /\
        next_callback_id g = Some n /\ cbs <> [] /\ dh <> [] /\
        Forall (fun k => 0 <= k < n) (PyDict.keys cbs)
  | None => callbacks g = None \/ callbacks g = Some []
  end.

(** The handle the next registration gets. *)
Definition next_handle (g : GlobalImgui) : Z :=
  match imgui_ctx g, next_callback_id g with
  | Some _, Some n => n
  | _, _ => 0
  end.

Lemma after_add_self cb s w dh cbs n :
  draw_handlers (self w) = Some dh -> callbacks (self w) = Some cbs ->
  next_callback_id (self w) = Some n ->
  self (after_add cb s w) =
  {| imgui_ctx := imgui_ctx (self w);
     imgui_backend := imgui_backend (self w);
     draw_handlers :=
       Some (if PyDict.contains SpaceType_eqb s dh then dh
             else PyDict.setitem SpaceType_eqb s
                    (Handler (fresh_id (host w))) dh);
     callbacks := Some (PyDict.setitem Z.eqb n (cb, s) cbs);
     next_callback_id := Some (n + 1) |}.
Proof.
  destruct w as [g h]; destruct g; simpl. intros -> -> ->.
  unfold after_add; simpl.
  destruct (PyDict.contains SpaceType_eqb s dh); reflexivity.
Qed.

Lemma setitem_not_nil {K V} eqb (k : K) (v : V) d :
  PyDict.setitem eqb k v d <> [].
Proof. destruct d as [|[k' v'] d]; simpl; [|destruct (eqb k k')]; discriminate. Qed.

Lemma fresh_handle_absent n (cbs : PyDict.dict Z (Callback * SpaceType)) :
  Forall (fun k => 0 <= k < n) (PyDict.keys cbs) ->
  PyDict.contains Z.eqb n cbs = false.
Proof.
  intros H. destruct (PyDict.contains Z.eqb n cbs) eqn:E; [|reflexivity].
  apply (contains_In Z.eqb Z.eqb_eq) in E.
  rewrite Forall_forall in H. specialize (H n E). lia.
Qed.

Lemma add_step cb s w :
  SelfInv (self w) ->
  exists w',
    handler_add cb s w = (Return (next_handle (self w)), w') /\
    SelfInv (self w') /\ imgui_ctx (self w') <> None /\
    next_handle (self w') = next_handle (self w) + 1.
Proof.
  intros H. unfold SelfInv in H. unfold next_handle.
  destruct (imgui_ctx (self w)) as [c|] eqn:Hc.
  - destruct H as (dh & cbs & n & Hd & Hcb & Hn & Hne & Hdne & Hk).
    rewrite Hn. rewrite (handler_add_active cb s w c dh cbs n) by assumption.
    eexists; split; [reflexivity|].
    rewrite (after_add_self cb s w dh cbs n) by assumption.
    unfold SelfInv; simpl. rewrite Hc.
    split; [|split; [discriminate | reflexivity]].
    do 3 eexists. repeat split; try reflexivity.
    + apply setitem_not_nil.
    + destruct (PyDict.contains SpaceType_eqb s dh);
        [assumption | apply setitem_not_nil].
    + rewrite (setitem_new Z.eqb) by (apply fresh_handle_absent; exact Hk).
      unfold PyDict.keys. rewrite map_app. apply Forall_app. split.
      * eapply Forall_impl; [|exact Hk]. simpl. intros; lia.
      * constructor; [|constructor]. simpl.
        destruct cbs as [|[k v] cbs]; [congruence|].
        inversion Hk; subst. simpl in *. lia.
  - rewrite (handler_add_inactive cb s w Hc).
    eexists; split; [reflexivity|].
    rewrite (after_add_self cb s (after_init w) [] [] 0) by reflexivity.
    unfold SelfInv; simpl.
    split; [|split; [discriminate | reflexivity]].
    do 3 eexists. repeat split; try reflexivity; try discriminate.
    constructor; [simpl; lia | constructor].
Qed.

Lemma after_shutdown_self w dh c :
  draw_handlers (self w) = Some dh -> imgui_ctx (self w) = Some c ->
  self (after_shutdown w) = set_imgui_ctx None (self w).
Proof.
  intros Hd Hc. unfold after_shutdown. rewrite Hd, Hc.
  unfold with_self, with_host. simpl. rewrite unhook_self. reflexivity.
Qed.

Lemma remove_step handle w :
  SelfInv (self w) ->
  let w' := exec (handler_remove handle) w in
  SelfInv (self w') /\
  (imgui_ctx (self w') <> None ->
   next_handle (self w') = next_handle (self w)).
Proof.
  intros H w'. subst w'. unfold exec.
  destruct (callbacks (self w)) as [cbs|] eqn:Hcb.
  2:{ rewrite handler_remove_no_attr by exact Hcb. simpl. auto. }
  destruct (PyDict.contains Z.eqb handle cbs) eqn:Hin.
  2:{ rewrite (handler_remove_unknown handle w cbs) by assumption.
      simpl. auto. }
  unfold SelfInv in H. destruct (imgui_ctx (self w)) as [c|] eqn:Hc.
  2:{ destruct H as [H | H]; rewrite H in Hcb; [discriminate|].
      injection Hcb as <-. discriminate Hin. }
  destruct H as (dh & cbs' & n & Hd & Hcb' & Hn & Hne & Hdne & Hk).
  rewrite Hcb in Hcb'. injection Hcb' as <-.
  destruct (PyDict.delitem Z.eqb handle cbs) as [|x rest] eqn:Hdel.
  - rewrite (handler_remove_last handle w cbs dh c) by assumption.
    simpl snd.
    rewrite (after_shutdown_self _ dh c) by (simpl; assumption).
    unfold SelfInv. simpl. split; [right; reflexivity | congruence].
  - rewrite (handler_remove_not_last handle w cbs x rest) by assumption.
    simpl snd. unfold SelfInv, next_handle. simpl. rewrite Hc, Hn.
    split; [|reflexivity].
    exists dh, (x :: rest), n. repeat split; try assumption; try discriminate.
    rewrite <- Hdel. apply delitem_keys. exact Hk.
Qed.

Lemma boot_inv h : SelfInv (self (boot h)).
Proof. left; reflexivity. Qed.

Lemma call_inv c w : SelfInv (self w) -> SelfInv (self (exec (call c) w)).
Proof.
  intros H. destruct c as [cb s | handle]; unfold exec, call, bind.
  - destruct (add_step cb s w H) as (w' & -> & Hi & _). exact Hi.
  - destruct (remove_step handle w H) as [Hi _]. unfold exec in Hi.
    destruct (handler_remove handle w) as [[[]|e] w']; exact Hi.
Qed.

Lemma run_cons c cs w :
  run (c :: cs) w =
  (result (call c) w :: fst (run cs (exec (call c) w)),
   snd (run cs (exec (call c) w))).
Proof.
  unfold result, exec. simpl. destruct (call c w) as [r w']. simpl.
  destruct (run cs w') as [rs w'']. reflexivity.
Qed.

Lemma run_inv cs : forall w,
  SelfInv (self w) -> SelfInv (self (snd (run cs w))).
Proof.
  induction cs as [|c cs IH]; intros w H; [exact H|].
  rewrite run_cons. simpl. apply IH, call_inv, H.
Qed.

(** The registration set: the callbacks dictionary, empty as long as the
    attribute does not exist. *)
Definition registration_set (w : World) : PyDict.dict Z (Callback * SpaceType) :=
  match callbacks (self w) with
  | Some d => d
  | None => []
  end.

(** C2: after every sequence of [handler_add] and [handler_remove] calls on
    a new singleton, on any host, the context exists exactly when a callback
    is registered. *)
Theorem context_iff_registered (h : Host) (cs : list Call) :
  let w := snd (run cs (boot h)) in
  imgui_ctx (self w) <> None <-> registration_set w <> [].
Proof.
  intros w. assert (H := run_inv cs (boot h) (boot_inv h)). fold w in H.
  unfold SelfInv in H. unfold registration_set.
  destruct (imgui_ctx (self w)) as [c|].
  - destruct H as (dh & cbs & n & _ & -> & _ & Hne & _).
    split; [intros _; exact Hne | discriminate].
  - destruct H as [-> | ->]; split; congruence.
Qed.

(** *** Handles *)

(** No call of the run tears the context down: a call that starts with a
    context ends with one. *)
Fixpoint no_teardown (cs : list Call) (w : World) : bool :=
  match cs with
  | [] => true
  | c :: cs' =>
      let w' := exec (call c) w in
      match imgui_ctx (self w), imgui_ctx (self w') with
      | Some _, None => false
      | _, _ => no_teardown cs' w'
      end
  end.

Definition count_adds (cs : list Call) : nat :=
  List.length (filter (fun c => match c with add _ _ => true | _ => false end) cs).

(** [n, n + 1, ..., n + k - 1]. *)
Definition iota (n : Z) (k : nat) : list Z :=
  map (fun i => n + Z.of_nat i) (seq 0 k).

Lemma iota_S n k : iota n (S k) = n :: iota (n + 1) k.
Proof.
  unfold iota. simpl. rewrite Z.add_0_r. f_equal.
  rewrite <- seq_shift, map_map. apply map_ext. intros i. lia.
Qed.

Lemma iota_lower n k : Forall (fun x => n <= x) (iota n k).
Proof.
  unfold iota. apply Forall_forall. intros x Hx.
  apply in_map_iff in Hx as (i & <- & _). lia.
Qed.

Lemma iota_sorted k : forall n, StronglySorted Z.lt (iota n k).
Proof.
  induction k as [|k IH]; intros n; [constructor|].
  rewrite iota_S. constructor; [apply IH|].
  eapply Forall_impl; [|apply (iota_lower (n + 1) k)]. simpl. intros; lia.
Qed.

Lemma iota_NoDup k : forall n, NoDup (iota n k).
Proof.
  induction k as [|k IH]; intros n; [constructor|].
  rewrite iota_S. constructor; [|apply IH].
  intros Hin. assert (H := iota_lower (n + 1) k).
  rewrite Forall_forall in H. specialize (H n Hin). lia.
Qed.

Lemma handles_without_teardown cs : forall w,
  SelfInv (self w) -> no_teardown cs w = true ->
  handles (fst (run cs w)) = iota (next_handle (self w)) (count_adds cs).
Proof.
  induction cs as [|c cs IH]; intros w Hi Ha; [reflexivity|].
  rewrite run_cons. simpl in Ha. simpl fst.
  assert (Ha' : no_teardown cs (exec (call c) w) = true).
  { destruct (imgui_ctx (self w)); [|exact Ha].
    destruct (imgui_ctx (self (exec (call c) w))); [exact Ha|discriminate]. }
  specialize (IH (exec (call c) w) (call_inv c w Hi) Ha').
  destruct c as [cb s | handle].
  - destruct (add_step cb s w Hi) as (w' & Hadd & _ & _ & Hn).
    unfold result, exec, call, bind in *. rewrite Hadd in *. simpl in *.
    unfold count_adds in *. simpl. rewrite iota_S. rewrite IH, Hn.
    reflexivity.
  - destruct (remove_step handle w Hi) as [_ Hn].
    assert (E : exec (call (remove handle)) w =
                exec (handler_remove handle) w).
    { unfold exec, call, bind.
      destruct (handler_remove handle w) as [[[]|e] w']; reflexivity. }
    assert (Hnext : next_handle (self (exec (handler_remove handle) w)) =
                    next_handle (self w)).
    { destruct (imgui_ctx (self (exec (handler_remove handle) w))) eqn:Hc'.
      - apply Hn. congruence.
      - rewrite E, Hc' in Ha. unfold next_handle. rewrite Hc'.
        destruct (imgui_ctx (self w)); [discriminate|reflexivity]. }
    assert (Hr : forall l,
               handles (result (call (remove handle)) w :: l) = handles l).
    { intros l. unfold result, call, bind.
      destruct (handler_remove handle w) as [[[]|e] w']; reflexivity. }
    rewrite E in IH. rewrite Hr, E, IH, Hnext. reflexivity.
Qed.

(** C1, as the code has it: in a run of [handler_add] and [handler_remove]
    calls on a new singleton in which no call tears the context down, the
    handles returned are [0, 1, 2, ...] in order, one per [handler_add],
    hence strictly increasing and never repeated; once a [handler_remove]
    has torn the context down, the next [handler_add] returns [0] again. *)
Theorem handles_count_up_while_active (h : Host) (cs : list Call) :
  no_teardown cs (boot h) = true ->
  let w := snd (run cs (boot h)) in
  let hs := handles (fst (run cs (boot h))) in
  hs = iota 0 (count_adds cs) /\
  StronglySorted Z.lt hs /\ NoDup hs /\
  (forall handle callback s,
      let w' := exec (handler_remove handle) w in
      imgui_ctx (self w') = None ->
      result (handler_add callback s) w' = Return 0).
Proof.
  intros Ha w hs.
  assert (E : hs = iota 0 (count_adds cs))
    by (apply (handles_without_teardown cs (boot h) (boot_inv h) Ha)).
  split; [exact E|]. rewrite E.
  split; [apply iota_sorted|]. split; [apply iota_NoDup|].
  intros handle cb s w' Hc. unfold result.
  rewrite (handler_add_inactive cb s w' Hc). reflexivity.
Qed.

Definition view_3d : SpaceType := Space "SpaceView3D".

Lemma handles_count_up_while_active_witness :
  handles (fst (run [remove 5; add (Cb 1) view_3d; add (Cb 2) view_3d;
                     remove 0; add (Cb 3) view_3d]
                    (example_world 4 (triangle (0, 0, 1, 1)%Q))))
  = [0; 1; 2].
Proof.
  apply (handles_count_up_while_active
           (example_host 4 (triangle (0, 0, 1, 1)%Q))
           [remove 5; add (Cb 1) view_3d; add (Cb 2) view_3d; remove 0;
            add (Cb 3) view_3d]).
  vm_compute. reflexivity.
Defined.

(** C1 as stated fails: the handle of a removed registration comes back
    after a teardown. *)
Lemma handle_reused_after_teardown :
  let rs := fst (run [add (Cb 1) view_3d; remove 0; add (Cb 2) view_3d]
                     (example_world 4 (triangle (0, 0, 1, 1)%Q))) in
  rs = [Return (Some 0); Return None; Return (Some 0)] /\
  ~ NoDup (handles rs) /\ ~ StronglySorted Z.lt (handles rs).
Proof.
  intros rs.
  assert (E : rs = [Return (Some 0); Return None; Return (Some 0)])
    by (vm_compute; reflexivity).
  rewrite E. split; [reflexivity|]. simpl. split; intros H.
  - inversion H as [|x l Hin _]; subst. apply Hin. left; reflexivity.
  - inversion H as [|x l _ Hall]; subst. inversion Hall; subst. lia.
Qed.

(** C4 at the state it misses: on a singleton that never registered
    anything the [callbacks] attribute does not exist, and
    [handler_remove] raises instead of reporting. *)
Theorem handler_remove_before_init_raises (h : Host) (handle : Z) :
  handler_remove handle (boot h) = (Raise (AttributeError "callbacks"), boot h).
Proof. apply handler_remove_no_attr. reflexivity. Qed.

(** *** Draw handlers *)

Definition hid (e : SpaceType * DrawHandler) : nat :=
  match snd e with Handler i => i end.

Lemma uninstall_other s d (l r : list (SpaceType * DrawHandler)) :
  Forall (fun e => hid e <> hid (s, d)) l ->
  uninstall s d (l ++ (s, d) :: r) = l ++ r.
Proof.
  induction l as [|[s' [i']] l IH]; intros H; simpl.
  - destruct d as [i]. simpl. rewrite SpaceType_eqb_refl, Nat.eqb_refl.
    reflexivity.
  - inversion H as [|x y Hx Hl]; subst. destruct d as [i].
    unfold hid in Hx; simpl in Hx.
    replace (Nat.eqb i i') with false
      by (symmetry; apply Nat.eqb_neq; congruence).
    rewrite andb_false_r. rewrite <- IH by exact Hl. reflexivity.
Qed.

Lemma uninstall_all (base dh : list (SpaceType * DrawHandler)) :
  Forall (fun e => Forall (fun e' => hid e <> hid e') dh) base ->
  NoDup (map hid dh) ->
  fold_left (fun l e => uninstall (fst e) (snd e) l) dh (base ++ dh) = base.
Proof.
  induction dh as [|[s d] dh IH]; intros Hb Hn; simpl.
  - apply app_nil_r.
  - rewrite uninstall_other.
    + apply IH.
      * eapply Forall_impl; [|exact Hb]. intros e He.
        inversion He; assumption.
      * inversion Hn; assumption.
    + eapply Forall_impl; [|exact Hb]. intros e He.
      inversion He; assumption.
Qed.

(** The hooks of the host are the ones that were there at the start plus,
    while a context exists, exactly the ones in [draw_handlers]. *)
Definition HooksInv (f0 : nat) (base : list (SpaceType * DrawHandler))
  (w : World) : Prop :=
  (f0 <= fresh_id (host w))%nat /\
  match imgui_ctx (self w), draw_handlers (self w) with
  | Some _, Some dh =>
      installed (host w) = base ++ dh /\
      Forall (fun e => (f0 <= hid e < fresh_id (host w))%nat) dh /\
      NoDup (map hid dh)
  | Some _, None => False
  | None, _ => installed (host w) = base
  end.

Lemma NoDup_snoc_fresh (l : list nat) x :
  NoDup l -> Forall (fun y => (y < x)%nat) l -> NoDup (l ++ [x]).
Proof.
  intros Hn Hl. induction l as [|y l IH]; simpl.
  - constructor; [intros []|constructor].
  - inversion Hn; subst. inversion Hl; subst. constructor.
    + intros Hin. apply in_app_or in Hin as [Hin | [Hin | []]]; [tauto|].
      lia.
    + apply IH; assumption.
Qed.

Lemma add_hooks f0 base cb s w :
  SelfInv (self w) -> HooksInv f0 base w ->
  HooksInv f0 base (exec (handler_add cb s) w).
Proof.
  intros Hs [Hf Hh]. unfold exec. unfold SelfInv in Hs.
  destruct (imgui_ctx (self w)) as [c|] eqn:Hc.
  - destruct Hs as (dh & cbs & n & Hd & Hcb & Hn & _).
    rewrite Hd in Hh. destruct Hh as (Hi & Hr & Hnd).
    rewrite (handler_add_active cb s w c dh cbs n) by assumption.
    simpl snd. unfold HooksInv.
    rewrite (after_add_self cb s w dh cbs n) by assumption. simpl.
    rewrite Hc. unfold after_add. rewrite Hd, Hcb, Hn.
    destruct (PyDict.contains SpaceType_eqb s dh) eqn:Hin; simpl.
    + auto.
    + rewrite (setitem_new SpaceType_eqb) by exact Hin.
      split; [lia|]. split; [rewrite Hi, app_assoc; reflexivity|]. split.
      * apply Forall_app. split.
        -- eapply Forall_impl; [|exact Hr]. simpl. intros; lia.
        -- constructor; [unfold hid; simpl; lia | constructor].
      * rewrite map_app. apply NoDup_snoc_fresh; [exact Hnd|].
        apply Forall_map. eapply Forall_impl; [|exact Hr].
        intros e He. change (hid (s, Handler (fresh_id (host w))))
          with (fresh_id (host w)). cbv beta in He. lia.
  - rewrite (handler_add_inactive cb s w Hc). simpl snd. unfold HooksInv.
    rewrite (after_add_self cb s (after_init w) [] [] 0) by reflexivity.
    simpl. split; [lia|]. split; [rewrite Hh; reflexivity|]. split.
    + constructor; [unfold hid; simpl; lia | constructor].
    + constructor; [intros []|constructor].
Qed.

Lemma remove_hooks f0 base handle w :
  Forall (fun e => (hid e < f0)%nat) base ->
  SelfInv (self w) -> HooksInv f0 base w ->
  HooksInv f0 base (exec (handler_remove handle) w).
Proof.
  intros Hbase Hs [Hf Hh]. unfold exec.
  destruct (callbacks (self w)) as [cbs|] eqn:Hcb.
  2:{ rewrite handler_remove_no_attr by exact Hcb. split; assumption. }
  destruct (PyDict.contains Z.eqb handle cbs) eqn:Hin.
  2:{ rewrite (handler_remove_unknown handle w cbs) by assumption.
      split; assumption. }
  unfold SelfInv in Hs. destruct (imgui_ctx (self w)) as [c|] eqn:Hc.
  2:{ destruct Hs as [H | H]; rewrite H in Hcb; [discriminate|].
      injection Hcb as <-. discriminate Hin. }
  destruct Hs as (dh & cbs' & n & Hd & Hcb' & Hn & _).
  rewrite Hd in Hh. destruct Hh as (Hi & Hr & Hnd).
  destruct (PyDict.delitem Z.eqb handle cbs) as [|x rest] eqn:Hdel.
  - rewrite (handler_remove_last handle w cbs dh c) by assumption.
    simpl snd. unfold HooksInv.
    rewrite (after_shutdown_self _ dh c) by (simpl; assumption).
    simpl. unfold after_shutdown. simpl. rewrite Hd, Hc. simpl.
    destruct (unhook_env dh (with_self (set_callbacks (Some [])) w))
      as (-> & _).
    rewrite unhook_installed. simpl. split; [exact Hf|].
    rewrite Hi. apply uninstall_all; [|exact Hnd].
    eapply Forall_impl; [|exact Hbase]. intros e He.
    eapply Forall_impl; [|exact Hr]. intros e' He'.
    cbv beta in He, He'. lia.
  - rewrite (handler_remove_not_last handle w cbs x rest) by assumption.
    unfold HooksInv. simpl. rewrite Hc, Hd. auto.
Qed.

Lemma run_hooks f0 base cs : forall w,
  Forall (fun e => (hid e < f0)%nat) base ->
  SelfInv (self w) -> HooksInv f0 base w ->
  HooksInv f0 base (snd (run cs w)).
Proof.
  induction cs as [|c cs IH]; intros w Hb Hs Hh; [exact Hh|].
  rewrite run_cons. simpl snd.
  apply IH; [exact Hb | apply call_inv, Hs|].
  destruct c as [cb s | handle]; unfold exec, call, bind.
  - assert (H := add_hooks f0 base cb s w Hs Hh). unfold exec in H.
    destruct (handler_add cb s w) as [[?|?] ?]; exact H.
  - assert (H := remove_hooks f0 base handle w Hb Hs Hh). unfold exec in H.
    destruct (handler_remove handle w) as [[[]|?] ?]; exact H.
Qed.

(** *** Teardown *)

(** The claim's "all registry state cleared": no draw handler, no callback,
    the counter back at its start. *)
Definition registry_cleared (g : GlobalImgui) : Prop :=
  (draw_handlers g = None \/ draw_handlers g = Some []) /\
  (callbacks g = None \/ callbacks g = Some []) /\
  (next_callback_id g = None \/ next_callback_id g = Some 0).

Lemma calls_of_log {A} (c : M A) w t :
  log (host (exec c w)) = log (host w) ++ t -> calls_of c w = t.
Proof. intros H. unfold calls_of. rewrite H. apply skipn_length_app. Qed.

(** C3, as the code has it: when [handler_remove] removes the last
    callback it calls [draw_handler_remove] for every entry of
    [draw_handlers], in order, then destroys the context; afterwards the host
    has the hooks it had before the singleton registered anything,
    [imgui_ctx] is [None] and [callbacks] is empty, while [draw_handlers]
    and [next_callback_id] keep their values. *)
Theorem last_remove_tears_down (h : Host) (cs : list Call) (handle : Z)
  (v : Callback * SpaceType) :
  Forall (fun e => (hid e < fresh_id h)%nat) (installed h) ->
  let w := snd (run cs (boot h)) in
  callbacks (self w) = Some [(handle, v)] ->
  exists c dh n,
    imgui_ctx (self w) = Some c /\ draw_handlers (self w) = Some dh /\
    next_callback_id (self w) = Some n /\ dh <> [] /\ 0 < n /\
    let w' := exec (handler_remove handle) w in
    result (handler_remove handle) w = Return tt /\
    calls_of (handler_remove handle) w =
      map (fun e => draw_handler_remove (fst e) (snd e)) dh ++
      [imgui_destroy_context c] /\
    installed (host w') = installed h /\
    imgui_ctx (self w') = None /\
    callbacks (self w') = Some [] /\
    draw_handlers (self w') = Some dh /\
    next_callback_id (self w') = Some n.
Proof.
  intros Hbase w Hcb.
  assert (Hs : SelfInv (self w)) by (apply run_inv, boot_inv).
  assert (Hh : HooksInv (fresh_id h) (installed h) w).
  { apply run_hooks; [exact Hbase | apply boot_inv|].
    split; [apply Nat.le_refl | reflexivity]. }
  assert (Hh' := remove_hooks (fresh_id h) (installed h) handle w Hbase Hs Hh).
  unfold SelfInv in Hs. destruct (imgui_ctx (self w)) as [c|] eqn:Hc.
  2:{ destruct Hs as [H | H]; rewrite H in Hcb; discriminate. }
  destruct Hs as (dh & cbs & n & Hd & Hcb' & Hn & _ & Hdne & Hk).
  rewrite Hcb in Hcb'. injection Hcb' as <-.
  exists c, dh, n. repeat (split; [first [reflexivity | assumption]|]).
  split. { inversion Hk; subst. simpl in *. lia. }
  assert (Hin : PyDict.contains Z.eqb handle [(handle, v)] = true)
    by (simpl; rewrite Z.eqb_refl; reflexivity).
  assert (Hdel : PyDict.delitem Z.eqb handle [(handle, v)] = [])
    by (simpl; rewrite Z.eqb_refl; reflexivity).
  assert (E := handler_remove_last handle w _ dh c Hcb Hin Hdel Hd Hc).
  destruct Hh' as [_ Hh']. unfold exec, result in *. rewrite E in *.
  simpl fst; simpl snd in *.
  rewrite (after_shutdown_self _ dh c) in * by (simpl; assumption).
  simpl in Hh'. simpl.
  repeat (split; [first [reflexivity | assumption]|]).
  split; [|repeat split; assumption].
  apply calls_of_log. unfold exec. rewrite E. simpl snd.
  unfold after_shutdown. simpl. rewrite Hd, Hc. simpl.
  rewrite unhook_log. simpl. rewrite <- app_assoc. reflexivity.
Qed.

Lemma last_remove_tears_down_witness :
  let w := snd (run [add (Cb 1) view_3d; add (Cb 2) (Space "SpaceNodeEditor");
                     remove 0]
                    (example_world 4 (triangle (0, 0, 1, 1)%Q))) in
  calls_of (handler_remove 1) w =
    [ draw_handler_remove view_3d (Handler 1);
      draw_handler_remove (Space "SpaceNodeEditor") (Handler 2);
      imgui_destroy_context (Ctx 0) ] /\
  installed (host (exec (handler_remove 1) w)) = [].
Proof.
  intros w.
  destruct (last_remove_tears_down
              (example_host 4 (triangle (0, 0, 1, 1)%Q))
              [add (Cb 1) view_3d; add (Cb 2) (Space "SpaceNodeEditor");
               remove 0]
              1 (Cb 2, Space "SpaceNodeEditor")
              (Forall_nil _) eq_refl)
    as (c & dh & n & Hc & Hd & _ & _ & _ & _ & Hcalls & Hi & _).
  injection Hc as <-. injection Hd as <-.
  split; [exact Hcalls | exact Hi].
Defined.

(** C3 as stated fails: after the teardown the draw-handler map still holds
    the removed handler and the counter is not reset. *)
Lemma teardown_keeps_handlers_and_counter :
  let w := snd (run [add (Cb 1) view_3d; remove 0]
                    (example_world 4 (triangle (0, 0, 1, 1)%Q))) in
  imgui_ctx (self w) = None /\
  callbacks (self w) = Some [] /\
  draw_handlers (self w) = Some [(view_3d, Handler 1)] /\
  next_callback_id (self w) = Some 1 /\
  ~ registry_cleared (self w).
Proof.
  intros w.
  assert (E : self w =
    {| imgui_ctx := None; imgui_backend := Some tt;
       draw_handlers := Some [(view_3d, Handler 1)];
       callbacks := Some []; next_callback_id := Some 1 |})
    by (vm_compute; reflexivity).
  rewrite E. simpl. repeat (split; [reflexivity|]).
  intros ([H | H] & _); discriminate H.
Qed.

(** *** Dispatch *)

Definition is_py_call (c : HostCall) : bool :=
  match c with py_call _ _ => true | _ => false end.

(** The callbacks one [draw] invokes, in order. *)
Definition invoked (s : SpaceType) (w : World) : list HostCall :=
  filter is_py_call (calls_of (draw s) w).

(** The registered callbacks of a region type, in insertion order. *)
Definition registered_for (s : SpaceType)
  (cbs : PyDict.dict Z (Callback * SpaceType)) : list Callback :=
  map fst (filter (fun v => SpaceType_eqb (snd v) s) (PyDict.values cbs)).

(** The io [draw] leaves for the frame. *)
Definition frame_io (h : Host) : Io :=
  set_font_global_scale (ui_scale (bpy_context h))
    (set_display_size
       (inject_Z (region_width (bpy_context h)),
        inject_Z (region_height (bpy_context h))) (io h)).

Definition frame_world (w : World) : World :=
  with_host (fun h => set_io (frame_io h) h) w.

Definition callback_calls (s : SpaceType) (context : BpyContext)
  (v : Callback * SpaceType) : list HostCall :=
  if SpaceType_eqb (snd v) s then [py_call (fst v) context] else [].

Lemma emit_flat_map {A} (f : A -> list HostCall) l : forall w,
  fold_left (fun w x => emit (f x) w) l w = emit (flat_map f l) w.
Proof.
  induction l as [|x l IH]; intros w; simpl.
  - rewrite emit_nil; reflexivity.
  - rewrite IH, emit_app. reflexivity.
Qed.

(** Everything [draw] sends to the host. *)
Definition draw_calls (s : SpaceType) (w : World) : list HostCall :=
  imgui_new_frame ::
  match callbacks (self w) with
  | None => []
  | Some cbs =>
      flat_map (callback_calls s (bpy_context (host w))) (PyDict.values cbs)
      ++ [imgui_end_frame; imgui_render] ++
      match imgui_backend (self w) with
      | None => []
      | Some _ =>
          imgui_get_draw_data ::
          render_calls (draw_data_of_frame (host w))
                       (host (frame_world w))
      end
  end.

Lemma render_calls_frame d h h' :
  io h' = io h -> gpu h' = gpu h -> imgui h' = imgui h ->
  memory h' = memory h -> render_calls d h' = render_calls d h.
Proof.
  intros Hi Hg Him Hm. unfold render_calls, render_body, render_footer.
  rewrite Hi, Hg. destruct (degenerate (io h)); [reflexivity|].
  do 2 f_equal. apply flat_map_ext. intros cl.
  apply list_calls_frame; assumption.
Qed.

Definition frame_call (c : HostCall) : bool :=
  match c with
  | imgui_new_frame | imgui_end_frame | imgui_render | imgui_get_draw_data
  | py_call _ _ => true
  | _ => false
  end.

Lemma frame_calls_gpu t : forall g,
  forallb frame_call t = true -> fold_left gpu_step t g = g.
Proof.
  induction t as [|c t IH]; intros g H; simpl in *; [reflexivity|].
  apply andb_true_iff in H as [Hc Ht]. rewrite IH by exact Ht.
  destruct c; try discriminate Hc; reflexivity.
Qed.

Lemma callback_calls_frame s context l :
  forallb frame_call (flat_map (callback_calls s context) l) = true.
Proof.
  induction l as [|v l IH]; simpl; [reflexivity|].
  rewrite forallb_app, IH, andb_true_r. unfold callback_calls.
  destruct (SpaceType_eqb (snd v) s); reflexivity.
Qed.

Lemma draw_eq s w :
  exists r, draw s w = (r, emit (draw_calls s w) (frame_world w)).
Proof.
  unfold draw, draw_calls.
  unfold bind at 1, gets at 1. unfold bind at 1, modify_io at 1, modify at 1.
  unfold bind at 1, modify_io at 1, modify at 1.
  change (with_host _ (with_host _ w)) with (frame_world w).
  unfold bind at 1. rewrite host_call_emit. cbv beta iota.
  unfold bind at 1, getattr at 1.
  change (self (emit [imgui_new_frame] (frame_world w))) with (self w).
  destruct (callbacks (self w)) as [cbs|]; [|eexists; reflexivity].
  unfold bind at 1.
  rewrite (for_each_fold _
    (fun v w1 => emit (callback_calls s (bpy_context (host w)) v) w1)).
  2:{ intros [cb s'] w1. unfold callback_calls. simpl.
      destruct (SpaceType_eqb s' s); [reflexivity|].
      rewrite emit_nil. reflexivity. }
  rewrite emit_flat_map.
  unfold bind at 1. rewrite host_call_emit. cbv beta iota.
  unfold bind at 1. rewrite host_call_emit. cbv beta iota.
  unfold bind at 1, getattr at 1. rewrite !emit_self.
  change (self (frame_world w)) with (self w).
  destruct (imgui_backend (self w)); [|eexists; rewrite <- !emit_app; reflexivity].
  unfold bind at 1. rewrite host_call_emit. cbv beta iota.
  unfold bind at 1, gets at 1. rewrite render_eq.
  eexists. rewrite <- !emit_app. f_equal. f_equal.
  set (t := [imgui_new_frame] ++
            flat_map (callback_calls s (bpy_context (host w)))
              (PyDict.values cbs) ++
            [imgui_end_frame] ++ [imgui_render] ++ [imgui_get_draw_data]).
  assert (Ht : forallb frame_call t = true).
  { unfold t. simpl. rewrite forallb_app, callback_calls_frame. reflexivity. }
  replace (draw_data_of_frame (host (emit t (frame_world w))))
    with (draw_data_of_frame (host w))
    by (symmetry; apply (records_fields t (host (frame_world w)))).
  rewrite (render_calls_frame _ (host (frame_world w))
             (host (emit t (frame_world w)))).
  - simpl. do 2 f_equal.
  - apply emit_io.
  - rewrite emit_gpu. apply frame_calls_gpu, Ht.
  - apply emit_imgui.
  - apply emit_memory.
Qed.

Lemma calls_of_draw s w : calls_of (draw s) w = draw_calls s w.
Proof.
  destruct (draw_eq s w) as [r E]. apply calls_of_log.
  unfold exec. rewrite E. simpl snd. rewrite emit_log. reflexivity.
Qed.

Lemma loop_not_py_call t :
  forallb loop_call t = true -> filter is_py_call t = [].
Proof.
  induction t as [|c t IH]; simpl; [reflexivity|]. intros H.
  apply andb_true_iff in H as [Hc Ht]. rewrite IH by exact Ht.
  destruct c; try discriminate Hc; reflexivity.
Qed.

Lemma render_no_py_call d h : filter is_py_call (render_calls d h) = [].
Proof.
  unfold render_calls. destruct (degenerate (io h)); [reflexivity|].
  rewrite !filter_app, (loop_not_py_call _ (render_body_loop d h)).
  unfold render_header. destruct (display_size (io h)), (fb_size (io h)).
  reflexivity.
Qed.

Lemma callback_calls_py s context l :
  filter is_py_call (flat_map (callback_calls s context) l) =
  map (fun cb => py_call cb context)
      (map fst (filter (fun v => SpaceType_eqb (snd v) s) l)).
Proof.
  induction l as [|v l IH]; simpl; [reflexivity|].
  rewrite filter_app, IH. unfold callback_calls.
  destruct (SpaceType_eqb (snd v) s); reflexivity.
Qed.

Lemma invoked_eq s w :
  invoked s w =
  map (fun cb => py_call cb (bpy_context (host w)))
      (registered_for s (registration_set w)).
Proof.
  unfold invoked, registered_for, registration_set.
  rewrite calls_of_draw. unfold draw_calls.
  destruct (callbacks (self w)) as [cbs|]; [|reflexivity].
  simpl. rewrite filter_app, callback_calls_py. simpl.
  destruct (imgui_backend (self w)); simpl.
  - rewrite render_no_py_call, app_nil_r. reflexivity.
  - rewrite app_nil_r. reflexivity.
Qed.

Lemma registered_for_app s a b :
  registered_for s (a ++ b) = registered_for s a ++ registered_for s b.
Proof.
  unfold registered_for, PyDict.values.
  rewrite map_app, filter_app, map_app. reflexivity.
Qed.

(** C7: one [draw] for a region type invokes exactly the callbacks
    registered for that type, once per registration, in insertion order,
    each with the current [bpy.context]; a [handler_add] puts its callback
    at the end of that order when the region types agree and leaves the
    order alone otherwise. *)
Theorem draw_invokes_registered (w0 : World) (h : Host) (cs : list Call)
  (callback : Callback) (s' s : SpaceType) :
  invoked s w0 =
    map (fun cb => py_call cb (bpy_context (host w0)))
        (registered_for s (registration_set w0)) /\
  let w := snd (run cs (boot h)) in
  let w1 := exec (handler_add callback s') w in
  registered_for s (registration_set w1) =
    registered_for s (registration_set w) ++
    (if SpaceType_eqb s' s then [callback] else []) /\
  bpy_context (host w1) = bpy_context (host w).
Proof.
  split; [apply invoked_eq|]. intros w w1.
  assert (Hs : SelfInv (self w)) by (apply run_inv, boot_inv).
  unfold SelfInv in Hs. subst w1. unfold exec, registration_set.
  destruct (imgui_ctx (self w)) as [c|] eqn:Hc.
  - destruct Hs as (dh & cbs & n & Hd & Hcb & Hn & _ & _ & Hk).
    rewrite (handler_add_active callback s' w c dh cbs n) by assumption.
    simpl snd.
    rewrite (after_add_self callback s' w dh cbs n) by assumption.
    simpl. rewrite Hcb.
    rewrite (setitem_new Z.eqb) by (apply fresh_handle_absent; exact Hk).
    rewrite registered_for_app. split.
    + f_equal. unfold registered_for. simpl.
      destruct (SpaceType_eqb s' s); reflexivity.
    + unfold after_add. rewrite Hd, Hcb, Hn.
      destruct (PyDict.contains SpaceType_eqb s' dh); reflexivity.
  - rewrite (handler_add_inactive callback s' w Hc). simpl snd.
    rewrite (after_add_self callback s' (after_init w) [] [] 0)
      by reflexivity.
    simpl. split.
    + destruct Hs as [-> | ->]; unfold registered_for; simpl;
        destruct (SpaceType_eqb s' s); reflexivity.
    + reflexivity.
Qed.

(** ** The input translator *)

(** The four flags are what lines 394-409 make of [keys_down]. *)
Definition modifiers_follow_keys (i : Io) : Prop :=
  key_ctrl i = keys_down i (128 + 1) || keys_down i (128 + 2) /\
  key_alt i = keys_down i (128 + 3) || keys_down i (128 + 4) /\
  key_shift i = keys_down i (128 + 5) || keys_down i (128 + 6) /\
  key_super i = keys_down i (128 + 7).

Lemma bind_modify_io {B} f (k : unit -> M B) w :
  bind (modify_io f) k w = k tt (with_host (fun h => set_io (f (io h)) h) w).
Proof. reflexivity. Qed.

Lemma bind_gets {A B} (f : World -> A) (k : A -> M B) w :
  bind (gets f) k w = k (f w) w.
Proof. reflexivity. Qed.

Lemma bind_ret {A B} (a : A) (k : A -> M B) w : bind (ret a) k w = k a w.
Proof. reflexivity. Qed.

Lemma bind_returns {A B} (c : M A) (k : A -> M B) w a w' :
  c w = (Return a, w') -> bind c k w = k a w'.
Proof. intros H. unfold bind. rewrite H. reflexivity. Qed.

Lemma contains_getitem {V} k (d : PyDict.dict string V) :
  PyDict.contains String.eqb k d = true ->
  exists v, PyDict.getitem String.eqb k d = Some v.
Proof.
  induction d as [|[k' v'] d IH]; simpl; [discriminate|].
  destruct (String.eqb k k'); eauto.
Qed.

(** Lines 388-392: a key event stores into [keys_down] and returns. *)
Lemma key_block_returns km event w :
  exists w',
    (if PyDict.contains String.eqb (Operator.type event) km then
       if (Operator.value event =? "PRESS")%string then
         k <- Operator.subscript km (Operator.type event) ;;
         modify_io (fun i => set_keys_down (store (keys_down i) k true) i)
       else if (Operator.value event =? "RELEASE")%string then
         k <- Operator.subscript km (Operator.type event) ;;
         modify_io (fun i => set_keys_down (store (keys_down i) k false) i)
       else ret tt
     else ret tt) w = (Return tt, w') /\
    imgui (host w') = imgui (host w).
Proof.
  destruct (PyDict.contains String.eqb (Operator.type event) km) eqn:Hin;
    [|eexists; split; reflexivity].
  destruct (contains_getitem _ _ Hin) as [v Hv].
  destruct (Operator.value event =? "PRESS")%string;
    [|destruct (Operator.value event =? "RELEASE")%string];
    unfold bind, Operator.subscript; rewrite ?Hv;
    eexists; split; reflexivity.
Qed.

Lemma key_down_eq name w v :
  PyDict.getitem String.eqb name (Operator.key_map (imgui (host w))) = Some v ->
  Operator.key_down name w = (Return (keys_down (io (host w)) v), w).
Proof.
  intros H. unfold Operator.key_down. rewrite bind_gets.
  unfold bind, Operator.subscript. rewrite H. reflexivity.
Qed.

Lemma or_key_down (a : bool) name w v :
  PyDict.getitem String.eqb name (Operator.key_map (imgui (host w))) = Some v ->
  (if a then ret true else Operator.key_down name) w =
  (Return (a || keys_down (io (host w)) v), w).
Proof.
  intros H. destruct a; [reflexivity|]. apply key_down_eq, H.
Qed.

(** After one event the flags are the OR of the key slots. *)
Lemma modal_imgui_modifiers context event w :
  modifiers_follow_keys
    (io (host (exec (Operator.modal_imgui context event) w))).
Proof.
  unfold exec, Operator.modal_imgui.
  rewrite bind_modify_io.
  match goal with |- context [bind ?c _ ?w1] =>
    assert (Hm : exists w2, c w1 = (Return tt, w2)) end.
  { repeat match goal with |- context [if ?b then _ else _] => destruct b end;
      eexists; reflexivity. }
  destruct Hm as (w2 & Hm).
  rewrite (bind_returns _ _ _ _ _ Hm). clear Hm.
  rewrite bind_gets.
  destruct (key_block_returns (Operator.key_map (imgui (host w2))) event w2)
    as (w3 & Hk & _).
  rewrite (bind_returns _ _ _ _ _ Hk). clear Hk. clear w w2.
  rewrite (bind_returns _ _ _ _ _ (key_down_eq "LEFT_CTRL" w3 _ eq_refl)).
  rewrite (bind_returns _ _ _ _ _ (or_key_down _ "RIGHT_CTRL" w3 _ eq_refl)).
  rewrite bind_modify_io.
  rewrite (bind_returns _ _ _ _ _ (key_down_eq "LEFT_ALT" _ _ eq_refl)).
  rewrite (bind_returns _ _ _ _ _ (or_key_down _ "RIGHT_ALT" _ _ eq_refl)).
  rewrite bind_modify_io.
  rewrite (bind_returns _ _ _ _ _ (key_down_eq "LEFT_SHIFT" _ _ eq_refl)).
  rewrite (bind_returns _ _ _ _ _ (or_key_down _ "RIGHT_SHIFT" _ _ eq_refl)).
  rewrite bind_modify_io.
  rewrite (bind_returns _ _ _ _ _ (key_down_eq "OSKEY" _ _ eq_refl)).
  rewrite bind_modify_io.
  destruct (Operator.unicode event) as [|char [|]];
    [|destruct ((0 <? char) && (char <? 65536))|];
    unfold modifiers_follow_keys; simpl; auto.
Qed.

Lemma modal_events_app context events event w :
  Operator.modal_events context (events ++ [event]) w =
  exec (Operator.modal_imgui context event)
       (Operator.modal_events context events w).
Proof.
  revert w; induction events as [|e events IH]; intros w; simpl.
  - reflexivity.
  - apply IH.
Qed.

(** C9: after every event of every stream of events, from any state, ctrl,
    alt and shift are the OR of the [keys_down] slots of their left and right
    keys, and super is the slot of the one OS key the host has. *)
Theorem modifiers_are_or_of_keys (context : BpyContext)
  (events : list Operator.Event) (event : Operator.Event) (w : World) :
  let i := io (host (Operator.modal_events context (events ++ [event]) w)) in
  key_ctrl i = keys_down i 129 || keys_down i 130 /\
  key_alt i = keys_down i 131 || keys_down i 132 /\
  key_shift i = keys_down i 133 || keys_down i 134 /\
  key_super i = keys_down i 135 /\
  PyDict.getitem String.eqb "LEFT_CTRL"%string (Operator.key_map (imgui (host w)))
    = Some 129 /\
  PyDict.getitem String.eqb "RIGHT_CTRL"%string (Operator.key_map (imgui (host w)))
    = Some 130 /\
  PyDict.getitem String.eqb "LEFT_ALT"%string (Operator.key_map (imgui (host w)))
    = Some 131 /\
  PyDict.getitem String.eqb "RIGHT_ALT"%string (Operator.key_map (imgui (host w)))
    = Some 132 /\
  PyDict.getitem String.eqb "LEFT_SHIFT"%string (Operator.key_map (imgui (host w)))
    = Some 133 /\
  PyDict.getitem String.eqb "RIGHT_SHIFT"%string (Operator.key_map (imgui (host w)))
    = Some 134 /\
  PyDict.getitem String.eqb "OSKEY"%string (Operator.key_map (imgui (host w)))
    = Some 135.
Proof.
  intros i. subst i. rewrite modal_events_app.
  destruct (modal_imgui_modifiers context event
              (Operator.modal_events context events w))
    as (H1 & H2 & H3 & H4).
  repeat split; try assumption; reflexivity.
Qed.

(** ** More on the input translator *)

(** Everything of a world but the io. *)
Definition outside_io (w : World) :=
  (self w, imgui (host w), gpu (host w), installed (host w),
   fresh_id (host w), bpy_context (host w), draw_data_of_frame (host w),
   memory (host w), log (host w)).

(** Lines 368-383, 388-392, 394-409 and 411-414 as functions of the io. *)
Definition mouse_io (context : BpyContext) (event : Operator.Event)
  (i : Io) : Io :=
  let i :=
    set_mouse_pos
      (Operator.mouse_region_x event,
       region_height context - 1 - Operator.mouse_region_y event) i in
  let pressed := (Operator.value event =? "PRESS")%string in
  if (Operator.type event =? "LEFTMOUSE")%string then
    set_mouse_down (store (mouse_down i) 0 pressed) i
  else if (Operator.type event =? "RIGHTMOUSE")%string then
    set_mouse_down (store (mouse_down i) 1 pressed) i
  else if (Operator.type event =? "MIDDLEMOUSE")%string then
    set_mouse_down (store (mouse_down i) 2 pressed) i
  else if (Operator.type event =? "WHEELUPMOUSE")%string then
    set_mouse_wheel (-1) i
  else if (Operator.type event =? "WHEELUPDOWN")%string then
    set_mouse_wheel 1 i
  else i.

Definition key_io (km : PyDict.dict string Z) (event : Operator.Event)
  (i : Io) : Io :=
  match PyDict.getitem String.eqb (Operator.type event) km with
  | Some k =>
      if (Operator.value event =? "PRESS")%string then
        set_keys_down (store (keys_down i) k true) i
      else if (Operator.value event =? "RELEASE")%string then
        set_keys_down (store (keys_down i) k false) i
      else i
  | None => i
  end.

Definition flag_io (i : Io) : Io :=
  set_key_super (keys_down i 135)
    (set_key_shift (keys_down i 133 || keys_down i 134)
       (set_key_alt (keys_down i 131 || keys_down i 132)
          (set_key_ctrl (keys_down i 129 || keys_down i 130) i))).

Definition text_io (event : Operator.Event) (i : Io) : Io :=
  match Operator.unicode event with
  | [char] =>
      if (0 <? char) && (char <? 65536)
      then set_input_characters (input_characters i ++ [char]) i
      else i
  | _ => i
  end.

Definition modal_io (im : ImguiModule) (context : BpyContext)
  (event : Operator.Event) (i : Io) : Io :=
  text_io event
    (flag_io (key_io (Operator.key_map im) event (mouse_io context event i))).

Lemma getitem_contains {V} k (d : PyDict.dict string V) :
  PyDict.contains String.eqb k d =
  match PyDict.getitem String.eqb k d with Some _ => true | None => false end.
Proof.
  induction d as [|[k' v'] d IH]; simpl; [reflexivity|].
  destruct (String.eqb k k'); auto.
Qed.

Lemma mouse_block context event w :
  exists w',
    (modify_io (set_mouse_pos
       (Operator.mouse_region_x event,
        region_height context - 1 - Operator.mouse_region_y event)) ;;
     (if (Operator.type event =? "LEFTMOUSE")%string then
        modify_io (fun i =>
          set_mouse_down
            (store (mouse_down i) 0 (Operator.value event =? "PRESS")%string) i)
      else if (Operator.type event =? "RIGHTMOUSE")%string then
        modify_io (fun i =>
          set_mouse_down
            (store (mouse_down i) 1 (Operator.value event =? "PRESS")%string) i)
      else if (Operator.type event =? "MIDDLEMOUSE")%string then
        modify_io (fun i =>
          set_mouse_down
            (store (mouse_down i) 2 (Operator.value event =? "PRESS")%string) i)
      else if (Operator.type event =? "WHEELUPMOUSE")%string then
        modify_io (set_mouse_wheel (-1))
      else if (Operator.type event =? "WHEELUPDOWN")%string then
        modify_io (set_mouse_wheel 1)
      else ret tt)) w = (Return tt, w') /\
    io (host w') = mouse_io context event (io (host w)) /\
    outside_io w' = outside_io w.
Proof.
  rewrite bind_modify_io. unfold mouse_io.
  repeat match goal with |- context [if ?b then _ else _] => destruct b end;
    eexists; (split; [reflexivity | split; reflexivity]).
Qed.

Lemma key_block km event w :
  exists w',
    (if PyDict.contains String.eqb (Operator.type event) km then
       if (Operator.value event =? "PRESS")%string then
         k <- Operator.subscript km (Operator.type event) ;;
         modify_io (fun i => set_keys_down (store (keys_down i) k true) i)
       else if (Operator.value event =? "RELEASE")%string then
         k <- Operator.subscript km (Operator.type event) ;;
         modify_io (fun i => set_keys_down (store (keys_down i) k false) i)
       else ret tt
     else ret tt) w = (Return tt, w') /\
    io (host w') = key_io km event (io (host w)) /\
    outside_io w' = outside_io w.
Proof.
  rewrite getitem_contains. unfold key_io, Operator.subscript.
  destruct (PyDict.getitem String.eqb (Operator.type event) km) as [k|];
    [|eexists; split; [reflexivity | split; reflexivity]].
  destruct (Operator.value event =? "PRESS")%string;
    [|destruct (Operator.value event =? "RELEASE")%string];
    eexists; (split; [reflexivity | split; reflexivity]).
Qed.

Example ord_message_of_two :
  Operator.ord_message 2 =
  "ord() expected a character, but string of length 2 found"%string.
Proof. reflexivity. Qed.

(** What [modal_imgui] returns and leaves: the io is [modal_io] of the io
    before, everything else is as before, and the call raises only for a
    [unicode] of two or more code points. *)
Lemma modal_imgui_eq context event w :
  let w' := exec (Operator.modal_imgui context event) w in
  io (host w') = modal_io (imgui (host w)) context event (io (host w)) /\
  outside_io w' = outside_io w /\
  result (Operator.modal_imgui context event) w =
    match Operator.unicode event with
    | _ :: _ :: _ =>
        Raise (TypeError
                 (Operator.ord_message (List.length (Operator.unicode event))))
    | _ => Return tt
    end.
Proof.
  unfold exec, result, Operator.modal_imgui, modal_io.
  match goal with |- context [bind ?a (fun _ => bind ?b ?k) w] =>
    change (bind a (fun _ => bind b k) w) with (bind (bind a (fun _ => b)) k w)
  end.
  destruct (mouse_block context event w) as (w2 & Hm & Hio2 & Hout2).
  rewrite (bind_returns _ _ _ _ _ Hm). clear Hm.
  rewrite bind_gets.
  destruct (key_block (Operator.key_map (imgui (host w2))) event w2)
    as (w3 & Hk & Hio3 & Hout3).
  rewrite (bind_returns _ _ _ _ _ Hk). clear Hk.
  assert (Him : imgui (host w2) = imgui (host w)) by (injection Hout2; auto).
  rewrite Him in Hio3. rewrite <- Hio2, <- Hio3. rewrite <- Hout2, <- Hout3.
  clear.
  rewrite (bind_returns _ _ _ _ _ (key_down_eq "LEFT_CTRL" w3 _ eq_refl)).
  rewrite (bind_returns _ _ _ _ _ (or_key_down _ "RIGHT_CTRL" w3 _ eq_refl)).
  rewrite bind_modify_io.
  rewrite (bind_returns _ _ _ _ _ (key_down_eq "LEFT_ALT" _ _ eq_refl)).
  rewrite (bind_returns _ _ _ _ _ (or_key_down _ "RIGHT_ALT" _ _ eq_refl)).
  rewrite bind_modify_io.
  rewrite (bind_returns _ _ _ _ _ (key_down_eq "LEFT_SHIFT" _ _ eq_refl)).
  rewrite (bind_returns _ _ _ _ _ (or_key_down _ "RIGHT_SHIFT" _ _ eq_refl)).
  rewrite bind_modify_io.
  rewrite (bind_returns _ _ _ _ _ (key_down_eq "OSKEY" _ _ eq_refl)).
  rewrite bind_modify_io.
  unfold text_io.
  destruct (Operator.unicode event) as [|char [|]];
    [|destruct ((0 <? char) && (char <? 65536))|];
    repeat split.
Qed.

Lemma text_io_fields event i :
  mouse_pos (text_io event i) = mouse_pos i /\
  mouse_down (text_io event i) = mouse_down i /\
  mouse_wheel (text_io event i) = mouse_wheel i /\
  keys_down (text_io event i) = keys_down i.
Proof.
  unfold text_io. destruct (Operator.unicode event) as [|c [|]];
    [|destruct ((0 <? c) && (c <? 65536))|]; repeat split.
Qed.

Lemma key_io_fields km event i :
  mouse_pos (key_io km event i) = mouse_pos i /\
  mouse_down (key_io km event i) = mouse_down i /\
  mouse_wheel (key_io km event i) = mouse_wheel i /\
  input_characters (key_io km event i) = input_characters i.
Proof.
  unfold key_io. destruct (PyDict.getitem _ _ _); [|repeat split].
  destruct (Operator.value event =? "PRESS")%string; [repeat split|].
  destruct (Operator.value event =? "RELEASE")%string; repeat split.
Qed.

Lemma mouse_io_fields context event i :
  keys_down (mouse_io context event i) = keys_down i /\
  input_characters (mouse_io context event i) = input_characters i.
Proof.
  unfold mouse_io.
  repeat match goal with |- context [if ?b then _ else _] => destruct b end;
    repeat split.
Qed.

(** X1: the pointer position of every event is stored with its y flipped
    from the region's bottom-left origin to a top-left origin. *)
Theorem modal_imgui_mouse_pos (context : BpyContext)
  (event : Operator.Event) (w : World) :
  mouse_pos (io (host (exec (Operator.modal_imgui context event) w))) =
  (Operator.mouse_region_x event,
   region_height context - 1 - Operator.mouse_region_y event).
Proof.
  destruct (modal_imgui_eq context event w) as (-> & _). unfold modal_io.
  destruct (text_io_fields event
    (flag_io (key_io (Operator.key_map (imgui (host w))) event
                (mouse_io context event (io (host w)))))) as (-> & _).
  simpl mouse_pos.
  destruct (key_io_fields (Operator.key_map (imgui (host w))) event
              (mouse_io context event (io (host w)))) as (-> & _).
  unfold mouse_io.
  repeat match goal with |- context [if ?b then _ else _] => destruct b end;
    reflexivity.
Qed.

(** The slot of a mouse button event. *)
Definition button_slot (type : string) : option Z :=
  PyDict.getitem String.eqb type
    [("LEFTMOUSE"%string, 0); ("RIGHTMOUSE"%string, 1);
     ("MIDDLEMOUSE"%string, 2)].

(** X2: a mouse button event stores into its own slot of [mouse_down] whether
    its value is ['PRESS'] (any other value, not only ['RELEASE'], stores
    false); the other slots, and every slot on any other event, keep their
    value. *)
Theorem modal_imgui_mouse_down (context : BpyContext)
  (event : Operator.Event) (w : World) (b : Z) :
  mouse_down (io (host (exec (Operator.modal_imgui context event) w))) b =
  match button_slot (Operator.type event) with
  | Some slot =>
      if b =? slot then (Operator.value event =? "PRESS")%string
      else mouse_down (io (host w)) b
  | None => mouse_down (io (host w)) b
  end.
Proof.
  destruct (modal_imgui_eq context event w) as (-> & _). unfold modal_io.
  destruct (text_io_fields event
    (flag_io (key_io (Operator.key_map (imgui (host w))) event
                (mouse_io context event (io (host w)))))) as (_ & -> & _).
  simpl mouse_down.
  destruct (key_io_fields (Operator.key_map (imgui (host w))) event
              (mouse_io context event (io (host w)))) as (_ & -> & _).
  unfold mouse_io, button_slot. simpl PyDict.getitem.
  destruct (Operator.type event =? "LEFTMOUSE")%string; [reflexivity|].
  destruct (Operator.type event =? "RIGHTMOUSE")%string; [reflexivity|].
  destruct (Operator.type event =? "MIDDLEMOUSE")%string; [reflexivity|].
  destruct (Operator.type event =? "WHEELUPMOUSE")%string; [reflexivity|].
  destruct (Operator.type event =? "WHEELUPDOWN")%string; reflexivity.
Qed.

(** X3: only ['WHEELUPMOUSE'] and the misspelt ['WHEELUPDOWN'] set the scroll
    delta, to [-1] and [+1]; every other event, the host's
    ['WHEELDOWNMOUSE'] among them, leaves it as it was. *)
Theorem modal_imgui_mouse_wheel (context : BpyContext)
  (event : Operator.Event) (w : World) (value : string) (x y : Z)
  (unicode : list Z) :
  mouse_wheel (io (host (exec (Operator.modal_imgui context event) w))) =
    (if (Operator.type event =? "WHEELUPMOUSE")%string then -1
     else if (Operator.type event =? "WHEELUPDOWN")%string then 1
     else mouse_wheel (io (host w))) /\
  mouse_wheel
    (io (host (exec (Operator.modal_imgui context
                       {| Operator.type := "WHEELDOWNMOUSE";
                          Operator.value := value;
                          Operator.mouse_region_x := x;
                          Operator.mouse_region_y := y;
                          Operator.unicode := unicode |}) w))) =
    mouse_wheel (io (host w)).
Proof.
  assert (H : forall e,
    mouse_wheel (io (host (exec (Operator.modal_imgui context e) w))) =
    (if (Operator.type e =? "WHEELUPMOUSE")%string then -1
     else if (Operator.type e =? "WHEELUPDOWN")%string then 1
     else mouse_wheel (io (host w)))).
  { intros e. destruct (modal_imgui_eq context e w) as (-> & _).
    unfold modal_io.
    destruct (text_io_fields e
      (flag_io (key_io (Operator.key_map (imgui (host w))) e
                  (mouse_io context e (io (host w)))))) as (_ & _ & -> & _).
    simpl mouse_wheel.
    destruct (key_io_fields (Operator.key_map (imgui (host w))) e
                (mouse_io context e (io (host w)))) as (_ & _ & -> & _).
    unfold mouse_io.
    destruct (Operator.type e =? "LEFTMOUSE")%string eqn:E1.
    { apply String.eqb_eq in E1. rewrite E1. reflexivity. }
    destruct (Operator.type e =? "RIGHTMOUSE")%string eqn:E2.
    { apply String.eqb_eq in E2. rewrite E2. reflexivity. }
    destruct (Operator.type e =? "MIDDLEMOUSE")%string eqn:E3.
    { apply String.eqb_eq in E3. rewrite E3. reflexivity. }
    destruct (Operator.type e =? "WHEELUPMOUSE")%string; [reflexivity|].
    destruct (Operator.type e =? "WHEELUPDOWN")%string; reflexivity. }
  split; [apply H|]. rewrite H. reflexivity.
Qed.

Lemma keys_down_after context event w k :
  keys_down (io (host (exec (Operator.modal_imgui context event) w))) k =
  match PyDict.getitem String.eqb (Operator.type event)
          (Operator.key_map (imgui (host w))) with
  | Some slot =>
      if (k =? slot) && (Operator.value event =? "PRESS")%string then true
      else if (k =? slot) && (Operator.value event =? "RELEASE")%string
           then false
           else keys_down (io (host w)) k
  | None => keys_down (io (host w)) k
  end.
Proof.
  destruct (modal_imgui_eq context event w) as (-> & _). unfold modal_io.
  destruct (text_io_fields event
    (flag_io (key_io (Operator.key_map (imgui (host w))) event
                (mouse_io context event (io (host w))))))
    as (_ & _ & _ & ->).
  simpl keys_down. unfold key_io.
  destruct (mouse_io_fields context event (io (host w))) as (Hk & _).
  destruct (PyDict.getitem _ _ _) as [slot|]; [|rewrite Hk; reflexivity].
  destruct (Operator.value event =? "PRESS")%string; simpl.
  - rewrite Hk. unfold store. destruct (k =? slot); reflexivity.
  - destruct (Operator.value event =? "RELEASE")%string; simpl; rewrite Hk.
    + unfold store. destruct (k =? slot); reflexivity.
    + destruct (k =? slot); reflexivity.
Qed.

(** X4: a ['PRESS'] of a key of [key_map] sets the key's slot of [keys_down],
    a ['RELEASE'] clears it; every other slot, every slot on any other value
    and every slot on a key that is not in [key_map] keep their value. *)
Theorem modal_imgui_keys_down (context : BpyContext)
  (event : Operator.Event) (w : World) (k : Z) :
  keys_down (io (host (exec (Operator.modal_imgui context event) w))) k =
  match PyDict.getitem String.eqb (Operator.type event)
          (Operator.key_map (imgui (host w))) with
  | Some slot =>
      if (k =? slot) && (Operator.value event =? "PRESS")%string then true
      else if (k =? slot) && (Operator.value event =? "RELEASE")%string
           then false
           else keys_down (io (host w)) k
  | None => keys_down (io (host w)) k
  end.
Proof. apply keys_down_after. Qed.

(** X5: what [modal_imgui] leaves in the text queue of the io it writes: an
    event whose [unicode] is one code point in [(0, 0x10000)] appends it;
    any other event, one whose [unicode] [ord] refuses included, leaves the
    queue as it was. *)
Theorem modal_imgui_text (context : BpyContext) (event : Operator.Event)
  (w : World) :
  input_characters (io (host (exec (Operator.modal_imgui context event) w))) =
    input_characters (io (host w)) ++
    match Operator.unicode event with
    | [char] => if (0 <? char) && (char <? 65536) then [char] else []
    | _ => []
    end.
Proof.
  destruct (modal_imgui_eq context event w) as (-> & _ & _).
  unfold modal_io.
  assert (H : input_characters
                (flag_io (key_io (Operator.key_map (imgui (host w))) event
                            (mouse_io context event (io (host w))))) =
              input_characters (io (host w))).
  { simpl input_characters.
    destruct (key_io_fields (Operator.key_map (imgui (host w))) event
                (mouse_io context event (io (host w)))) as (_ & _ & _ & ->).
    apply mouse_io_fields. }
  unfold text_io. destruct (Operator.unicode event) as [|c [|]];
    [|destruct ((0 <? c) && (c <? 65536))|];
    cbn [input_characters set_input_characters]; rewrite H;
    rewrite ?app_nil_r; reflexivity.
Qed.

(** X6: [modal_imgui] touches the io only: the registry, the GPU state, the
    installed draw handlers and the log of host calls are as before. *)
Theorem modal_imgui_only_io (context : BpyContext) (event : Operator.Event)
  (w : World) :
  let w' := exec (Operator.modal_imgui context event) w in
  self w' = self w /\ gpu (host w') = gpu (host w) /\
  installed (host w') = installed (host w) /\
  log (host w') = log (host w) /\
  display_size (io (host w')) = display_size (io (host w)) /\
  key_map (io (host w')) = key_map (io (host w)).
Proof.
  intros w'. subst w'.
  destruct (modal_imgui_eq context event w) as (Hio & Hout & _).
  unfold outside_io in Hout. injection Hout as Hs _ Hg Hi _ _ _ _ Hl.
  rewrite Hs, Hg, Hi, Hl, Hio. repeat split.
  - unfold modal_io, text_io, flag_io, key_io, mouse_io.
    repeat match goal with
           | |- context [match ?x with _ => _ end] => destruct x
           end; reflexivity.
  - unfold modal_io, text_io, flag_io, key_io, mouse_io.
    repeat match goal with
           | |- context [match ?x with _ => _ end] => destruct x
           end; reflexivity.
Qed.

(** *** Modifier keys over a stream of events *)

(** Whether a key is held after an event, given whether it was before. *)
Definition key_state (name : string) (event : Operator.Event)
  (before : bool) : bool :=
  if (Operator.type event =? name)%string then
    if (Operator.value event =? "PRESS")%string then true
    else if (Operator.value event =? "RELEASE")%string then false
    else before
  else before.

Definition held (name : string) (events : list Operator.Event)
  (before : bool) : bool :=
  fold_left (fun b e => key_state name e b) events before.

(** The key constants of the GUI library that [key_map] uses. *)
Definition imgui_key_constants (im : ImguiModule) : list Z :=
  [ KEY_TAB im; KEY_LEFT_ARROW im; KEY_RIGHT_ARROW im; KEY_UP_ARROW im;
    KEY_DOWN_ARROW im; KEY_HOME im; KEY_END im; KEY_INSERT im;
    KEY_DELETE im; KEY_BACKSPACE im; KEY_ENTER im; KEY_ESCAPE im;
    KEY_PAGE_UP im; KEY_PAGE_DOWN im; KEY_A im; KEY_C im; KEY_V im;
    KEY_X im; KEY_Y im; KEY_Z im ].

Definition clear_of_modifiers (im : ImguiModule) : Prop :=
  Forall (fun k => k < 129 \/ 135 < k) (imgui_key_constants im).

Definition modifier_slots : list (string * Z) :=
  [ ("LEFT_CTRL"%string, 129); ("RIGHT_CTRL"%string, 130);
    ("LEFT_ALT"%string, 131); ("RIGHT_ALT"%string, 132);
    ("LEFT_SHIFT"%string, 133); ("RIGHT_SHIFT"%string, 134);
    ("OSKEY"%string, 135) ].

Section GetitemFacts.
Context {K V : Type}.
Variable eqb : K -> K -> bool.
Hypothesis eqb_eq : forall a b, eqb a b = true <-> a = b.

Lemma getitem_app k (a b : PyDict.dict K V) :
  PyDict.getitem eqb k (a ++ b) =
  match PyDict.getitem eqb k a with
  | Some v => Some v
  | None => PyDict.getitem eqb k b
  end.
Proof.
  induction a as [|[k' v'] a IH]; simpl; [reflexivity|].
  destruct (eqb k k'); [reflexivity | apply IH].
Qed.

Lemma getitem_In k (d : PyDict.dict K V) v :
  PyDict.getitem eqb k d = Some v -> In (k, v) d.
Proof.
  induction d as [|[k' v'] d IH]; simpl; [discriminate|].
  destruct (eqb k k') eqn:E.
  - intros [= ->]. apply eqb_eq in E. subst. left; reflexivity.
  - intros H. right. apply IH, H.
Qed.
End GetitemFacts.

Definition navigation_keys (im : ImguiModule) : PyDict.dict string Z :=
  firstn 20 (Operator.key_map im).

Lemma key_map_split im :
  Operator.key_map im = navigation_keys im ++ modifier_slots.
Proof. reflexivity. Qed.

Lemma navigation_slot im t slot :
  clear_of_modifiers im ->
  PyDict.getitem String.eqb t (navigation_keys im) = Some slot ->
  (slot < 129 \/ 135 < slot) /\
  forall name s, In (name, s) modifier_slots -> (t =? name)%string = false.
Proof.
  intros Hc Hg. apply (getitem_In String.eqb String.eqb_eq) in Hg.
  split.
  - unfold clear_of_modifiers in Hc. rewrite Forall_forall in Hc.
    apply Hc. change (imgui_key_constants im)
      with (map snd (navigation_keys im)).
    apply (in_map snd) in Hg. exact Hg.
  - intros name s Hin. apply (in_map fst) in Hg. apply (in_map fst) in Hin.
    simpl in Hg, Hin. apply String.eqb_neq. intros ->.
    repeat (destruct Hin as [Hin | Hin]; [
      subst name;
      repeat (destruct Hg as [Hg | Hg]; [discriminate Hg|]); exact Hg |]).
    exact Hin.
Qed.

Lemma modifier_slot_lookup name slot t :
  In (name, slot) modifier_slots ->
  match PyDict.getitem String.eqb t modifier_slots with
  | Some s => (slot =? s) = (t =? name)%string /\ 129 <= s <= 135
  | None => (t =? name)%string = false
  end.
Proof.
  intros Hin. simpl in Hin. unfold modifier_slots. simpl PyDict.getitem.
  repeat (destruct Hin as [Hin | Hin]; [
    injection Hin as <- <-;
    repeat match goal with
           | |- context [String.eqb t ?s] =>
               let E := fresh "E" in
               destruct (String.eqb t s) eqn:E;
               [apply String.eqb_eq in E; subst t;
                split; [reflexivity | lia] |]
           end;
    first [assumption | reflexivity] |]).
  contradiction.
Qed.

Lemma modifier_slot_step context event w name slot :
  clear_of_modifiers (imgui (host w)) ->
  In (name, slot) modifier_slots ->
  keys_down (io (host (exec (Operator.modal_imgui context event) w))) slot =
  key_state name event (keys_down (io (host w)) slot).
Proof.
  intros Hc Hin. rewrite keys_down_after. unfold key_state.
  rewrite key_map_split, (getitem_app String.eqb).
  destruct (PyDict.getitem String.eqb (Operator.type event)
              (navigation_keys (imgui (host w)))) as [s|] eqn:Hn.
  - destruct (navigation_slot _ _ _ Hc Hn) as [Hs Hname].
    rewrite (Hname name slot Hin).
    assert (Hslot : 129 <= slot <= 135).
    { simpl in Hin.
      repeat (destruct Hin as [Hin | Hin]; [injection Hin as <- <-; lia|]).
      contradiction. }
    replace (slot =? s) with false by (symmetry; apply Z.eqb_neq; lia).
    reflexivity.
  - assert (H := modifier_slot_lookup name slot (Operator.type event) Hin).
    destruct (PyDict.getitem String.eqb (Operator.type event) modifier_slots)
      as [s|].
    + destruct H as [-> _].
      destruct (Operator.type event =? name)%string; reflexivity.
    + rewrite H. reflexivity.
Qed.

Lemma modal_imgui_imgui context event w :
  imgui (host (exec (Operator.modal_imgui context event) w)) = imgui (host w).
Proof.
  destruct (modal_imgui_eq context event w) as (_ & Hout & _).
  unfold outside_io in Hout. injection Hout; auto.
Qed.

Lemma modal_events_held context events : forall w name slot,
  clear_of_modifiers (imgui (host w)) ->
  In (name, slot) modifier_slots ->
  keys_down (io (host (Operator.modal_events context events w))) slot =
  held name events (keys_down (io (host w)) slot).
Proof.
  induction events as [|e events IH]; intros w name slot Hc Hin; simpl.
  - reflexivity.
  - unfold held. simpl. fold (held name events).
    rewrite IH with (name := name) by
      (try rewrite modal_imgui_imgui; assumption).
    rewrite (modifier_slot_step context e w name slot Hc Hin). reflexivity.
Qed.

(** X7: as long as the key constants of the GUI library keep clear of the
    slots 129-135, the modifier flags after a stream of events follow the
    history of the modifier keys: each of the seven slots holds whether the
    last ['PRESS'] or ['RELEASE'] of its key was a press, and a flag is the OR
    of its keys, for every interleaving of events. *)
Theorem modifiers_follow_key_history (context : BpyContext)
  (events : list Operator.Event) (event : Operator.Event) (w : World) :
  clear_of_modifiers (imgui (host w)) ->
  let all := events ++ [event] in
  let i := io (host (Operator.modal_events context all w)) in
  let was k := keys_down (io (host w)) k in
  key_ctrl i = held "LEFT_CTRL" all (was 129) || held "RIGHT_CTRL" all (was 130) /\
  key_alt i = held "LEFT_ALT" all (was 131) || held "RIGHT_ALT" all (was 132) /\
  key_shift i =
    held "LEFT_SHIFT" all (was 133) || held "RIGHT_SHIFT" all (was 134) /\
  key_super i = held "OSKEY" all (was 135).
Proof.
  intros Hc all i was. subst i was.
  assert (Hm : modifiers_follow_keys
                 (io (host (Operator.modal_events context all w)))).
  { unfold all. rewrite modal_events_app. apply modal_imgui_modifiers. }
  destruct Hm as (-> & -> & -> & ->).
  change (128 + 1) with 129. change (128 + 2) with 130.
  change (128 + 3) with 131. change (128 + 4) with 132.
  change (128 + 5) with 133. change (128 + 6) with 134.
  change (128 + 7) with 135.
  rewrite (modal_events_held context all w "LEFT_CTRL" 129 Hc)
    by (simpl; tauto).
  rewrite (modal_events_held context all w "RIGHT_CTRL" 130 Hc)
    by (simpl; tauto).
  rewrite (modal_events_held context all w "LEFT_ALT" 131 Hc)
    by (simpl; tauto).
  rewrite (modal_events_held context all w "RIGHT_ALT" 132 Hc)
    by (simpl; tauto).
  rewrite (modal_events_held context all w "LEFT_SHIFT" 133 Hc)
    by (simpl; tauto).
  rewrite (modal_events_held context all w "RIGHT_SHIFT" 134 Hc)
    by (simpl; tauto).
  rewrite (modal_events_held context all w "OSKEY" 135 Hc)
    by (simpl; tauto).
  repeat split.
Qed.

Definition key_event (type value : string) : Operator.Event :=
  {| Operator.type := type; Operator.value := value;
     Operator.mouse_region_x := 0; Operator.mouse_region_y := 0;
     Operator.unicode := [] |}.

Lemma modifiers_follow_key_history_witness :
  let w := example_world 4 (triangle (0, 0, 1, 1)%Q) in
  let events :=
    [ key_event "LEFT_CTRL" "PRESS"; key_event "RIGHT_CTRL" "PRESS";
      key_event "LEFT_CTRL" "RELEASE"; key_event "A" "PRESS" ] in
  key_ctrl (io (host (Operator.modal_events
                        {| region_width := 50; region_height := 50;
                           ui_scale := 1%Q |} events w))) = true.
Proof.
  intros w events.
  assert (Hc : clear_of_modifiers (imgui (host w))).
  { unfold clear_of_modifiers, imgui_key_constants.
    repeat (constructor; [left; vm_compute; reflexivity|]). constructor. }
  destruct (modifiers_follow_key_history
              {| region_width := 50; region_height := 50; ui_scale := 1%Q |}
              [ key_event "LEFT_CTRL" "PRESS"; key_event "RIGHT_CTRL" "PRESS";
                key_event "LEFT_CTRL" "RELEASE" ]
              (key_event "A" "PRESS") w Hc) as (H & _).
  exact H.
Defined.

(** ** More on the draw translator *)

(** X8: on a framebuffer one of whose pixel dimensions is zero [render]
    returns at once: no call reaches the host and the world is as before. *)
Theorem render_degenerate_is_silent (draw_data : DrawData) (w : World) :
  degenerate (io (host w)) = true ->
  render draw_data w = (Return tt, w) /\
  calls_of (render draw_data) w = [].
Proof.
  intros Hd. assert (E : render draw_data w = (Return tt, w)).
  { rewrite render_eq. unfold render_calls. rewrite Hd, emit_nil.
    reflexivity. }
  split; [exact E|]. apply calls_of_log. unfold exec. rewrite E.
  simpl. rewrite app_nil_r. reflexivity.
Qed.

Lemma render_degenerate_is_silent_witness :
  let d := triangle (0, 0, 1, 1)%Q in
  let w := with_host (set_io (set_display_size (0, 50 # 1)%Q new_io))
             (example_world 4 d) in
  calls_of (render d) w = [].
Proof.
  intros d w. apply (render_degenerate_is_silent d w). reflexivity.
Defined.

Definition is_scissor (c : HostCall) : bool :=
  match c with scissor_set _ _ _ _ => true | _ => false end.

Definition command_count (draw_data : DrawData) : nat :=
  fold_right Nat.add 0%nat
    (map (fun l => List.length (commands l)) (commands_lists draw_data)).

Lemma commands_calls_counts fbh vtx idx cmds : forall offset,
  List.length (filter is_draw (commands_calls fbh vtx idx offset cmds)) =
    List.length cmds /\
  List.length (filter is_scissor (commands_calls fbh vtx idx offset cmds)) =
    List.length cmds.
Proof.
  induction cmds as [|c rest IH]; intros offset; simpl; [auto|].
  unfold command_calls.
  destruct (scissor_rect fbh (clip_rect c)) as [[[x y] w0] h0]. simpl.
  destruct (IH (offset + elem_count c)) as [-> ->]. auto.
Qed.

Lemma render_body_counts draw_data h :
  List.length (filter is_draw (render_body draw_data h)) =
    command_count draw_data /\
  List.length (filter is_scissor (render_body draw_data h)) =
    command_count draw_data.
Proof.
  unfold render_body, command_count, scale_clip_rects. simpl commands_lists.
  induction (commands_lists draw_data) as [|cl l IH]; simpl; [auto|].
  rewrite !filter_app, !length_app. destruct IH as [-> ->].
  unfold list_calls. simpl commands.
  destruct (commands_calls_counts (snd (fb_size (io h)))
    (vtx_rows h
       {| idx_buffer_size := idx_buffer_size cl;
          idx_buffer_data := idx_buffer_data cl;
          vtx_buffer_size := vtx_buffer_size cl;
          vtx_buffer_data := vtx_buffer_data cl;
          commands := map (scale_clip_rect (fst (display_fb_scale (io h)))
                             (snd (display_fb_scale (io h)))) (commands cl) |})
    (idx_buffer_np_of h
       {| idx_buffer_size := idx_buffer_size cl;
          idx_buffer_data := idx_buffer_data cl;
          vtx_buffer_size := vtx_buffer_size cl;
          vtx_buffer_data := vtx_buffer_data cl;
          commands := map (scale_clip_rect (fst (display_fb_scale (io h)))
                             (snd (display_fb_scale (io h)))) (commands cl) |})
    (map (scale_clip_rect (fst (display_fb_scale (io h)))
            (snd (display_fb_scale (io h)))) (commands cl)) 0) as [-> ->].
  rewrite length_map. auto.
Qed.

(** A snapshot as the GUI library hands it over: no buffer has a negative
    size (numpy refuses a negative shape). *)
Definition well_formed (draw_data : DrawData) : Prop :=
  Forall (fun l => 0 <= idx_buffer_size l /\ 0 <= vtx_buffer_size l)
         (commands_lists draw_data).

(** X9: for a well-formed snapshot on a framebuffer that is not degenerate,
    the calls of [render] set one scissor rectangle and make one draw call
    per draw command, none for an empty snapshot; on a degenerate
    framebuffer they do neither. *)
Theorem render_one_draw_per_command (draw_data : DrawData) (w : World) :
  well_formed draw_data ->
  List.length (filter is_draw (calls_of (render draw_data) w)) =
    (if degenerate (io (host w)) then 0%nat else command_count draw_data) /\
  List.length (filter is_scissor (calls_of (render draw_data) w)) =
    (if degenerate (io (host w)) then 0%nat else command_count draw_data).
Proof.
  intros _.
  rewrite (calls_of_emit _ _ _ _ (render_eq draw_data w)).
  unfold render_calls. destruct (degenerate (io (host w))); [auto|].
  rewrite !filter_app, !length_app.
  destruct (render_body_counts draw_data (host w)) as [-> ->].
  unfold render_header, render_footer.
  destruct (display_size (io (host w))), (fb_size (io (host w))).
  simpl. split; lia.
Qed.

Lemma render_one_draw_per_command_witness :
  let d := triangle (0, 0, 1, 1)%Q in
  List.length (filter is_draw (calls_of (render d) (example_world 4 d))) =
    1%nat /\
  List.length (filter is_scissor (calls_of (render d) (example_world 4 d))) =
    1%nat.
Proof.
  intros d. apply (render_one_draw_per_command d (example_world 4 d)).
  repeat constructor; simpl; lia.
Defined.

(** *** Index slices *)

(** X10: a draw command at a non-negative offset with a non-negative element
    count gets the indices of the C-int view of the index buffer between the
    offset and the offset plus the count, both clamped to the view's length:
    never more than [elem_count] of them, and exactly [elem_count] when the
    view reaches that far. *)
Theorem batch_indices_count (vtx : list (list Z)) (idx : list Z)
  (offset : Z) (command : DrawCmd) :
  0 <= offset -> 0 <= elem_count command ->
  let n := Z.of_nat (List.length (indices (batch_of vtx idx offset command))) in
  let len := Z.of_nat (List.length idx) in
  n = Z.min (offset + elem_count command) len - Z.min offset len /\
  n <= elem_count command /\
  (offset + elem_count command <= len -> n = elem_count command).
Proof.
  intros Ho Hc n len. subst n len. cbn [indices batch_of].
  rewrite py_slice_length by lia. lia.
Qed.

Lemma batch_indices_count_witness :
  let short := idx_buffer_np_of (example_host 2 (triangle (0, 0, 1, 1)%Q))
      {| idx_buffer_size := 3; idx_buffer_data := 0; vtx_buffer_size := 3;
         vtx_buffer_data := 4096; commands := [] |} in
  List.length short = 1%nat /\
  Z.of_nat (List.length (indices (batch_of [] short 0
     {| clip_rect := (0, 0, 1, 1)%Q; texture_id := Tex 1;
        elem_count := 3 |}))) = 1.
Proof.
  intros short. split; [reflexivity|].
  destruct (batch_indices_count [] short 0
     {| clip_rect := (0, 0, 1, 1)%Q; texture_id := Tex 1; elem_count := 3 |}
     ltac:(lia) ltac:(simpl; lia)) as (H & _).
  rewrite H. reflexivity.
Defined.

Lemma py_slice_in_range {A} (l : list A) lo hi :
  0 <= lo <= hi ->
  py_slice l lo hi =
  firstn (Z.to_nat (Z.min hi (Z.of_nat (List.length l)) -
                    Z.min lo (Z.of_nat (List.length l))))
         (skipn (Z.to_nat (Z.min lo (Z.of_nat (List.length l)))) l).
Proof.
  intros H. unfold py_slice, slice_bound.
  destruct (Z.ltb_spec lo 0); [lia|]. destruct (Z.ltb_spec hi 0); [lia|].
  reflexivity.
Qed.

Lemma firstn_add_skipn {A} (l : list A) n m :
  firstn n l ++ firstn m (skipn n l) = firstn (n + m) l.
Proof.
  revert l; induction n as [|n IH]; intros l; simpl; [reflexivity|].
  destruct l as [|x l]; simpl; [rewrite firstn_nil; reflexivity|].
  f_equal. apply IH.
Qed.

(** Adjacent slices join. *)
Lemma py_slice_app {A} (l : list A) a b c :
  0 <= a <= b -> b <= c ->
  py_slice l a b ++ py_slice l b c = py_slice l a c.
Proof.
  intros Hab Hbc. rewrite !py_slice_in_range by lia.
  set (len := Z.of_nat (List.length l)).
  set (A' := Z.to_nat (Z.min a len)).
  replace (Z.to_nat (Z.min b len))
    with (Z.to_nat (Z.min b len - Z.min a len) + A')%nat
    by (unfold A'; lia).
  rewrite <- skipn_skipn.
  rewrite firstn_add_skipn. f_equal. lia.
Qed.

Definition indices_of (c : HostCall) : list Z :=
  match c with batch_draw b => indices b | _ => [] end.

Definition total_count (cmds : list DrawCmd) : Z :=
  fold_right Z.add 0 (map elem_count cmds).

(** X11: the index slices of the consecutive commands of one command list are
    adjacent and do not overlap: with non-negative element counts, joined in
    order they are the one slice of the index view from the first offset to
    the first offset plus the sum of the counts. *)
Theorem command_slices_are_contiguous (fb_height : Z)
  (vtx : list (list Z)) (idx : list Z) (cmds : list DrawCmd) (start : Z) :
  0 <= start -> Forall (fun c => 0 <= elem_count c) cmds ->
  flat_map indices_of (commands_calls fb_height vtx idx start cmds) =
  py_slice idx start (start + total_count cmds).
Proof.
  revert start. induction cmds as [|c rest IH]; intros start Hs Hc.
  - simpl. unfold total_count. simpl. rewrite Z.add_0_r.
    rewrite py_slice_in_range by lia. rewrite Z.sub_diag. reflexivity.
  - inversion Hc as [|? ? Hc1 Hc2]; subst.
    simpl commands_calls. unfold command_calls.
    destruct (scissor_rect fb_height (clip_rect c)) as [[[x y] w0] h0].
    simpl flat_map. cbn [indices batch_of].
    rewrite IH by (try lia; assumption).
    assert (Ht : 0 <= total_count rest).
    { clear - Hc2. unfold total_count.
      induction Hc2; simpl; lia. }
    unfold total_count in *. simpl map. simpl fold_right.
    rewrite py_slice_app by lia. f_equal. lia.
Qed.

Lemma command_slices_are_contiguous_witness :
  flat_map indices_of
    (commands_calls 50 [] [10; 11; 12; 13; 14; 15; 16] 0
       [ {| clip_rect := (0, 0, 1, 1)%Q; texture_id := Tex 1;
            elem_count := 3 |};
         {| clip_rect := (0, 0, 1, 1)%Q; texture_id := Tex 2;
            elem_count := 3 |} ])
  = [10; 11; 12; 13; 14; 15].
Proof.
  rewrite (command_slices_are_contiguous 50 [] [10; 11; 12; 13; 14; 15; 16]
             [ {| clip_rect := (0, 0, 1, 1)%Q; texture_id := Tex 1;
                  elem_count := 3 |};
               {| clip_rect := (0, 0, 1, 1)%Q; texture_id := Tex 2;
                  elem_count := 3 |} ]
             0 ltac:(lia)
             ltac:(repeat constructor; simpl; lia)).
  reflexivity.
Defined.

(** ** More on the registry *)

(** X12: once the [callbacks] attribute exists (after the first
    [handler_add], also after a teardown), [handler_remove] of a handle that
    is not registered prints the error and does nothing else: it returns, and
    the registry, the draw handlers of the host, the GPU state and the io are
    as before. *)
Theorem handler_remove_unknown_only_prints (w : World)
  (cbs : PyDict.dict Z (Callback * SpaceType)) (handle : Z) :
  callbacks (self w) = Some cbs ->
  PyDict.contains Z.eqb handle cbs = false ->
  let w' := exec (handler_remove handle) w in
  result (handler_remove handle) w = Return tt /\
  calls_of (handler_remove handle) w =
    [print "Error: invalid imgui callback handle: " handle] /\
  self w' = self w /\ installed (host w') = installed (host w) /\
  gpu (host w') = gpu (host w) /\ io (host w') = io (host w).
Proof.
  intros Hcb Hin w'. subst w'. unfold exec, result.
  assert (E := handler_remove_unknown handle w cbs Hcb Hin).
  split; [rewrite E; reflexivity|].
  split; [|rewrite E; repeat split].
  apply calls_of_log. unfold exec. rewrite E. reflexivity.
Qed.

Lemma handler_remove_unknown_only_prints_witness :
  let w := snd (run [add (Cb 1) view_3d; remove 0]
                    (example_world 4 (triangle (0, 0, 1, 1)%Q))) in
  calls_of (handler_remove 0) w =
    [print "Error: invalid imgui callback handle: " 0].
Proof.
  intros w.
  destruct (handler_remove_unknown_only_prints w [] 0 eq_refl eq_refl)
    as (_ & H & _).
  exact H.
Defined.

(** *** Live handles *)

(** The handles in [callbacks] increase in insertion order. *)
Definition KeysInv (g : GlobalImgui) : Prop :=
  match callbacks g with
  | Some cbs => StronglySorted Z.lt (PyDict.keys cbs)
  | None => True
  end.

Lemma sorted_snoc l n :
  StronglySorted Z.lt l -> Forall (fun k => k < n) l ->
  StronglySorted Z.lt (l ++ [n]).
Proof.
  induction l as [|x l IH]; intros Hs Hl; simpl.
  - constructor; constructor.
  - inversion Hs; subst. inversion Hl; subst. constructor; [auto|].
    apply Forall_app. split; [assumption|]. constructor; [lia|constructor].
Qed.

Lemma delitem_subset {V} k (d : PyDict.dict Z V) x :
  In x (PyDict.keys (PyDict.delitem Z.eqb k d)) -> In x (PyDict.keys d).
Proof.
  induction d as [|[k' v'] d IH]; simpl; [tauto|].
  destruct (k =? k'); simpl; [tauto|]. intros [H | H]; auto.
Qed.

Lemma delitem_sorted {V} k (d : PyDict.dict Z V) :
  StronglySorted Z.lt (PyDict.keys d) ->
  StronglySorted Z.lt (PyDict.keys (PyDict.delitem Z.eqb k d)).
Proof.
  induction d as [|[k' v'] d IH]; simpl; intros H; [exact H|].
  inversion H as [|? ? Hs Hall]; subst. destruct (k =? k'); [exact Hs|].
  simpl. constructor; [auto|].
  apply Forall_forall. intros x Hx. rewrite Forall_forall in Hall.
  apply Hall. eapply delitem_subset, Hx.
Qed.

Lemma delitem_removes {V} k (d : PyDict.dict Z V) :
  StronglySorted Z.lt (PyDict.keys d) ->
  PyDict.contains Z.eqb k (PyDict.delitem Z.eqb k d) = false.
Proof.
  induction d as [|[k' v'] d IH]; simpl; intros H; [reflexivity|].
  inversion H as [|? ? Hs Hall]; subst.
  destruct (k =? k') eqn:E.
  - apply Z.eqb_eq in E. subst k'.
    destruct (PyDict.contains Z.eqb k d) eqn:Hc; [|reflexivity].
    apply (contains_In Z.eqb Z.eqb_eq) in Hc.
    rewrite Forall_forall in Hall. specialize (Hall k Hc). lia.
  - simpl. rewrite E. apply IH, Hs.
Qed.

Lemma call_keys c w :
  SelfInv (self w) -> KeysInv (self w) ->
  KeysInv (self (exec (call c) w)).
Proof.
  intros Hs Hk. unfold KeysInv in *.
  destruct c as [cb s | handle]; unfold exec, call, bind.
  - unfold SelfInv in Hs.
    destruct (imgui_ctx (self w)) as [c|] eqn:Hc.
    + destruct Hs as (dh & cbs & n & Hd & Hcb & Hn & _ & _ & Hb).
      rewrite (handler_add_active cb s w c dh cbs n) by assumption.
      simpl snd. rewrite (after_add_self cb s w dh cbs n) by assumption.
      simpl. rewrite Hcb in Hk.
      rewrite (setitem_new Z.eqb) by (apply fresh_handle_absent; exact Hb).
      unfold PyDict.keys. rewrite map_app. apply sorted_snoc; [exact Hk|].
      eapply Forall_impl; [|exact Hb]. simpl. intros; lia.
    + rewrite (handler_add_inactive cb s w Hc). simpl snd.
      rewrite (after_add_self cb s (after_init w) [] [] 0) by reflexivity.
      simpl. constructor; constructor.
  - destruct (callbacks (self w)) as [cbs|] eqn:Hcb.
    2:{ rewrite handler_remove_no_attr by exact Hcb. simpl.
        rewrite Hcb. exact I. }
    destruct (PyDict.contains Z.eqb handle cbs) eqn:Hin.
    2:{ rewrite (handler_remove_unknown handle w cbs) by assumption.
        simpl. rewrite Hcb. exact Hk. }
    unfold SelfInv in Hs. destruct (imgui_ctx (self w)) as [c|] eqn:Hc.
    2:{ destruct Hs as [H | H]; rewrite H in Hcb; [discriminate|].
        injection Hcb as <-. discriminate Hin. }
    destruct Hs as (dh & cbs' & n & Hd & Hcb' & Hn & _).
    destruct (PyDict.delitem Z.eqb handle cbs) as [|x rest] eqn:Hdel.
    + rewrite (handler_remove_last handle w cbs dh c) by assumption.
      simpl snd.
      rewrite (after_shutdown_self _ dh c) by (simpl; assumption).
      simpl. constructor.
    + rewrite (handler_remove_not_last handle w cbs x rest) by assumption.
      simpl snd. unfold with_self. cbn [self callbacks set_callbacks].
      rewrite <- Hdel. apply delitem_sorted, Hk.
Qed.

Lemma run_keys cs : forall w,
  SelfInv (self w) -> KeysInv (self w) -> KeysInv (self (snd (run cs w))).
Proof.
  induction cs as [|c cs IH]; intros w Hs Hk; [exact Hk|].
  rewrite run_cons. simpl. apply IH; [apply call_inv, Hs|].
  apply call_keys; assumption.
Qed.

(** X13: in every state a run of calls on a new singleton can reach, the
    registered handles are distinct, increase in insertion order, and lie
    between 0 and the handle the next registration gets. *)
Theorem live_handles_increase (h : Host) (cs : list Call) :
  let w := snd (run cs (boot h)) in
  let hs := PyDict.keys (registration_set w) in
  StronglySorted Z.lt hs /\ NoDup hs /\
  Forall (fun k => 0 <= k < next_handle (self w)) hs.
Proof.
  intros w hs.
  assert (Hs : SelfInv (self w)) by (apply run_inv, boot_inv).
  assert (Hk : KeysInv (self w))
    by (apply run_keys; [apply boot_inv | exact I]).
  assert (Hsorted : StronglySorted Z.lt hs).
  { unfold hs, registration_set. unfold KeysInv in Hk.
    destruct (callbacks (self w)); [exact Hk | constructor]. }
  split; [exact Hsorted|]. split.
  - clear - Hsorted. induction Hsorted as [|x l Hs IH Hall];
      constructor; [|exact IH].
    intros Hin. rewrite Forall_forall in Hall. specialize (Hall x Hin). lia.
  - unfold hs, registration_set, next_handle. unfold SelfInv in Hs.
    destruct (imgui_ctx (self w)).
    + destruct Hs as (dh & cbs & n & _ & -> & -> & _ & _ & Hb). exact Hb.
    + destruct Hs as [-> | ->]; constructor.
Qed.

(** X14: a handle is gone once it has been removed: after
    [handler_remove handle], in any reachable state, the handle is not
    registered, so removing it a second time changes neither the registry nor
    the draw handlers of the host. *)
Theorem second_remove_changes_nothing (h : Host) (cs : list Call)
  (handle : Z) :
  let w := snd (run cs (boot h)) in
  let w1 := exec (handler_remove handle) w in
  let w2 := exec (handler_remove handle) w1 in
  PyDict.contains Z.eqb handle (registration_set w1) = false /\
  self w2 = self w1 /\ installed (host w2) = installed (host w1).
Proof.
  intros w w1 w2.
  assert (Hs : SelfInv (self w)) by (apply run_inv, boot_inv).
  assert (Hk : KeysInv (self w))
    by (apply run_keys; [apply boot_inv | exact I]).
  assert (Hgone : PyDict.contains Z.eqb handle (registration_set w1) = false).
  { unfold w1, exec, registration_set.
    destruct (callbacks (self w)) as [cbs|] eqn:Hcb.
    2:{ rewrite handler_remove_no_attr by exact Hcb. simpl.
        rewrite Hcb. reflexivity. }
    destruct (PyDict.contains Z.eqb handle cbs) eqn:Hin.
    2:{ rewrite (handler_remove_unknown handle w cbs) by assumption.
        simpl. rewrite Hcb. exact Hin. }
    unfold SelfInv in Hs. destruct (imgui_ctx (self w)) as [c|] eqn:Hc.
    2:{ destruct Hs as [H | H]; rewrite H in Hcb; [discriminate|].
        injection Hcb as <-. discriminate Hin. }
    destruct Hs as (dh & cbs' & n & Hd & Hcb' & Hn & _).
    destruct (PyDict.delitem Z.eqb handle cbs) as [|x rest] eqn:Hdel.
    - rewrite (handler_remove_last handle w cbs dh c) by assumption.
      simpl snd.
      rewrite (after_shutdown_self _ dh c) by (simpl; assumption).
      reflexivity.
    - rewrite (handler_remove_not_last handle w cbs x rest) by assumption.
      simpl snd. unfold with_self. cbn [self callbacks set_callbacks].
      rewrite <- Hdel. apply delitem_removes.
      unfold KeysInv in Hk. rewrite Hcb in Hk. exact Hk. }
  split; [exact Hgone|].
  unfold w2, exec. unfold registration_set in Hgone.
  destruct (callbacks (self w1)) as [cbs1|] eqn:Hcb1.
  - rewrite (handler_remove_unknown handle w1 cbs1) by assumption.
    split; reflexivity.
  - rewrite handler_remove_no_attr by exact Hcb1. split; reflexivity.
Qed.

(** *** Registration and removal as a round trip *)

Lemma delitem_snoc {V} k (v : V) (d : PyDict.dict Z V) :
  PyDict.contains Z.eqb k d = false ->
  PyDict.delitem Z.eqb k (d ++ [(k, v)]) = d /\
  PyDict.contains Z.eqb k (d ++ [(k, v)]) = true.
Proof.
  induction d as [|[k' v'] d IH]; simpl.
  - rewrite Z.eqb_refl. auto.
  - destruct (k =? k'); [discriminate|]. intros H.
    destruct (IH H) as [-> ->]. auto.
Qed.

(** X15: [handler_add] returns the next handle and appends its registration
    to the callbacks in insertion order; removing that handle again gives
    back the registration set there was before the two calls, and the context
    exists afterwards exactly if it existed before. *)
Theorem add_then_remove_round_trip (h : Host) (cs : list Call)
  (callback : Callback) (s : SpaceType) :
  let w := snd (run cs (boot h)) in
  let handle := next_handle (self w) in
  let w1 := exec (handler_add callback s) w in
  let w2 := exec (handler_remove handle) w1 in
  result (handler_add callback s) w = Return handle /\
  registration_set w1 = registration_set w ++ [(handle, (callback, s))] /\
  registration_set w2 = registration_set w /\
  (imgui_ctx (self w2) <> None <-> imgui_ctx (self w) <> None).
Proof.
  intros w handle w1 w2.
  assert (Hs : SelfInv (self w)) by (apply run_inv, boot_inv).
  unfold SelfInv in Hs. subst handle w2 w1.
  unfold exec, result, registration_set, next_handle.
  destruct (imgui_ctx (self w)) as [c|] eqn:Hc.
  - destruct Hs as (dh & cbs & n & Hd & Hcb & Hn & Hne & _ & Hb).
    rewrite Hn, Hcb.
    rewrite (handler_add_active callback s w c dh cbs n) by assumption.
    simpl fst; simpl snd.
    assert (Hself := after_add_self callback s w dh cbs n Hd Hcb Hn).
    rewrite (setitem_new Z.eqb) in Hself
      by (apply fresh_handle_absent; exact Hb).
    destruct (delitem_snoc n (callback, s) cbs (fresh_handle_absent n cbs Hb))
      as [Hdel Hin].
    destruct cbs as [|x rest]; [congruence|].
    rewrite (handler_remove_not_last n (after_add callback s w)
               ((x :: rest) ++ [(n, (callback, s))]) x rest);
      try (rewrite Hself; reflexivity); try assumption.
    rewrite Hself. simpl. rewrite Hself. simpl. rewrite Hc.
    repeat split; congruence.
  - cbv beta iota.
    rewrite (handler_add_inactive callback s w Hc). simpl.
    destruct Hs as [-> | ->]; repeat split; congruence.
Qed.

(** *** One draw handler per region type *)

Definition CoverInv (g : GlobalImgui) : Prop :=
  match draw_handlers g with
  | Some dh =>
      NoDup (PyDict.keys dh) /\
      Forall (fun v => PyDict.contains SpaceType_eqb (snd v) dh = true)
             (PyDict.values
                (match callbacks g with Some cbs => cbs | None => [] end))
  | None => True
  end.

Lemma contains_app_l {K V} eqb (k : K) (a b : PyDict.dict K V) :
  PyDict.contains eqb k a = true -> PyDict.contains eqb k (a ++ b) = true.
Proof.
  induction a as [|[k' v'] a IH]; simpl; [discriminate|].
  destruct (eqb k k'); auto.
Qed.

Lemma contains_snoc {V} (s : SpaceType) (v : V) (a : PyDict.dict SpaceType V) :
  PyDict.contains SpaceType_eqb s (a ++ [(s, v)]) = true.
Proof.
  induction a as [|[k' v'] a IH]; simpl.
  - rewrite SpaceType_eqb_refl. reflexivity.
  - destruct (SpaceType_eqb s k'); auto.
Qed.

Lemma delitem_values {K V} eqb (P : V -> Prop) (k : K) (d : PyDict.dict K V) :
  Forall P (PyDict.values d) ->
  Forall P (PyDict.values (PyDict.delitem eqb k d)).
Proof.
  induction d as [|[k' v'] d IH]; simpl; intros H; [exact H|].
  inversion H; subst. destruct (eqb k k'); [assumption|].
  simpl. constructor; auto.
Qed.

Lemma NoDup_snoc {A} (l : list A) x :
  NoDup l -> ~ In x l -> NoDup (l ++ [x]).
Proof.
  induction l as [|y l IH]; simpl; intros Hn Hx.
  - constructor; [intros []|constructor].
  - inversion Hn; subst. constructor.
    + intros Hin. apply in_app_or in Hin as [Hin | [Hin | []]]; [tauto|].
      subst. tauto.
    + apply IH; tauto.
Qed.

Lemma call_cover c w :
  SelfInv (self w) -> CoverInv (self w) ->
  CoverInv (self (exec (call c) w)).
Proof.
  intros Hs Hk. unfold CoverInv in *.
  destruct c as [cb s | handle]; unfold exec, call, bind.
  - unfold SelfInv in Hs.
    destruct (imgui_ctx (self w)) as [c|] eqn:Hc.
    + destruct Hs as (dh & cbs & n & Hd & Hcb & Hn & _ & _ & Hb).
      rewrite (handler_add_active cb s w c dh cbs n) by assumption.
      simpl snd. rewrite (after_add_self cb s w dh cbs n) by assumption.
      cbn [draw_handlers callbacks]. rewrite Hd, Hcb in Hk.
      destruct Hk as [Hnd Hcov].
      rewrite (setitem_new Z.eqb) by (apply fresh_handle_absent; exact Hb).
      unfold PyDict.values. rewrite map_app. fold (PyDict.values cbs).
      destruct (PyDict.contains SpaceType_eqb s dh) eqn:Hin.
      * split; [exact Hnd|]. apply Forall_app. split; [exact Hcov|].
        constructor; [exact Hin | constructor].
      * rewrite (setitem_new SpaceType_eqb) by exact Hin. split.
        -- unfold PyDict.keys. rewrite map_app. simpl.
           apply NoDup_snoc; [exact Hnd|]. intros Hi.
           apply (contains_In SpaceType_eqb SpaceType_eqb_eq) in Hi.
           congruence.
        -- apply Forall_app. split.
           ++ eapply Forall_impl; [|exact Hcov]. intros v Hv.
              apply contains_app_l, Hv.
           ++ constructor; [apply contains_snoc | constructor].
    + rewrite (handler_add_inactive cb s w Hc). simpl snd.
      rewrite (after_add_self cb s (after_init w) [] [] 0) by reflexivity.
      cbn [draw_handlers callbacks PyDict.contains PyDict.setitem
           PyDict.values PyDict.keys map fst snd]. split.
      * constructor; [intros []|constructor].
      * constructor; [|constructor]. cbn [PyDict.contains].
        rewrite SpaceType_eqb_refl. reflexivity.
  - destruct (callbacks (self w)) as [cbs|] eqn:Hcb.
    2:{ rewrite handler_remove_no_attr by exact Hcb. simpl.
        rewrite Hcb. exact Hk. }
    destruct (PyDict.contains Z.eqb handle cbs) eqn:Hin.
    2:{ rewrite (handler_remove_unknown handle w cbs) by assumption.
        simpl. rewrite Hcb. exact Hk. }
    unfold SelfInv in Hs. destruct (imgui_ctx (self w)) as [c|] eqn:Hc.
    2:{ destruct Hs as [H | H]; rewrite H in Hcb; [discriminate|].
        injection Hcb as <-. discriminate Hin. }
    destruct Hs as (dh & cbs' & n & Hd & Hcb' & Hn & _).
    rewrite Hd in Hk. destruct Hk as [Hnd Hcov].
    destruct (PyDict.delitem Z.eqb handle cbs) as [|x rest] eqn:Hdel.
    + rewrite (handler_remove_last handle w cbs dh c) by assumption.
      simpl snd.
      rewrite (after_shutdown_self _ dh c) by (simpl; assumption).
      simpl. rewrite Hd. split; [exact Hnd | constructor].
    + rewrite (handler_remove_not_last handle w cbs x rest) by assumption.
      simpl snd. unfold with_self.
      cbn [self callbacks draw_handlers set_callbacks]. rewrite Hd.
      split; [exact Hnd|]. rewrite <- Hdel. apply delitem_values, Hcov.
Qed.

Lemma run_cover cs : forall w,
  SelfInv (self w) -> CoverInv (self w) -> CoverInv (self (snd (run cs w))).
Proof.
  induction cs as [|c cs IH]; intros w Hs Hk; [exact Hk|].
  rewrite run_cons. simpl. apply IH; [apply call_inv, Hs|].
  apply call_cover; assumption.
Qed.

(** X16: in every reachable state [draw_handlers] has one entry per region
    type, and every registered callback's region type has one; before the
    first registration there are neither. *)
Theorem one_handler_per_region_type (h : Host) (cs : list Call) :
  let w := snd (run cs (boot h)) in
  match draw_handlers (self w) with
  | Some dh =>
      NoDup (PyDict.keys dh) /\
      Forall (fun e => In (snd (snd e)) (PyDict.keys dh)) (registration_set w)
  | None => registration_set w = []
  end.
Proof.
  intros w.
  assert (Hs : SelfInv (self w)) by (apply run_inv, boot_inv).
  assert (Hk : CoverInv (self w))
    by (apply run_cover; [apply boot_inv | exact I]).
  unfold CoverInv in Hk. unfold SelfInv in Hs. unfold registration_set.
  destruct (draw_handlers (self w)) as [dh|] eqn:Hd.
  - destruct Hk as [Hnd Hcov]. split; [exact Hnd|].
    unfold PyDict.values in Hcov. rewrite Forall_map in Hcov.
    eapply Forall_impl; [|exact Hcov]. intros e He.
    apply (contains_In SpaceType_eqb SpaceType_eqb_eq), He.
  - destruct (imgui_ctx (self w)).
    + destruct Hs as (? & ? & ? & Hd' & _). congruence.
    + destruct Hs as [-> | ->]; reflexivity.
Qed.

(** X17: on a host whose draw handlers are older than the ids it hands out
    next, the draw handlers installed in the host are at every moment the
    ones it started with followed, while the context exists, by exactly the
    entries of [draw_handlers] in insertion order: the registry never leaks a
    handler and never removes one of somebody else. *)
Theorem host_handlers_are_draw_handlers (h : Host) (cs : list Call) :
  Forall (fun e => (hid e < fresh_id h)%nat) (installed h) ->
  let w := snd (run cs (boot h)) in
  installed (host w) =
  installed h ++
  match imgui_ctx (self w), draw_handlers (self w) with
  | Some _, Some dh => dh
  | _, _ => []
  end.
Proof.
  intros Hbase w.
  assert (Hh : HooksInv (fresh_id h) (installed h) w).
  { apply run_hooks; [exact Hbase | apply boot_inv|].
    split; [apply Nat.le_refl | reflexivity]. }
  destruct Hh as [_ Hh].
  destruct (imgui_ctx (self w)); [|rewrite app_nil_r; exact Hh].
  destruct (draw_handlers (self w)); [|contradiction].
  apply Hh.
Qed.

Lemma registered_for_uncovered s (dh : PyDict.dict SpaceType DrawHandler) cbs :
  PyDict.contains SpaceType_eqb s dh = false ->
  Forall (fun v => PyDict.contains SpaceType_eqb (snd v) dh = true)
         (PyDict.values cbs) ->
  registered_for s cbs = [].
Proof.
  intros Hs. unfold registered_for.
  induction (PyDict.values cbs) as [|v l IH]; intros H; [reflexivity|].
  inversion H as [|? ? Hv Hl]; subst. simpl.
  destruct (SpaceType_eqb (snd v) s) eqn:E; [|apply IH, Hl].
  apply SpaceType_eqb_eq in E. congruence.
Qed.


Lemma host_handlers_are_draw_handlers_witness :
  let h := example_host 4 (triangle (0, 0, 1, 1)%Q) in
  let w := snd (run [add (Cb 1) view_3d; remove 5] (boot h)) in
  installed (host w) =
  installed h ++
  match imgui_ctx (self w), draw_handlers (self w) with
  | Some _, Some dh => dh
  | _, _ => []
  end.
Proof.
  exact (host_handlers_are_draw_handlers
           (example_host 4 (triangle (0, 0, 1, 1)%Q))
           [add (Cb 1) view_3d; remove 5] (Forall_nil _)).
Defined.
(** X18: a draw handler outlives its callbacks: while other callbacks keep the
    context alive, registering a callback for a region type that has no
    handler yet and removing it again leaves the new handler installed in the
    host and in [draw_handlers], with no callback left for that region
    type, so its [draw] invokes nothing. *)
Theorem handler_outlives_its_callbacks (h : Host) (cs : list Call)
  (callback : Callback) (s : SpaceType)
  (dh : PyDict.dict SpaceType DrawHandler) :
  let w := snd (run cs (boot h)) in
  imgui_ctx (self w) <> None ->
  draw_handlers (self w) = Some dh ->
  PyDict.contains SpaceType_eqb s dh = false ->
  let w1 := exec (handler_add callback s) w in
  let w2 := exec (handler_remove (next_handle (self w))) w1 in
  let added := (s, Handler (fresh_id (host w))) in
  imgui_ctx (self w2) = imgui_ctx (self w) /\
  draw_handlers (self w2) = Some (dh ++ [added]) /\
  installed (host w2) = installed (host w) ++ [added] /\
  registered_for s (registration_set w2) = [] /\
  invoked s w2 = [].
Proof.
  intros w Hctx Hd Hnew w1 w2 added.
  assert (Hs : SelfInv (self w)) by (apply run_inv, boot_inv).
  assert (Hk : CoverInv (self w))
    by (apply run_cover; [apply boot_inv | exact I]).
  unfold SelfInv in Hs. unfold CoverInv in Hk. rewrite Hd in Hk.
  destruct (imgui_ctx (self w)) as [c|] eqn:Hc; [|congruence].
  destruct Hs as (dh' & cbs & n & Hd' & Hcb & Hn & Hne & _ & Hb).
  rewrite Hd in Hd'. injection Hd' as <-. rewrite Hcb in Hk.
  destruct Hk as [_ Hcov].
  assert (Hnext : next_handle (self w) = n)
    by (unfold next_handle; rewrite Hc, Hn; reflexivity).
  assert (Hself := after_add_self callback s w dh cbs n Hd Hcb Hn).
  rewrite Hnew in Hself.
  rewrite (setitem_new Z.eqb) in Hself
    by (apply fresh_handle_absent; exact Hb).
  rewrite (setitem_new SpaceType_eqb) in Hself by exact Hnew.
  destruct (delitem_snoc n (callback, s) cbs (fresh_handle_absent n cbs Hb))
    as [Hdel Hin].
  assert (E1 : w1 = after_add callback s w).
  { unfold w1, exec.
    rewrite (handler_add_active callback s w c dh cbs n) by assumption.
    reflexivity. }
  assert (E2 : w2 = with_self (set_callbacks (Some cbs)) w1).
  { unfold w2, exec. rewrite Hnext, E1.
    destruct cbs as [|x rest]; [congruence|].
    rewrite (handler_remove_not_last n (after_add callback s w)
               ((x :: rest) ++ [(n, (callback, s))]) x rest);
      try (rewrite Hself; reflexivity); try assumption.
    reflexivity. }
  assert (Hreg : registered_for s (registration_set w2) = []).
  { rewrite E2. unfold registration_set. simpl.
    apply (registered_for_uncovered s dh cbs Hnew Hcov). }
  rewrite invoked_eq, Hreg.
  rewrite E2, E1. unfold with_self. simpl. rewrite Hself. simpl.
  repeat split; try congruence.
  unfold after_add. rewrite Hd, Hcb, Hn, Hnew. reflexivity.
Qed.


Lemma handler_outlives_its_callbacks_witness :
  let w := snd (run [add (Cb 1) view_3d]
                    (example_world 4 (triangle (0, 0, 1, 1)%Q))) in
  let w2 := exec (handler_remove 1)
              (exec (handler_add (Cb 2) (Space "SpaceNodeEditor")) w) in
  installed (host w2) =
    [(view_3d, Handler 1); (Space "SpaceNodeEditor", Handler 2)] /\
  invoked (Space "SpaceNodeEditor") w2 = [].
Proof.
  intros w w2.
  assert (H := handler_outlives_its_callbacks
              (example_host 4 (triangle (0, 0, 1, 1)%Q))
              [add (Cb 1) view_3d] (Cb 2) (Space "SpaceNodeEditor")
              [(view_3d, Handler 1)]
              ltac:(vm_compute; discriminate) eq_refl eq_refl).
  destruct H as (_ & _ & Hi & _ & Hinv).
  split; [exact Hi | exact Hinv].
Defined.

(** *** The key map of a new context *)

Lemma key_mapped_key_map im i :
  key_map (key_mapped im i) =
  fold_left (fun d k => PyDict.setitem Z.eqb k k d)
            (imgui_key_constants im) (key_map i).
Proof.
  unfold key_mapped, imgui_key_constants.
  generalize
    [ KEY_TAB im; KEY_LEFT_ARROW im; KEY_RIGHT_ARROW im; KEY_UP_ARROW im;
      KEY_DOWN_ARROW im; KEY_HOME im; KEY_END im; KEY_INSERT im;
      KEY_DELETE im; KEY_BACKSPACE im; KEY_ENTER im; KEY_ESCAPE im;
      KEY_PAGE_UP im; KEY_PAGE_DOWN im; KEY_A im; KEY_C im; KEY_V im;
      KEY_X im; KEY_Y im; KEY_Z im ] as l.
  intros l. revert i. induction l as [|k l IH]; intros i; simpl.
  - reflexivity.
  - rewrite IH. reflexivity.
Qed.

Definition identity_entry (e : Z * Z) : Prop := fst e = snd e.

Lemma setitem_identity k (d : PyDict.dict Z Z) :
  Forall identity_entry d ->
  Forall identity_entry (PyDict.setitem Z.eqb k k d) /\
  PyDict.contains Z.eqb k (PyDict.setitem Z.eqb k k d) = true.
Proof.
  induction d as [|[k' v'] d IH]; simpl; intros H.
  - rewrite Z.eqb_refl. split; [|reflexivity].
    constructor; [reflexivity | constructor].
  - inversion H as [|? ? He Hd]; subst. destruct (k =? k') eqn:E; simpl.
    + rewrite E. split; [|reflexivity]. constructor; [|exact Hd].
      apply Z.eqb_eq in E. subst. reflexivity.
    + rewrite E. destruct (IH Hd) as [H1 H2]. split; [|exact H2].
      constructor; assumption.
Qed.

Lemma setitem_keeps k k' (v : Z) (d : PyDict.dict Z Z) :
  PyDict.contains Z.eqb k d = true ->
  PyDict.contains Z.eqb k (PyDict.setitem Z.eqb k' v d) = true.
Proof.
  induction d as [|[a b] d IH]; simpl; [discriminate|].
  destruct (k' =? a) eqn:E1; simpl; destruct (k =? a); auto.
Qed.

Lemma fold_setitem_identity l : forall d,
  Forall identity_entry d ->
  let d' := fold_left (fun d k => PyDict.setitem Z.eqb k k d) l d in
  Forall identity_entry d' /\
  (forall k, PyDict.contains Z.eqb k d = true \/ In k l ->
             PyDict.contains Z.eqb k d' = true).
Proof.
  induction l as [|x l IH]; intros d Hd; simpl.
  - split; [exact Hd|]. intros k [H | []]. exact H.
  - destruct (setitem_identity x d Hd) as [H1 H2].
    destruct (IH _ H1) as [H3 H4]. split; [exact H3|].
    intros k [H | [-> | H]]; apply H4; auto.
    left. apply setitem_keeps, H.
Qed.

Lemma identity_getitem k (d : PyDict.dict Z Z) :
  Forall identity_entry d -> PyDict.contains Z.eqb k d = true ->
  PyDict.getitem Z.eqb k d = Some k.
Proof.
  induction d as [|[a b] d IH]; simpl; [discriminate|].
  intros H. inversion H as [|? ? He Hd]; subst.
  destruct (k =? a) eqn:E; [|auto]. intros _.
  apply Z.eqb_eq in E. unfold identity_entry in He. simpl in He. congruence.
Qed.

(** X19: a registration that finds no context creates one whose [key_map]
    sends every key constant the module lists to itself and holds nothing
    else than such identity entries. *)
Theorem first_registration_maps_keys_to_themselves (w : World)
  (callback : Callback) (s : SpaceType) :
  imgui_ctx (self w) = None ->
  let i := io (host (exec (handler_add callback s) w)) in
  Forall (fun k => PyDict.getitem Z.eqb k (key_map i) = Some k)
         (imgui_key_constants (imgui (host w))) /\
  Forall (fun e => fst e = snd e) (key_map i).
Proof.
  intros Hc i. subst i. unfold exec.
  rewrite (handler_add_inactive callback s w Hc). simpl snd.
  assert (Hio : io (host (after_add callback s (after_init w))) =
                key_mapped (imgui (host w)) new_io) by reflexivity.
  rewrite Hio, key_mapped_key_map.
  destruct (fold_setitem_identity (imgui_key_constants (imgui (host w)))
              (key_map new_io) (Forall_nil _)) as [H1 H2].
  split; [|exact H1].
  apply Forall_forall. intros k Hk.
  apply identity_getitem; [exact H1 | apply H2; right; exact Hk].
Qed.

Lemma first_registration_maps_keys_to_themselves_witness :
  PyDict.getitem Z.eqb 13
    (key_map (io (host (exec (handler_add (Cb 1) view_3d)
                          (example_world 4 (triangle (0, 0, 1, 1)%Q))))))
  = Some 13.
Proof.
  destruct (first_registration_maps_keys_to_themselves
              (example_world 4 (triangle (0, 0, 1, 1)%Q)) (Cb 1) view_3d
              eq_refl) as [H _].
  rewrite Forall_forall in H. apply H. vm_compute. tauto.
Defined.

(** *** The frame of a draw *)

(** X20: while the singleton holds a context, [draw] leaves the io's
    display size at the size of the live [bpy.context]'s region, whatever it
    was before (region sizes up to [2 ^ 24] are floats exactly). *)
Theorem draw_sets_display_size (s : SpaceType) (w : World) :
  imgui_ctx (self w) <> None ->
  let context := bpy_context (host w) in
  0 <= region_width context <= 2 ^ 24 ->
  0 <= region_height context <= 2 ^ 24 ->
  display_size (io (host (exec (draw s) w))) =
    (inject_Z (region_width context), inject_Z (region_height context)).
Proof.
  intros _ context _ _. destruct (draw_eq s w) as [r E].
  unfold exec. rewrite E. simpl snd. rewrite emit_io. reflexivity.
Qed.

Lemma draw_sets_display_size_witness :
  let w := snd (run [add (Cb 1) view_3d]
                    (example_world 4 (triangle (0, 0, 1, 1)%Q))) in
  display_size (io (host w)) = ((-1) # 1, (-1) # 1)%Q /\
  display_size (io (host (exec (draw view_3d) w))) =
    (inject_Z (region_width (bpy_context (host w))),
     inject_Z (region_height (bpy_context (host w)))) /\
  region_width (bpy_context (host w)) = 50 /\
  region_height (bpy_context (host w)) = 50.
Proof.
  intros w. split; [reflexivity|]. split; [|split; reflexivity].
  apply (draw_sets_display_size view_3d w).
  - vm_compute. discriminate.
  - vm_compute. split; discriminate.
  - vm_compute. split; discriminate.
Defined.

Lemma int_zero_scaled (q : Q) : int (inject_Z 0 * q)%Q = 0.
Proof. destruct q as [n d]. reflexivity. Qed.

(** X21: on a region of width or height zero [draw] still runs the frame and
    the callbacks, but the draw translator makes no GPU call and the GPU
    state is as before. *)
Theorem draw_on_empty_region (s : SpaceType) (w : World) :
  region_width (bpy_context (host w)) = 0 \/
  region_height (bpy_context (host w)) = 0 ->
  forallb frame_call (calls_of (draw s) w) = true /\
  gpu (host (exec (draw s) w)) = gpu (host w).
Proof.
  intros Hz.
  assert (Hd : render_calls (draw_data_of_frame (host w))
                 (host (frame_world w)) = []).
  { unfold render_calls.
    replace (degenerate (io (host (frame_world w)))) with true; [reflexivity|].
    unfold degenerate, fb_size. simpl.
    destruct Hz as [-> | ->]; rewrite int_zero_scaled;
      [reflexivity | symmetry; apply orb_true_r]. }
  assert (Hf : forallb frame_call (draw_calls s w) = true).
  { unfold draw_calls. rewrite Hd. simpl.
    destruct (callbacks (self w)); [|reflexivity].
    rewrite forallb_app, callback_calls_frame. simpl.
    destruct (imgui_backend (self w)); reflexivity. }
  split; [rewrite calls_of_draw; exact Hf|].
  destruct (draw_eq s w) as [r E]. unfold exec. rewrite E. simpl snd.
  rewrite emit_gpu. apply frame_calls_gpu, Hf.
Qed.

Lemma draw_on_empty_region_witness :
  let w := with_host
             (fun h =>
                {| imgui := imgui h; io := io h; gpu := gpu h;
                   installed := installed h; fresh_id := fresh_id h;
                   bpy_context := {| region_width := 0; region_height := 50;
                                     ui_scale := 1%Q |};
                   draw_data_of_frame := draw_data_of_frame h;
                   memory := memory h; log := log h |})
             (snd (run [add (Cb 1) view_3d]
                       (example_world 4 (triangle (0, 0, 1, 1)%Q)))) in
  calls_of (draw view_3d) w =
  [ imgui_new_frame;
    py_call (Cb 1) {| region_width := 0; region_height := 50;
                      ui_scale := 1%Q |};
    imgui_end_frame; imgui_render; imgui_get_draw_data ] /\
  gpu (host (exec (draw view_3d) w)) = gpu (host w).
Proof.
  intros w. split; [vm_compute; reflexivity|].
  apply (draw_on_empty_region view_3d w). left. reflexivity.
Defined.

(** ** The module-level functions, operators and overlays *)

(** The world the singleton's methods see. *)
Definition world_of (p : Process) : World :=
  {| self := fst (Singleton.get p); host := process_host p |}.

Definition pexec {A} (c : P A) (p : Process) : Process := snd (c p).
Definition presult {A} (c : P A) (p : Process) : Outcome A := fst (c p).

Lemma on_instance_eq {A} (method : M A) p :
  presult (Singleton.on_instance method) p = result method (world_of p) /\
  world_of (pexec (Singleton.on_instance method) p) =
    exec method (world_of p) /\
  driver_namespace (pexec (Singleton.on_instance method) p) =
    driver_namespace p.
Proof.
  unfold presult, pexec, result, exec, world_of, Singleton.on_instance,
    Singleton.get.
  destruct (_instance p) as [g|]; simpl;
    match goal with |- context [method ?w] => destruct (method w) as [r w'] end;
    destruct w'; simpl; auto.
Qed.

(** The calls of a client through the module-level functions. *)
Definition pcall (c : Call) : P (option Z) :=
  fun p =>
    match c with
    | add cb s =>
        match Singleton.imgui_handler_add cb s p with
        | (Return handle, p') => (Return (Some handle), p')
        | (Raise e, p') => (Raise e, p')
        end
    | remove handle =>
        match Singleton.imgui_handler_remove handle p with
        | (Return _, p') => (Return None, p')
        | (Raise e, p') => (Raise e, p')
        end
    end.

Fixpoint prun (cs : list Call) (p : Process)
  : list (Outcome (option Z)) * Process :=
  match cs with
  | [] => ([], p)
  | c :: cs' =>
      let '(r, p') := pcall c p in
      let '(rs, p'') := prun cs' p' in
      (r :: rs, p'')
  end.

Lemma pcall_eq c p :
  presult (pcall c) p = result (call c) (world_of p) /\
  world_of (pexec (pcall c) p) = exec (call c) (world_of p) /\
  driver_namespace (pexec (pcall c) p) = driver_namespace p.
Proof.
  destruct c as [cb s | handle].
  - destruct (on_instance_eq (handler_add cb s) p) as (H1 & H2 & H3).
    unfold presult, pexec, result, exec, pcall, call, bind,
      Singleton.imgui_handler_add in *.
    destruct (Singleton.on_instance (handler_add cb s) p) as [[a|e] p'];
      destruct (handler_add cb s (world_of p)) as [[a'|e'] w'];
      simpl in *; try discriminate; repeat split; congruence.
  - destruct (on_instance_eq (handler_remove handle) p) as (H1 & H2 & H3).
    unfold presult, pexec, result, exec, pcall, call, bind,
      Singleton.imgui_handler_remove in *.
    destruct (Singleton.on_instance (handler_remove handle) p) as [[a|e] p'];
      destruct (handler_remove handle (world_of p)) as [[a'|e'] w'];
      simpl in *; try discriminate; repeat split; congruence.
Qed.

Lemma prun_eq cs : forall p,
  fst (prun cs p) = fst (run cs (world_of p)) /\
  world_of (snd (prun cs p)) = snd (run cs (world_of p)) /\
  driver_namespace (snd (prun cs p)) = driver_namespace p.
Proof.
  induction cs as [|c cs IH]; intros p.
  - simpl. repeat split.
  - rewrite run_cons. simpl prun.
    destruct (pcall_eq c p) as (H1 & H2 & H3).
    unfold presult, pexec in *.
    destruct (pcall c p) as [r p']. simpl in H1, H2, H3.
    destruct (IH p') as (I1 & I2 & I3).
    destruct (prun cs p') as [rs p'']. simpl in *.
    rewrite <- H2. rewrite H1, I1, I2, I3, H3. repeat split.
Qed.

Lemma pcall_instance c p : _instance (pexec (pcall c) p) <> None.
Proof.
  unfold pexec, pcall, Singleton.imgui_handler_add,
    Singleton.imgui_handler_remove, Singleton.on_instance.
  destruct c; destruct (Singleton.get p) as [g p1];
    match goal with |- context [?m {| self := g; host := ?hh |}] =>
      destruct (m {| self := g; host := hh |}) as [[?|?] ?] end;
    simpl; discriminate.
Qed.

Lemma prun_cons c cs p :
  snd (prun (c :: cs) p) = snd (prun cs (pexec (pcall c) p)).
Proof.
  unfold pexec. simpl. destruct (pcall c p) as [r p']. simpl.
  destruct (prun cs p') as [rs p'']. reflexivity.
Qed.

Lemma prun_instance cs : forall p,
  _instance p <> None -> _instance (snd (prun cs p)) <> None.
Proof.
  induction cs as [|c cs IH]; intros p H; [exact H|].
  rewrite prun_cons. apply IH, pcall_instance.
Qed.

(** X22: the module-level [imgui_handler_add] and [imgui_handler_remove] act
    on one singleton, created by the first call: a sequence of them in a
    process that has no instance yet returns what the same calls return on a
    new [GlobalImgui], leaves that instance and that host, and does not touch
    [driver_namespace]. *)
Theorem module_functions_share_one_instance (h : Host)
  (namespace : PyDict.dict string Z) (c : Call) (cs : list Call) :
  let p := {| _instance := None; driver_namespace := namespace;
              process_host := h |} in
  let w := snd (run (c :: cs) (boot h)) in
  fst (prun (c :: cs) p) = fst (run (c :: cs) (boot h)) /\
  _instance (snd (prun (c :: cs) p)) = Some (self w) /\
  process_host (snd (prun (c :: cs) p)) = host w /\
  driver_namespace (snd (prun (c :: cs) p)) = namespace.
Proof.
  intros p w.
  destruct (prun_eq (c :: cs) p) as (H1 & H2 & H3).
  change (world_of p) with (boot h) in *. fold w in H2.
  split; [exact H1|]. split; [|split; [|exact H3]].
  - assert (Hi : _instance (snd (prun (c :: cs) p)) <> None)
      by (rewrite prun_cons; apply prun_instance, pcall_instance).
    unfold world_of, Singleton.get in H2.
    destruct (_instance (snd (prun (c :: cs) p))) as [g|]; [|congruence].
    simpl in H2. rewrite <- H2. reflexivity.
  - rewrite <- H2. reflexivity.
Qed.

(** *** Overlays and operators *)

Lemma add_remove_inactive w cb s :
  imgui_ctx (self w) = None ->
  let w1 := exec (handler_add cb s) w in
  let w2 := exec (handler_remove 0) w1 in
  let added := (s, Handler (S (fresh_id (host w)))) in
  result (handler_add cb s) w = Return 0 /\
  registration_set w1 = [(0, (cb, s))] /\
  imgui_ctx (self w1) = Some (Ctx (fresh_id (host w))) /\
  result (handler_remove 0) w1 = Return tt /\
  imgui_ctx (self w2) = None /\
  callbacks (self w2) = Some [] /\
  installed (host w2) =
    uninstall (fst added) (snd added) (installed (host w) ++ [added]) /\
  log (host w2) =
    log (host w) ++
    [ imgui_create_context (Ctx (fresh_id (host w)));
      BlenderImguiRenderer_new;
      draw_handler_add (fst added) (snd added);
      draw_handler_remove (fst added) (snd added);
      imgui_destroy_context (Ctx (fresh_id (host w))) ].
Proof.
  intros Hc w1 w2 added. subst w1 w2 added.
  unfold exec, result, registration_set.
  rewrite (handler_add_inactive cb s w Hc). simpl.
  repeat split. rewrite <- !app_assoc. reflexivity.
Qed.

Lemma getitem_setitem (k : string) (v : Z) (d : PyDict.dict string Z) :
  PyDict.getitem String.eqb k (PyDict.setitem String.eqb k v d) = Some v.
Proof.
  induction d as [|[k' v'] d IH]; simpl.
  - rewrite String.eqb_refl. reflexivity.
  - destruct (String.eqb k k') eqn:E; simpl; rewrite E; auto.
Qed.

Lemma getitem_setitem_same_value (k k' : string) (v : Z)
  (d : PyDict.dict string Z) :
  PyDict.getitem String.eqb k d = Some v ->
  PyDict.getitem String.eqb k (PyDict.setitem String.eqb k' v d) = Some v.
Proof.
  induction d as [|[a b] d IH]; simpl; [discriminate|].
  destruct (String.eqb k' a) eqn:E1; simpl.
  - destruct (String.eqb k a); auto.
  - destruct (String.eqb k a); auto.
Qed.

Lemma register_overlay_eq cls p handle :
  result (handler_add (Overlay.draw cls) SpaceView3D) (world_of p)
    = Return handle ->
  presult (Overlay.register_overlay cls) p = Return tt /\
  world_of (pexec (Overlay.register_overlay cls) p) =
    exec (handler_add (Overlay.draw cls) SpaceView3D) (world_of p) /\
  driver_namespace (pexec (Overlay.register_overlay cls) p) =
    PyDict.setitem String.eqb (Overlay.namespace_key cls) handle
      (driver_namespace p).
Proof.
  intros Hr.
  destruct (on_instance_eq (handler_add (Overlay.draw cls) SpaceView3D) p)
    as (H1 & H2 & H3).
  unfold presult, pexec, Overlay.register_overlay,
    Singleton.imgui_handler_add in *.
  rewrite Hr in H1.
  destruct (Singleton.on_instance
              (handler_add (Overlay.draw cls) SpaceView3D) p) as [r p'].
  simpl in H1, H2, H3. subst r. simpl.
  repeat split; [|rewrite H3; reflexivity].
  rewrite <- H2.
  unfold world_of, Overlay.set_driver_namespace, Singleton.get. simpl.
  destruct (_instance p'); reflexivity.
Qed.

Lemma unregister_overlay_eq cls p handle :
  PyDict.getitem String.eqb (Overlay.namespace_key cls) (driver_namespace p)
    = Some handle ->
  presult (Overlay.unregister_overlay cls) p =
    result (handler_remove handle) (world_of p) /\
  world_of (pexec (Overlay.unregister_overlay cls) p) =
    exec (handler_remove handle) (world_of p) /\
  driver_namespace (pexec (Overlay.unregister_overlay cls) p) =
    driver_namespace p.
Proof.
  intros Hg. unfold presult, pexec, Overlay.unregister_overlay. rewrite Hg.
  apply (on_instance_eq (handler_remove handle) p).
Qed.

Lemma uninstall_fresh s d (l : list (SpaceType * DrawHandler)) :
  Forall (fun e => hid e <> hid (s, d)) l ->
  uninstall s d (l ++ [(s, d)]) = l.
Proof.
  intros H. rewrite (uninstall_other s d l [] H). apply app_nil_r.
Qed.

(** X23: registering an overlay class in a process without a context and
    unregistering it again is a round trip for the registry and the host:
    the context is created and destroyed, the draw handler installed and
    removed, no callback stays; only [driver_namespace] keeps the handle 0
    under the class's key. *)
Theorem overlay_round_trip (p : Process) (cls : Overlay.Class) :
  imgui_ctx (self (world_of p)) = None ->
  Forall (fun e => (hid e <= fresh_id (process_host p))%nat)
         (installed (process_host p)) ->
  let p1 := pexec (Overlay.register_overlay cls) p in
  let p2 := pexec (Overlay.unregister_overlay cls) p1 in
  presult (Overlay.register_overlay cls) p = Return tt /\
  registration_set (world_of p1) = [(0, (Overlay.draw cls, SpaceView3D))] /\
  presult (Overlay.unregister_overlay cls) p1 = Return tt /\
  imgui_ctx (self (world_of p2)) = None /\
  registration_set (world_of p2) = [] /\
  installed (process_host p2) = installed (process_host p) /\
  PyDict.getitem String.eqb (Overlay.namespace_key cls)
    (driver_namespace p2) = Some 0.
Proof.
  intros Hc Hbase p1 p2.
  destruct (add_remove_inactive (world_of p) (Overlay.draw cls) SpaceView3D Hc)
    as (A1 & A2 & A3 & A4 & A5 & A6 & A7 & _).
  destruct (register_overlay_eq cls p 0 A1) as (R1 & R2 & R3).
  fold p1 in R2, R3.
  assert (Hg : PyDict.getitem String.eqb (Overlay.namespace_key cls)
                 (driver_namespace p1) = Some 0)
    by (rewrite R3; apply getitem_setitem).
  destruct (unregister_overlay_eq cls p1 0 Hg) as (U1 & U2 & U3).
  fold p2 in U2, U3. rewrite R2 in U1, U2.
  split; [exact R1|]. split; [rewrite R2; exact A2|].
  split; [rewrite U1; exact A4|]. split; [rewrite U2; exact A5|].
  split; [unfold registration_set; rewrite U2, A6; reflexivity|].
  split; [|rewrite U3; exact Hg].
  change (process_host p2) with (host (world_of p2)). rewrite U2, A7.
  simpl fst; simpl snd. apply uninstall_fresh.
  eapply Forall_impl; [|exact Hbase]. intros e He.
  change (hid (SpaceView3D, Handler (S (fresh_id (host (world_of p))))))
    with (S (fresh_id (process_host p))). cbv beta in He. lia.
Qed.

Definition example_process : Process :=
  {| _instance := None; driver_namespace := [];
     process_host := example_host 4 (triangle (0, 0, 1, 1)%Q) |}.

Definition example_overlay (name : string) (n : nat) : Overlay.Class :=
  {| Overlay.bl_idname := name; Overlay.draw := Cb n |}.

Lemma overlay_round_trip_witness :
  let p2 := pexec (Overlay.unregister_overlay (example_overlay "stats" 1))
              (pexec (Overlay.register_overlay (example_overlay "stats" 1))
                     example_process) in
  registration_set (world_of p2) = [] /\
  installed (process_host p2) = [] /\
  driver_namespace p2 = [("_imgui_stats"%string, 0)].
Proof.
  intros p2.
  destruct (overlay_round_trip example_process (example_overlay "stats" 1)
              eq_refl (Forall_nil _))
    as (_ & _ & _ & _ & H5 & H6 & _).
  split; [exact H5|]. split; [exact H6|]. vm_compute. reflexivity.
Defined.

(** X24: the handle an overlay leaves in [driver_namespace] goes stale: after
    overlay A was registered and unregistered in a process without a
    context, overlay B gets A's handle 0, and unregistering A once more
    removes B's callback and tears the context down; B's own
    [unregister_overlay] then only prints the invalid-handle error. *)
Theorem stale_overlay_handle_removes_another (p : Process)
  (a b : Overlay.Class) :
  imgui_ctx (self (world_of p)) = None ->
  let p1 := pexec (Overlay.register_overlay a) p in
  let p2 := pexec (Overlay.unregister_overlay a) p1 in
  let p3 := pexec (Overlay.register_overlay b) p2 in
  let p4 := pexec (Overlay.unregister_overlay a) p3 in
  let p5 := pexec (Overlay.unregister_overlay b) p4 in
  registration_set (world_of p3) = [(0, (Overlay.draw b, SpaceView3D))] /\
  presult (Overlay.unregister_overlay a) p3 = Return tt /\
  registration_set (world_of p4) = [] /\
  imgui_ctx (self (world_of p4)) = None /\
  log (process_host p5) =
    log (process_host p4) ++
    [print "Error: invalid imgui callback handle: " 0].
Proof.
  intros Hc p1 p2 p3 p4 p5.
  destruct (add_remove_inactive (world_of p) (Overlay.draw a) SpaceView3D Hc)
    as (A1 & _ & _ & _ & A5 & _).
  destruct (register_overlay_eq a p 0 A1) as (_ & R2 & R3).
  fold p1 in R2, R3.
  assert (G1 : PyDict.getitem String.eqb (Overlay.namespace_key a)
                 (driver_namespace p1) = Some 0)
    by (rewrite R3; apply getitem_setitem).
  destruct (unregister_overlay_eq a p1 0 G1) as (_ & U2 & U3).
  fold p2 in U2, U3. rewrite R2 in U2.
  assert (Hc2 : imgui_ctx (self (world_of p2)) = None)
    by (rewrite U2; exact A5).
  destruct (add_remove_inactive (world_of p2) (Overlay.draw b) SpaceView3D Hc2)
    as (B1 & B2 & _ & B4 & B5 & B6 & _).
  destruct (register_overlay_eq b p2 0 B1) as (_ & S2 & S3).
  fold p3 in S2, S3.
  assert (G3a : PyDict.getitem String.eqb (Overlay.namespace_key a)
                  (driver_namespace p3) = Some 0).
  { rewrite S3. apply getitem_setitem_same_value. rewrite U3. exact G1. }
  assert (G3b : PyDict.getitem String.eqb (Overlay.namespace_key b)
                  (driver_namespace p3) = Some 0)
    by (rewrite S3; apply getitem_setitem).
  destruct (unregister_overlay_eq a p3 0 G3a) as (V1 & V2 & V3).
  fold p4 in V2, V3. rewrite S2 in V1, V2.
  assert (G4 : PyDict.getitem String.eqb (Overlay.namespace_key b)
                 (driver_namespace p4) = Some 0)
    by (rewrite V3; exact G3b).
  destruct (unregister_overlay_eq b p4 0 G4) as (_ & W2 & _).
  fold p5 in W2.
  split; [rewrite S2; exact B2|]. split; [rewrite V1; exact B4|].
  split; [unfold registration_set; rewrite V2, B6; reflexivity|].
  split; [rewrite V2; exact B5|].
  change (process_host p5) with (host (world_of p5)).
  change (process_host p4) with (host (world_of p4)).
  rewrite W2.
  assert (Hcb : callbacks (self (world_of p4)) = Some [])
    by (rewrite V2; exact B6).
  unfold exec.
  rewrite (handler_remove_unknown 0 (world_of p4) [] Hcb eq_refl).
  reflexivity.
Qed.

Lemma stale_overlay_handle_removes_another_witness :
  let a := example_overlay "stats" 1 in
  let b := example_overlay "grid" 2 in
  let p3 := pexec (Overlay.register_overlay b)
              (pexec (Overlay.unregister_overlay a)
                 (pexec (Overlay.register_overlay a) example_process)) in
  registration_set (world_of p3) = [(0, (Cb 2, SpaceView3D))] /\
  registration_set (world_of (pexec (Overlay.unregister_overlay a) p3)) = [].
Proof.
  intros a b p3.
  destruct (stale_overlay_handle_removes_another example_process a b eq_refl)
    as (H1 & _ & H3 & _).
  split; [exact H1 | exact H3].
Defined.

(** X25: an operator's [init_imgui] stores the handle of its registration and
    [shutdown_imgui] removes exactly that registration: in a process without
    a context the pair leaves no callback and no context; on an instance
    whose [init_imgui] never ran, [shutdown_imgui] raises for the missing
    [imgui_handle] and leaves the process as it is. *)
Theorem operator_init_then_shutdown (p : Process)
  (operator : OperatorInstance.Instance) :
  imgui_ctx (self (world_of p)) = None ->
  let started := OperatorInstance.init_imgui operator p in
  let operator1 := snd (fst started) in
  let p1 := snd started in
  let p2 := pexec (OperatorInstance.shutdown_imgui operator1) p1 in
  fst (fst started) = Return tt /\
  OperatorInstance.imgui_handle operator1 = Some 0 /\
  registration_set (world_of p1) =
    [(0, (OperatorInstance.draw operator, SpaceView3D))] /\
  presult (OperatorInstance.shutdown_imgui operator1) p1 = Return tt /\
  registration_set (world_of p2) = [] /\
  imgui_ctx (self (world_of p2)) = None /\
  OperatorInstance.shutdown_imgui
    {| OperatorInstance.draw := OperatorInstance.draw operator;
       OperatorInstance.imgui_handle := None |} p
    = (Raise (AttributeError "imgui_handle"), p).
Proof.
  intros Hc started operator1 p1 p2.
  destruct (add_remove_inactive (world_of p) (OperatorInstance.draw operator)
              SpaceView3D Hc) as (A1 & A2 & _ & A4 & A5 & A6 & _).
  destruct (on_instance_eq
              (handler_add (OperatorInstance.draw operator) SpaceView3D) p)
    as (H1 & H2 & _).
  rewrite A1 in H1.
  assert (Hs : started =
    (Return tt,
     {| OperatorInstance.draw := OperatorInstance.draw operator;
        OperatorInstance.imgui_handle := Some 0 |},
     pexec (Singleton.on_instance
              (handler_add (OperatorInstance.draw operator) SpaceView3D)) p)).
  { unfold started, OperatorInstance.init_imgui, Singleton.imgui_handler_add.
    unfold presult, pexec in *.
    destruct (Singleton.on_instance
                (handler_add (OperatorInstance.draw operator) SpaceView3D) p)
      as [r p']. simpl in H1. subst r. reflexivity. }
  unfold p2, p1, operator1. clear p2 p1 operator1. rewrite Hs. clear Hs.
  cbn [fst snd].
  set (q := pexec (Singleton.on_instance
              (handler_add (OperatorInstance.draw operator) SpaceView3D)) p)
    in *.
  change (OperatorInstance.shutdown_imgui
            {| OperatorInstance.draw := OperatorInstance.draw operator;
               OperatorInstance.imgui_handle := Some 0 |})
    with (Singleton.on_instance (handler_remove 0)).
  destruct (on_instance_eq (handler_remove 0) q) as (K1 & K2 & _).
  rewrite H2 in K1, K2.
  split; [reflexivity|]. split; [reflexivity|].
  split; [rewrite H2; exact A2|].
  split; [rewrite K1; exact A4|].
  split; [unfold registration_set; rewrite K2, A6; reflexivity|].
  split; [rewrite K2; exact A5 | reflexivity].
Qed.

Lemma operator_init_then_shutdown_witness :
  let operator := {| OperatorInstance.draw := Cb 7;
                     OperatorInstance.imgui_handle := None |} in
  let started := OperatorInstance.init_imgui operator example_process in
  OperatorInstance.imgui_handle (snd (fst started)) = Some 0 /\
  registration_set
    (world_of (pexec (OperatorInstance.shutdown_imgui (snd (fst started)))
                     (snd started))) = [].
Proof.
  intros operator started.
  destruct (operator_init_then_shutdown example_process operator eq_refl)
    as (_ & H2 & _ & _ & H5 & _).
  split; [exact H2 | exact H5].
Defined.
